(** * Admission-officer chatbot: retrieval, memory and classification

    A shallow embedding of the retrieval / memory / classification code of
    the repository ([src/utils.py], [src/query.py], [src/ollama_client.py],
    [api.py]) together with the properties its specification states.

    Conventions of the embedding.
    - A Python [str] is a [string] (a sequence of 8-bit characters); the
      Python string methods used by the code ([lower], [split], [strip],
      [in]) are given their ASCII meaning.
    - A Python [int] is a [Z]; a Python list is a [list]; slices are written
      out with Python's clamping rules.
    - A Python [set] of strings is a duplicate-free [list]; its iteration
      order is not specified by Python, so statements about a list obtained
      from a set speak of membership and multiplicity only.
    - External services (embedding model, vector store, generator, clock,
      file system) are fields of an environment record; a call that raises
      is a [None] / [inl] result. *)

From Stdlib Require Import ZArith List String Ascii Bool Lia Arith DecimalString.
From Stdlib Require Import Sorting.Permutation Sorting.Sorted.
Import ListNotations.
Set Warnings "-register-all".
Open Scope string_scope.
Open Scope list_scope.
Open Scope Z_scope.

(* ================================================================== *)
(** * Python primitives used by the code *)
(* ================================================================== *)

Module Py.

(** [l[i:]] and [l[:i]] : a negative index counts from the end, and the
    result is clamped to the bounds of the list. *)
Definition norm_index (i len : Z) : Z :=
  if i <? 0 then Z.max 0 (i + len) else Z.min i len.

Definition slice_from {A} (start : Z) (l : list A) : list A :=
  skipn (Z.to_nat (norm_index start (Z.of_nat (List.length l)))) l.

Definition slice_to {A} (stop : Z) (l : list A) : list A :=
  firstn (Z.to_nat (norm_index stop (Z.of_nat (List.length l)))) l.

(** [len(l)] *)
Definition len {A} (l : list A) : Z := Z.of_nat (List.length l).

(** Truthiness of a string and of an optional string ([None] and the empty
    string are false). *)
Definition truthy (s : string) : bool :=
  match s with EmptyString => false | _ => true end.

Definition truthy_opt (o : option string) : bool :=
  match o with Some s => truthy s | None => false end.

(** [a or b] on optional strings. *)
Definition or_else (a b : option string) : option string :=
  if truthy_opt a then a else b.

(** [c.lower()] on one character. *)
Definition lower_ascii (c : ascii) : ascii :=
  let n := nat_of_ascii c in
  if ((65 <=? n) && (n <=? 90))%nat then ascii_of_nat (n + 32) else c.

(** [s.lower()] *)
Fixpoint lower (s : string) : string :=
  match s with
  | EmptyString => EmptyString
  | String c r => String (lower_ascii c) (lower r)
  end.

(** The characters [str.split()] and [str.strip()] treat as white space
    among the ASCII characters: tab, line feed, vertical tab, form feed,
    carriage return, the four separators 0x1c-0x1f and the space.  Python
    also counts white space outside ASCII (the no-break space U+00A0 and
    others), which this predicate does not see: on text with characters
    above 127 the functions built on it may keep what Python removes. *)
Definition is_space (c : ascii) : bool :=
  let n := nat_of_ascii c in
  (((9 <=? n) && (n <=? 13)) || ((28 <=? n) && (n <=? 32)))%nat.

(** [c in chars] for a character. *)
Fixpoint mem_char (c : ascii) (chars : string) : bool :=
  match chars with
  | EmptyString => false
  | String d r => if Ascii.eqb c d then true else mem_char c r
  end.

Fixpoint lstrip_by (p : ascii -> bool) (s : string) : string :=
  match s with
  | EmptyString => EmptyString
  | String c r => if p c then lstrip_by p r else s
  end.

(** Strip on the right: a character is dropped when it satisfies [p] and
    everything after it has been dropped. *)
Fixpoint rstrip_by (p : ascii -> bool) (s : string) : string :=
  match s with
  | EmptyString => EmptyString
  | String c r =>
      match rstrip_by p r with
      | EmptyString => if p c then EmptyString else String c EmptyString
      | r' => String c r'
      end
  end.

(** [s.strip()] *)
Definition strip (s : string) : string :=
  rstrip_by is_space (lstrip_by is_space s).

(** [s.strip(chars)] *)
Definition strip_chars (chars s : string) : string :=
  rstrip_by (fun c => mem_char c chars) (lstrip_by (fun c => mem_char c chars) s).

(** [s.split()] : maximal runs of non-space characters, in order.
    [cur] is the run being read, reversed. *)
Fixpoint rev_string (acc s : string) : string :=
  match s with
  | EmptyString => acc
  | String c r => rev_string (String c acc) r
  end.

Definition flush (cur : string) (out : list string) : list string :=
  match cur with
  | EmptyString => out
  | _ => rev_string EmptyString cur :: out
  end.

Fixpoint split_aux (cur : string) (s : string) : list string :=
  match s with
  | EmptyString => flush cur []
  | String c r =>
      if is_space c then flush cur (split_aux EmptyString r)
      else split_aux (String c cur) r
  end.

Definition split (s : string) : list string := split_aux EmptyString s.

(** [needle in hay] on strings. *)
Fixpoint contains (needle hay : string) : bool :=
  String.prefix needle hay
  || match hay with
     | EmptyString => false
     | String _ r => contains needle r
     end.

(** [x in l] for a list of strings. *)
Definition mem (x : string) (l : list string) : bool :=
  existsb (String.eqb x) l.

(** [set(l)] : the distinct elements of [l]. *)
Definition set_of (l : list string) : list string := nodup string_dec l.

(** [a & b] on sets. *)
Definition inter (a b : list string) : list string :=
  filter (fun x => mem x b) a.

(** [str(n)] for an integer. *)
Definition str_of_Z (n : Z) : string :=
  match n with
  | Z0 => "0"
  | Zpos p => NilZero.string_of_uint (Pos.to_uint p)
  | Zneg p => String.append "-" (NilZero.string_of_uint (Pos.to_uint p))
  end.

(** [len(s)] for a string. *)
Definition strlen (s : string) : Z := Z.of_nat (String.length s).

(** [s[start:stop]] for a string, with the clamping of list slices. *)
Definition substr (start stop : Z) (s : string) : string :=
  let l := list_ascii_of_string s in
  let n := Z.of_nat (List.length l) in
  string_of_list_ascii
    (skipn (Z.to_nat (norm_index start n))
           (firstn (Z.to_nat (norm_index stop n)) l)).

End Py.

(* ================================================================== *)
(** * src/utils.py : ConversationMemory *)
(* ================================================================== *)

Module Utils.

(** One entry of [history]: the dict [{"question": q, "answer": a}]. *)
Record Interaction := mkInteraction {
  question : string;
  answer : string
}.

Record ConversationMemory := mkMemory {
  window_size : Z;
  history : list Interaction
}.

(** [ConversationMemory(window_size)] *)
Definition init (w : Z) : ConversationMemory := mkMemory w [].

(** [add_interaction] : append, then keep [history[-window_size:]] when the
    list has grown beyond the window. *)
Definition add_interaction (m : ConversationMemory) (q a : string)
  : ConversationMemory :=
  let h := history m ++ [mkInteraction q a] in
  if Py.len h >? window_size m
  then mkMemory (window_size m) (Py.slice_from (- window_size m) h)
  else mkMemory (window_size m) h.

Definition get_history (m : ConversationMemory) : list Interaction := history m.

Definition clear (m : ConversationMemory) : ConversationMemory :=
  mkMemory (window_size m) [].

(** [__len__] *)
Definition len (m : ConversationMemory) : Z := Py.len (history m).

(** A sequence of calls to [add_interaction], in call order. *)
Definition add_all (m : ConversationMemory) (xs : list Interaction)
  : ConversationMemory :=
  fold_left (fun m x => add_interaction m (question x) (answer x)) xs m.

(** The last [n] elements of a list. *)
Definition lastn {A} (n : nat) (l : list A) : list A :=
  skipn (List.length l - n) l.

(** ** chunk_text *)

Definition cr : ascii := ascii_of_nat 13.
Definition lf : ascii := ascii_of_nat 10.

(** [text.replace("\r\n", "\n")] : left to right, without overlap. *)
Fixpoint replace_crlf (s : string) : string :=
  match s with
  | EmptyString => EmptyString
  | String c r =>
      if Ascii.eqb c cr
      then match r with
           | String d r' =>
               if Ascii.eqb d lf then String lf (replace_crlf r')
               else String c (replace_crlf r)
           | EmptyString => String c EmptyString
           end
      else String c (replace_crlf r)
  end.

(** [text.replace("\r", "\n")] *)
Fixpoint replace_cr (s : string) : string :=
  match s with
  | EmptyString => EmptyString
  | String c r => String (if Ascii.eqb c cr then lf else c) (replace_cr r)
  end.

(** The [while start < length] loop; [fuel] bounds the number of
    iterations and [None] means the bound was reached. *)
Fixpoint chunk_loop (fuel : nat) (text : string) (chunk_size overlap : Z)
  (start : Z) (chunks : list string) : option (list string) :=
  match fuel with
  | O => None
  | S fuel' =>
      if start <? Py.strlen text
      then
        let end_ := start + chunk_size in
        let chunk := Py.substr start end_ text in
        let start' := end_ - overlap in
        let start'' := if start' <? 0 then 0 else start' in
        chunk_loop fuel' text chunk_size overlap start''
                   (chunks ++ [Py.strip chunk])
      else Some chunks
  end.

(** [chunk_text(text, chunk_size, overlap)] *)
Definition chunk_text (fuel : nat) (text : string) (chunk_size overlap : Z)
  : option (list string) :=
  if negb (Py.truthy text) then Some []
  else
    let text := replace_cr (replace_crlf text) in
    match chunk_loop fuel text chunk_size overlap 0 [] with
    | Some chunks => Some (filter Py.truthy chunks)
    | None => None
    end.

(** ** get_formatted_history *)

(** [str(i)] for a turn number. *)
Definition str_of_nat (i : nat) : string := Py.str_of_Z (Z.of_nat i).

(** The three strings appended for the [i]-th interaction; the first
    begins with a line feed. *)
Definition turn_lines (i : nat) (interaction : Interaction) : list string :=
  [String.append (String lf "Turn ") (String.append (str_of_nat i) ":");
   String.append "Student: " (question interaction);
   String.append "Assistant: " (answer interaction)].

(** The loop over [enumerate(self.history, 1)], from turn number [i]. *)
Fixpoint formatted_turns (i : nat) (h : list Interaction) : list string :=
  match h with
  | [] => []
  | interaction :: rest =>
      turn_lines i interaction ++ formatted_turns (S i) rest
  end.

Definition get_formatted_history (m : ConversationMemory) : string :=
  match history m with
  | [] => ""
  | _ =>
      String.concat (String lf "")
        ("Previous conversation:" :: formatted_turns 1 (history m))
  end.

End Utils.

(* ================================================================== *)
(** * src/ollama_client.py *)
(* ================================================================== *)

Module Ollama.

(** A call that may raise. *)
Inductive result (A : Type) : Type :=
| Ok (a : A)
| Raise (msg : string).
Arguments Ok {A} a.
Arguments Raise {A} msg.

(** One chat message [{"role": r, "content": c}]. *)
Record Message := mkMessage {
  role : string;
  content : string
}.

(** The [messages] list built by [OllamaClient.generate]. *)
Definition build_messages (system prompt : string)
  (conversation_history : list Utils.Interaction) : list Message :=
  [mkMessage "system" system]
  ++ flat_map (fun interaction =>
                 [mkMessage "user" (Utils.question interaction);
                  mkMessage "assistant" (Utils.answer interaction)])
              conversation_history
  ++ [mkMessage "user" prompt].

(** [generate] : [chat] is the model endpoint, which may raise. *)
Definition generate (chat : list Message -> result string)
  (system prompt : string) (conversation_history : list Utils.Interaction)
  : result string :=
  chat (build_messages system prompt conversation_history).

(** [OllamaClient.embed] : one request per text, in order; the first
    request that fails (an exception, or a response without an embedding)
    makes the whole call return the empty list.  [embed_one] is the
    embedding endpoint for one text. *)
Fixpoint embed_texts {Embedding : Type} (embed_one : string -> result Embedding)
  (texts : list string) : option (list Embedding) :=
  match texts with
  | [] => Some []
  | text :: rest =>
      match embed_one text with
      | Raise _ => None
      | Ok e =>
          match embed_texts embed_one rest with
          | Some embeddings => Some (e :: embeddings)
          | None => None
          end
      end
  end.

Definition embed {Embedding : Type} (embed_one : string -> result Embedding)
  (texts : list string) : list Embedding :=
  match embed_texts embed_one texts with
  | Some embeddings => embeddings
  | None => []
  end.

End Ollama.

(* ================================================================== *)
(** * src/query.py *)
(* ================================================================== *)

Module Query.

Import Utils.

(** The line feed and the double quote, which the code writes as escapes. *)
Definition nl : string := String (ascii_of_nat 10) EmptyString.
Definition dquote : string := String (ascii_of_nat 34) EmptyString.

(** String concatenation, as in an f-string. *)
Definition cat (l : list string) : string := String.concat "" l.

Import Ollama.

(** ** Metadata and dataset entries *)

(** The metadata dict stored with every indexed text; [m.get(k)] is the
    field, [None] when the key is absent. *)
Record Meta := mkMeta {
  m_source : option string;
  m_qa_id : option string;
  m_category : option string;
  m_question : option string;
  m_answer : option string
}.

Definition empty_meta : Meta := mkMeta None None None None None.

(** A scalar of [data.json], as [str(...)] is applied to it. *)
Inductive Scalar :=
| SStr (s : string)
| SInt (n : Z).

Definition str (v : Scalar) : string :=
  match v with
  | SStr s => s
  | SInt n => Py.str_of_Z n
  end.

(** One object of [data.json]; a field is [None] when the key is absent. *)
Record Entry := mkEntry {
  e_id : option Scalar;
  e_category : option string;
  e_question : option Scalar;
  e_answer : option Scalar
}.

(** [entry.get(k, default)] *)
Definition get {A} (o : option A) (default : A) : A :=
  match o with Some v => v | None => default end.

(** ** save_result *)

(** A JSON value, as [json.load] returns it and [json.dump] writes it. *)
Inductive Json :=
| JNull
| JBool (b : bool)
| JNum (n : Z)
| JString (s : string)
| JArr (l : list Json)
| JObj (fields : list (string * Json)).

(** The file [RESULTS_DIR/RESULTS_FILENAME], by what reading it does:
    the file is absent; [json.load] returns a document; the file holds
    UTF-8 text on which [json.load] raises [JSONDecodeError]; or the file
    holds bytes that are not UTF-8 text, on which the read raises
    [UnicodeDecodeError]. *)
Inductive LogFile :=
| NoFile
| FileJson (v : Json)
| FileUndecodable (raw : string)
| FileNotUtf8 (raw : string).

(** [current_result] *)
Definition log_record (query answer : string) (sources : list string)
  (timestamp : string) : Json :=
  JObj [("query", JString query);
        ("answer", JString answer);
        ("sources", JArr (map JString sources));
        ("timestamp", JString timestamp)].

(** [save_result] : the file after the call.  [timestamp] is
    [datetime.now().isoformat()].  The handler names [JSONDecodeError]
    only, so the [UnicodeDecodeError] of a file that is not UTF-8 leaves
    the function before the file is opened for writing. *)
Definition save_result (file : LogFile) (query answer : string)
  (sources : list string) (timestamp : string) : result LogFile :=
  let current_result := log_record query answer sources timestamp in
  match file with
  | FileJson (JArr data) => Ok (FileJson (JArr (data ++ [current_result])))
  | FileJson data => Ok (FileJson (JArr ([data] ++ [current_result])))
  | FileUndecodable _ => Ok (FileJson (JArr ([] ++ [current_result])))
  | FileNotUtf8 _ => Raise "UnicodeDecodeError"
  | NoFile => Ok (FileJson (JArr [current_result]))
  end.

(** ** retrieve_with_chroma *)

Section Chroma.

Variable Embedding : Type.

(** [col.query(query_embeddings=[e], n_results=k, where=...)] on the
    collection [qa_knowledge], already projected on the first row of
    [documents] and [metadatas]; the metadata of a document is a dict, or
    [None] for a document stored without metadata; [Raise] stands for any
    exception of the client, of [get_collection] or of the query. *)
Variable col_query :
  Embedding -> Z -> option string -> result (list string * list (option Meta)).

Definition retrieve_with_chroma (query_embedding : Embedding) (top_k : Z)
  (category_filter : option string) : list string * list (option Meta) :=
  let r :=
    if Py.truthy_opt category_filter
    then col_query query_embedding top_k category_filter
    else col_query query_embedding top_k None in
  match r with
  | Ok (docs, metas) => (docs, metas)
  | Raise _ => ([], [])
  end.

End Chroma.

(** ** format_context *)

Definition fragment (dm : string * Meta) : string :=
  let (d, m) := dm in
  match m_category m with
  | Some category =>
      if Py.truthy category
      then cat ["Category: "; category; nl; d; nl; "---"; nl]
      else cat [d; nl; "---"; nl]
  | None => cat [d; nl; "---"; nl]
  end.

Definition format_context (docs : list string) (metas : list Meta) : string :=
  String.concat nl (map fragment (combine docs metas)).

(** [format_context] on what the vector store returned.  The loop reads
    the pairs of [zip(docs, metas)] in order and calls [m.get] on each
    metadata, which raises [AttributeError] at the first one that is not a
    dict. *)
Fixpoint zipped_dicts (docs : list string) (metas : list (option Meta))
  : result (list Meta) :=
  match docs, metas with
  | _ :: docs', Some m :: metas' =>
      match zipped_dicts docs' metas' with
      | Ok ms => Ok (m :: ms)
      | Raise msg => Raise msg
      end
  | _ :: _, None :: _ => Raise "AttributeError"
  | _, _ => Ok []
  end.

Definition format_context_stored (docs : list string)
  (metas : list (option Meta)) : result string :=
  match zipped_dicts docs metas with
  | Ok ms => Ok (format_context docs ms)
  | Raise msg => Raise msg
  end.

(** ** detect_category *)

Definition category_keywords : list (string * list string) :=
  [("Admissions", ["apply"; "admission"; "accept"; "requirements"; "application"; "enroll"]);
   ("Fees", ["fee"; "tuition"; "cost"; "payment"; "credit"; "price"; "pay"; "refund"]);
   ("Academics", ["gpa"; "grades"; "scores"; "grade"; "cgpa"; "dean"]);
   ("Academic Advising", ["advisor"; "track"; "course"; "major"; "register"; "summer course"]);
   ("IT & Systems", ["portal"; "moodle"; "login"; "system"; "technical"; "support"]);
   ("Emails", ["email"; "gmail"; "outlook"; "mail"; "inbox"; "address"; "contact email"])].

(** [sum(1 for keyword in keywords if keyword in query_lower)] *)
Definition keyword_score (keywords : list string) (query_lower : string) : Z :=
  Py.len (filter (fun keyword => Py.contains keyword query_lower) keywords).

(** The dict [category_scores], in insertion order. *)
Fixpoint scores_of (table : list (string * list string)) (query_lower : string)
  : list (string * Z) :=
  match table with
  | [] => []
  | (category, keywords) :: rest =>
      let score := keyword_score keywords query_lower in
      if score >? 0
      then (category, score) :: scores_of rest query_lower
      else scores_of rest query_lower
  end.

(** [max(d, key=d.get)] on a non-empty dict: the keys are visited in
    insertion order and the running maximum is replaced only by a strictly
    larger value. *)
Fixpoint max_key (best : string * Z) (rest : list (string * Z)) : string :=
  match rest with
  | [] => fst best
  | (c, s) :: rest' =>
      if s >? snd best then max_key (c, s) rest' else max_key best rest'
  end.

Definition detect_category_in (table : list (string * list string))
  (query : string) : option string :=
  match scores_of table (Py.lower query) with
  | [] => None
  | best :: rest => Some (max_key best rest)
  end.

Definition detect_category (query : string) : option string :=
  detect_category_in category_keywords query.

(** ** local_retrieve *)

(** The loop over [data]: the texts [items] and their [metadatas], in
    dataset order. *)
Fixpoint load_items (json_path : string) (category_filter : option string)
  (data : list Entry) : list string * list Meta :=
  match data with
  | [] => ([], [])
  | entry :: rest =>
      let (items, metadatas) := load_items json_path category_filter rest in
      let category := get (e_category entry) "General" in
      if Py.truthy_opt category_filter
         && negb (String.eqb category (get category_filter ""))
      then (items, metadatas)
      else
        let qa_id := get (e_id entry) (SStr "") in
        let qtext := Py.strip (str (get (e_question entry) (SStr ""))) in
        let atext := Py.strip (str (get (e_answer entry) (SStr ""))) in
        if Py.truthy qtext || Py.truthy atext
        then (cat ["Question: "; qtext; nl; "Answer: "; atext] :: items,
              mkMeta (Some json_path) (Some (str qa_id)) (Some category)
                     (Some qtext) (Some atext) :: metadatas)
        else (items, metadatas)
  end.

(** The characters removed by the [strip] call on item words: full stop,
    comma, both parentheses and the double quote. *)
Definition strip_set : string := String.append ".,()" dquote.

Definition query_tokens (query : string) : list string :=
  Py.set_of (map Py.lower (Py.split query)).

Definition item_tokens (item : string) : list string :=
  Py.set_of (map (fun w => Py.strip_chars strip_set (Py.lower w)) (Py.split item)).

(** [len(q_tokens & item_tokens)] *)
Definition overlap (q_tokens : list string) (item : string) : Z :=
  Py.len (Py.inter q_tokens (item_tokens item)).

(** [enumerate(l)] *)
Definition enumerate {A} (l : list A) : list (nat * A) :=
  combine (seq 0 (List.length l)) l.

(** [sorted(l, key=lambda x: x[1], reverse=True)] : a stable sort, larger
    keys first; elements with equal keys keep their order. *)
Fixpoint insert_desc (x : nat * Z) (l : list (nat * Z)) : list (nat * Z) :=
  match l with
  | [] => [x]
  | y :: r => if snd x <? snd y then y :: insert_desc x r else x :: l
  end.

Definition sorted_desc (l : list (nat * Z)) : list (nat * Z) :=
  fold_right insert_desc [] l.

(** [ranked[:top_k]] restricted to positive scores. *)
Definition top_ranked (scores : list Z) (top_k : Z) : list (nat * Z) :=
  filter (fun x => snd x >? 0)
         (Py.slice_to top_k (sorted_desc (enumerate scores))).

(** [data_json] is the content of [data.json]: [None] when the file is
    missing or when reading it raises. *)
Definition local_retrieve (json_path : string) (data_json : option (list Entry))
  (query : string) (top_k : Z) (category_filter : option string)
  : list string * list Meta :=
  let (items, metadatas) :=
    match data_json with
    | Some data => load_items json_path category_filter data
    | None => ([], [])
    end in
  match items with
  | [] => ([], [])
  | _ =>
      let q_tokens := query_tokens query in
      let scores := map (overlap q_tokens) items in
      let top := top_ranked scores top_k in
      (map (fun x => nth (fst x) items "") top,
       map (fun x => nth (fst x) metadatas empty_meta) top)
  end.

(** ** Provenance tags *)

(** The loop building [sources] from [metas]. *)
Definition source_tag (m : Meta) : list string :=
  if Py.truthy_opt (m_qa_id m)
  then [cat ["QA#"; get (m_qa_id m) ""; " ("; get (m_category m) "None"; ")"]]
  else if Py.truthy_opt (m_source m)
       then [get (m_source m) ""]
       else [].

Definition source_tags (metas : list Meta) : list string :=
  flat_map source_tag metas.

(** [list(set(sources))] *)
Definition sources_of (metas : list Meta) : list string :=
  Py.set_of (source_tags metas).

(** The metadata that pass the test [isinstance(m, dict)] of the loop. *)
Definition dicts (metas : list (option Meta)) : list Meta :=
  flat_map (fun m => match m with Some d => [d] | None => [] end) metas.

(** ** The retrieval stage of the orchestrators *)

(** External calls, in the order in which they are made. *)
Inductive Event :=
| EvEmbed (texts : list string)
| EvChroma (top_k : Z) (category_filter : option string)
| EvLocal (top_k : Z) (category_filter : option string)
| EvGenerate (context : string) (history : list Interaction).

Section Pipeline.

Variable Embedding : Type.

(** The services and files the code reaches.
    - [embed] is [ollama_client.embed], which catches the errors of the
      embedding service and returns an empty list on failure;
    - [col_query] is the vector store (see [retrieve_with_chroma]);
    - [chat] is the model endpoint behind [generate];
    - [data_json] and [json_path] are the flat dataset read by
      [local_retrieve];
    - [now n] is the [n]-th reading of the clock during a request. *)
Record Env := mkEnv {
  embed : list string -> list Embedding;
  col_query : Embedding -> Z -> option string
              -> result (list string * list (option Meta));
  chat : list Ollama.Message -> result string;
  data_json : option (list Entry);
  json_path : string;
  now : nat -> string
}.

Variable env : Env.

(** The body of the inner [try]: [embed([q])[0]] raises [IndexError] on an
    empty list; otherwise the filtered query, the unfiltered one when the
    first returned no document and a category is set, and [format_context],
    which raises on a metadata that is not a dict.  [None] stands for an
    exception, which sends the caller to the [except] handler.  The
    metadata are used once more after this stage, by the loop that builds
    [sources], which skips what is not a dict: the stage hands on the
    dicts among them. *)
Definition vector_path (q : string) (detected_category : option string)
  : option (list string * list Meta * string) * list Event :=
  match embed env [q] with
  | [] => (None, [EvEmbed [q]])
  | q_emb :: _ =>
      let (docs, metas) :=
        retrieve_with_chroma Embedding (col_query env) q_emb 5 detected_category in
      let '(docs, metas, events) :=
        match docs with
        | [] =>
            if Py.truthy_opt detected_category
            then
              let (docs', metas') :=
                retrieve_with_chroma Embedding (col_query env) q_emb 5 None in
              (docs', metas',
               [EvEmbed [q]; EvChroma 5 detected_category; EvChroma 5 None])
            else (docs, metas, [EvEmbed [q]; EvChroma 5 detected_category])
        | _ => (docs, metas, [EvEmbed [q]; EvChroma 5 detected_category])
        end in
      match format_context_stored docs metas with
      | Ok ctx => (Some (docs, dicts metas, ctx), events)
      | Raise _ => (None, events)
      end
  end.

(** The body of the [except] handler up to [ctx]: [None] when [docs] is
    still empty, where [api.py] raises the 404 and [run] continues with the
    next question. *)
Definition keyword_path (q : string) (detected_category : option string)
  : option (list string * list Meta * string) * list Event :=
  let (docs, metas) :=
    local_retrieve (json_path env) (data_json env) q 3 detected_category in
  let '(docs, metas, events) :=
    match docs with
    | [] =>
        if Py.truthy_opt detected_category
        then
          let (docs', metas') :=
            local_retrieve (json_path env) (data_json env) q 3 None in
          (docs', metas', [EvLocal 3 detected_category; EvLocal 3 None])
        else (docs, metas, [EvLocal 3 detected_category])
    | _ => (docs, metas, [EvLocal 3 detected_category])
    end in
  match docs with
  | [] => (None, events)
  | _ => (Some (docs, metas, format_context docs metas), events)
  end.

(** [try: vector path  except Exception: keyword path]. *)
Definition retrieve (q : string) (detected_category : option string)
  : option (list string * list Meta * string) * list Event :=
  match vector_path q detected_category with
  | (Some r, events) => (Some r, events)
  | (None, events) =>
      let (r, events') := keyword_path q detected_category in
      (r, events ++ events')
  end.

(** The prompt handed to the generator. *)
Definition make_prompt (ctx q : string) : string :=
  cat ["Use the following context to answer the question."; nl; nl;
       "CONTEXT:"; nl; ctx; nl; nl; "QUESTION:"; nl; q; nl; nl;
       "Answer concisely."].

(** ** run : one turn of the interactive loop *)

(** The [system] text of [run]. *)
Definition system : string :=
  let indent := "        " in
  cat [nl;
   indent; "You are an AI admissions officer at Nile University. Your role is to provide accurate, friendly, and helpful guidance to prospective students."; nl;
   indent; "Answer questions about programs, courses, application deadlines, admission requirements, scholarships, and campus life."; nl;
   indent; "Guide students step-by-step through the application process when needed."; nl;
   indent; "Clarify university policies politely and professionally."; nl;
   indent; "Adapt your tone to be friendly, encouraging, and approachable while maintaining professionalism."; nl;
   indent; "Ask follow-up questions to better understand the student’s needs before giving detailed advice."; nl;
   indent; "Avoid giving inaccurate or vague information; if you don't know the answer, direct the student to official resources."; nl;
   indent; "Use the conversation history to provide contextual and coherent responses that reference previous interactions when relevant."; nl;
   indent; "Do not include any internal metadata (IDs, file names, chunk indices, or bracketed tags) in your final answer."; nl;
   indent].

(** What one pass through the body of [while True] does. *)
Inductive Turn :=
| Continue                 (** blank line, [clear], or no local document *)
| Break                    (** [exit] / [quit] *)
| Answered (out : string) (sources : list string)
| Uncaught (msg : string). (** [generate] or [save_result] raised: the loop is left *)

Record RunState := mkRunState {
  memory : ConversationMemory;
  results_file : LogFile
}.

(** [line] is what [input] returned. *)
Definition run_turn (st : RunState) (line : string)
  : Turn * RunState * list Event :=
  let q := Py.strip line in
  if negb (Py.truthy q) then (Continue, st, [])
  else if Py.mem (Py.lower q) ["exit"; "quit"] then (Break, st, [])
  else if String.eqb (Py.lower q) "clear"
  then (Continue, mkRunState (clear (memory st)) (results_file st), [])
  else
    let detected_category := detect_category q in
    match retrieve q detected_category with
    | (None, events) => (Continue, st, events)
    | (Some (docs, metas, ctx), events) =>
        let history := get_history (memory st) in
        let events := events ++ [EvGenerate ctx history] in
        match Ollama.generate (chat env) system (make_prompt ctx q) history with
        | Raise msg => (Uncaught msg, st, events)
        | Ok out =>
            let memory' := add_interaction (memory st) q out in
            let sources := sources_of metas in
            match save_result (results_file st) q out sources (now env 0%nat) with
            | Raise msg =>
                (Uncaught msg, mkRunState memory' (results_file st), events)
            | Ok file => (Answered out sources, mkRunState memory' file, events)
            end
        end
    end.

End Pipeline.

End Query.

(* ================================================================== *)
(** * api.py *)
(* ================================================================== *)

Module Api.

Import Ollama Query.

(** The process-wide dict [conversation_sessions], in insertion order. *)
Definition Sessions := list (string * Utils.ConversationMemory).

Fixpoint lookup (sessions : Sessions) (session_id : string)
  : option Utils.ConversationMemory :=
  match sessions with
  | [] => None
  | (k, m) :: rest => if String.eqb k session_id then Some m else lookup rest session_id
  end.

(** [d[k] = m] : replaces the value of an existing key, else adds the key
    at the end. *)
Fixpoint store (sessions : Sessions) (session_id : string)
  (m : Utils.ConversationMemory) : Sessions :=
  match sessions with
  | [] => [(session_id, m)]
  | (k, m') :: rest =>
      if String.eqb k session_id then (k, m) :: rest
      else (k, m') :: store rest session_id m
  end.

(** [get_session_memory] : the sessions after the call and the memory of
    the session. *)
Definition get_session_memory (sessions : Sessions) (session_id : string)
  : Sessions * Utils.ConversationMemory :=
  match lookup sessions session_id with
  | Some m => (sessions, m)
  | None =>
      let m := Utils.init 10 in
      (store sessions session_id m, m)
  end.

Record QueryRequest := mkRequest {
  question : string;
  session_id : option string;
  category : option string;
  use_memory : option bool
}.

Record QueryResponse := mkResponse {
  answer : string;
  resp_category : option string;
  sources : list string;
  timestamp : string;
  memory_size : Z
}.

(** What the endpoint gives back: a response, or an [HTTPException]. *)
Inductive Outcome :=
| Response (r : QueryResponse)
| HTTPException (status_code : Z) (detail : string).

(** The mutable state the endpoint touches. *)
Record World := mkWorld {
  conversation_sessions : Sessions;
  results_file : LogFile
}.

(** The [system] text of [ask_question]. *)
Definition system : string :=
  let indent := "        " in
  cat [nl;
   indent; "You are an AI admissions officer at Nile University. Your role is to provide accurate, friendly, and helpful guidance to prospective students."; nl;
   indent; "Answer questions about programs, courses, application deadlines, admission requirements, scholarships, and campus life."; nl;
   indent; "Guide students step-by-step through the application process when needed."; nl;
   indent; "Clarify university policies politely and professionally."; nl;
   indent; "Adapt your tone to be friendly, encouraging, and approachable while maintaining professionalism."; nl;
   indent; "Ask follow-up questions to better understand the student's needs before giving detailed advice."; nl;
   indent; "Avoid giving inaccurate or vague information; if you don't know the answer, direct the student to official resources."; nl;
   indent; "Use the conversation history to provide contextual and coherent responses that reference previous interactions when relevant."; nl;
   indent; "Do not include any internal metadata (IDs, file names, chunk indices, or bracketed tags) in your final answer."; nl;
   indent].

(** Truthiness of [memory]: [None] is false, and a [ConversationMemory]
    defines [__len__] and no [__bool__], so it is false when it holds no
    interaction. *)
Definition memory_truthy (memory : option Utils.ConversationMemory) : bool :=
  match memory with
  | Some m => negb (Utils.len m =? 0)
  | None => false
  end.

(** The list [categories] of [get_categories]. *)
Definition categories : list string :=
  ["Admissions"; "Fees"; "Academics"; "Academic Advising"; "IT & Systems";
   "Emails"; "General"].

Section Endpoint.

Variable Embedding : Type.
Variable env : Env Embedding.

(** [ask_question] : the outcome, the state afterwards and the external
    calls made. *)
Definition ask_question (w : World) (request : QueryRequest)
  : Outcome * World * list Event :=
  if negb (Py.truthy (question request))
     || negb (Py.truthy (Py.strip (question request)))
  then (HTTPException 400 "Question cannot be empty", w, [])
  else
    let question := Py.strip (question request) in
    let session_id := get (Py.or_else (session_id request) (Some "default")) "default" in
    let (sessions, memory) :=
      if get (use_memory request) false
      then let (s, m) := get_session_memory (conversation_sessions w) session_id in
           (s, Some m)
      else (conversation_sessions w, None) in
    let detected_category := Py.or_else (category request) (detect_category question) in
    match retrieve Embedding env question detected_category with
    | (None, events) =>
        (HTTPException 404 "No relevant information found for this question",
         mkWorld sessions (results_file w), events)
    | (Some (docs, metas, ctx), events) =>
        let prompt := make_prompt ctx question in
        let history :=
          if memory_truthy memory
          then Utils.get_history (get memory (Utils.init 10))
          else [] in
        let events := events ++ [EvGenerate ctx history] in
        match Ollama.generate (chat Embedding env) system prompt history with
        | Raise msg =>
            (HTTPException 500 (String.append "Internal error: " msg),
             mkWorld sessions (results_file w), events)
        | Ok answer =>
            let (sessions, memory) :=
              if memory_truthy memory
              then
                let m := Utils.add_interaction (get memory (Utils.init 10))
                           question answer in
                (store sessions session_id m, Some m)
              else (sessions, memory) in
            let sources := sources_of metas in
            match save_result (results_file w) question answer sources
                    (now Embedding env 0%nat) with
            | Raise msg =>
                (HTTPException 500 (String.append "Internal error: " msg),
                 mkWorld sessions (results_file w), events)
            | Ok file =>
                (Response
                   (mkResponse answer detected_category sources
                      (now Embedding env 1%nat)
                      (if memory_truthy memory
                       then Utils.len (get memory (Utils.init 10))
                       else 0)),
                 mkWorld sessions file, events)
            end
        end
    end.

End Endpoint.

(** ** The other endpoints *)

(** [del d[k]] *)
Fixpoint remove (sessions : Sessions) (session_id : string) : Sessions :=
  match sessions with
  | [] => []
  | (k, m) :: rest =>
      if String.eqb k session_id then rest
      else (k, m) :: remove rest session_id
  end.

(** [clear_conversation_memory] : the message and the sessions afterwards. *)
Definition clear_conversation_memory (sessions : Sessions)
  (session_id : option string) : string * Sessions :=
  let session_id := get (Py.or_else session_id (Some "default")) "default" in
  match lookup sessions session_id with
  | Some m =>
      (String.append "Memory cleared for session: " session_id,
       store sessions session_id (Utils.clear m))
  | None => ("No memory found for this session", sessions)
  end.

(** [delete_session] *)
Definition delete_session (sessions : Sessions) (session_id : string)
  : string * Sessions :=
  match lookup sessions session_id with
  | Some _ =>
      (cat ["Session "; session_id; " deleted"], remove sessions session_id)
  | None => ("Session not found", sessions)
  end.

(** One entry of the list returned by [list_sessions]. *)
Record SessionInfo := mkSessionInfo {
  info_session_id : string;
  interactions : Z;
  max_size : Z
}.

(** [list_sessions] : [active_sessions] and [sessions]. *)
Definition list_sessions (sessions : Sessions) : Z * list SessionInfo :=
  let infos :=
    map (fun '(session_id, memory) =>
           mkSessionInfo session_id (Utils.len memory) (Utils.window_size memory))
        sessions in
  (Py.len infos, infos).

(** [detect_question_category] : the 400 error, or the category list with
    the detected category. *)
Definition detect_question_category (request : QueryRequest)
  : Outcome + (list string * option string) :=
  if negb (Py.truthy (question request))
     || negb (Py.truthy (Py.strip (question request)))
  then inl (HTTPException 400 "Question cannot be empty")
  else inr (categories, detect_category (Py.strip (question request))).

End Api.

(* ================================================================== *)
(** * src/ingest.py *)
(* ================================================================== *)

Module Ingest.

Import Ollama Query.

(** [entry.get(key, '').strip()] : only a string has [strip]. *)
Definition stripped (field : option Scalar) : result string :=
  match field with
  | None => Ok (Py.strip "")
  | Some (SStr s) => Ok (Py.strip s)
  | Some (SInt _) => Raise "AttributeError"
  end.

(** The loop over [data]: [all_texts], [metadatas] and [ids], in dataset
    order, or the exception of the first entry on which [strip] fails. *)
Fixpoint prepare (data : list Entry)
  : result (list string * list Meta * list string) :=
  match data with
  | [] => Ok ([], [], [])
  | entry :: rest =>
      let q_id := get (e_id entry) (SStr "unknown") in
      let category := get (e_category entry) "General" in
      match stripped (e_question entry) with
      | Raise msg => Raise msg
      | Ok question =>
          match stripped (e_answer entry) with
          | Raise msg => Raise msg
          | Ok answer =>
              if negb (Py.truthy question) && negb (Py.truthy answer)
              then prepare rest
              else
                match prepare rest with
                | Raise msg => Raise msg
                | Ok (all_texts, metadatas, ids) =>
                    Ok (cat ["Question: "; question; nl; "Answer: "; answer]
                          :: all_texts,
                        mkMeta (Some "data.json") (Some (str q_id))
                               (Some category) (Some question) (Some answer)
                          :: metadatas,
                        cat ["qa_"; str q_id] :: ids)
                end
          end
      end
  end.

(** [range(0, n, batch)] for a positive [batch]. *)
Definition batch_starts (n batch : nat) : list nat :=
  map (fun j => (j * batch)%nat) (seq 0 ((n + batch - 1) / batch)).

(** The batches [all_texts[i : i + batch]]. *)
Definition batches (batch : nat) (all_texts : list string) : list (list string) :=
  map (fun i => firstn batch (skipn i all_texts))
      (batch_starts (List.length all_texts) batch).

(** The embedding loop: [embeddings.extend(embed(batch_texts))] per batch. *)
Definition embed_all {Embedding : Type} (embed : list string -> list Embedding)
  (all_texts : list string) : list Embedding :=
  flat_map embed (batches 32 all_texts).

(** ** ingest_json_data *)

(** The value of a global name, as far as the function tells them apart:
    a string, or something else (a module, a function, a type). *)
Inductive Global :=
| GStr (s : string)
| GOther.

(** The names bound at the top level of [ingest.py], in the order of their
    binding: the imports, [CHROMA_PERSIST_DIR] and the two functions.
    [chroma_persist_dir] is what [os.getenv] returned. *)
Definition module_globals (chroma_persist_dir : string)
  : list (string * Global) :=
  [("os", GOther); ("json", GOther); ("List", GOther);
   ("load_dotenv", GOther); ("embed", GOther); ("argparse", GOther);
   ("CHROMA_PERSIST_DIR", GStr chroma_persist_dir);
   ("ingest_json_data", GOther); ("main", GOther)].

(** Reading a global name raises [NameError] when the name is not bound
    (no builtin has the names read here). *)
Fixpoint read_global (globals : list (string * Global)) (name : string)
  : result Global :=
  match globals with
  | [] => Raise "NameError"
  | (n, v) :: rest => if String.eqb n name then Ok v else read_global rest name
  end.

(** [v == s] for a global and a string. *)
Definition global_eqb (v : Global) (s : string) : bool :=
  match v with
  | GStr s' => String.eqb s' s
  | GOther => false
  end.

(** How [ingest_json_data] ends. *)
Inductive Outcome (Embedding : Type) :=
| FileNotFound
| NoData
| DryRun (count : Z) (sample_meta : option Meta) (sample_text : option string)
| Raised (msg : string)
| Saved (ids texts : list string) (metadatas : list Meta)
        (embeddings : list Embedding)
| SaveError (msg : string)
| NotChroma.
Arguments FileNotFound {Embedding}.
Arguments NoData {Embedding}.
Arguments DryRun {Embedding} count sample_meta sample_text.
Arguments Raised {Embedding} msg.
Arguments Saved {Embedding} ids texts metadatas embeddings.
Arguments SaveError {Embedding} msg.
Arguments NotChroma {Embedding}.

Section IngestRun.

Variable Embedding : Type.

(** [embed] is [ollama_client.embed]; [col_add] stands for the body of the
    [try] that writes to the store: the client, the new collection
    [qa_knowledge] and [col.add], any exception of which is caught and
    printed. *)
Variable embed : list string -> list Embedding.
Variable col_add :
  list string -> list string -> list Meta -> list Embedding -> result unit.

(** [ingest_json_data(json_path, dry_run)] run with the global names
    [globals]: [file] is the content of [json_path] ([None] when the path
    does not exist).  After the embeddings, [len(embeddings[0])] raises
    [IndexError] on an empty list, and the test [VECTOR_DB == "chroma"]
    reads a global name. *)
Definition ingest_json_data_in (globals : list (string * Global))
  (file : option (list Entry)) (dry_run : bool) : Outcome Embedding :=
  match file with
  | None => FileNotFound
  | Some data =>
      match prepare data with
      | Raise msg => Raised msg
      | Ok (all_texts, metadatas, ids) =>
          match all_texts with
          | [] => NoData
          | _ =>
              if dry_run
              then DryRun (Py.len all_texts) (hd_error metadatas)
                          (option_map (Py.substr 0 200) (hd_error all_texts))
              else
                let embeddings := embed_all embed all_texts in
                match embeddings with
                | [] => Raised "IndexError"
                | _ =>
                    match read_global globals "VECTOR_DB" with
                    | Raise msg => Raised msg
                    | Ok vector_db =>
                        if global_eqb vector_db "chroma"
                        then
                          match col_add ids all_texts metadatas embeddings with
                          | Ok _ => Saved ids all_texts metadatas embeddings
                          | Raise msg => SaveError msg
                          end
                        else NotChroma
                    end
                end
          end
      end
  end.

(** The function as the module defines it. *)
Definition ingest_json_data (chroma_persist_dir : string)
  (file : option (list Entry)) (dry_run : bool) : Outcome Embedding :=
  ingest_json_data_in (module_globals chroma_persist_dir) file dry_run.

End IngestRun.

End Ingest.

(* ================================================================== *)
(** * Notions used to state the properties *)
(* ================================================================== *)

Module Notions.

Import Utils Query.

(** A keyword occurs in a question regardless of letter case. *)
Definition ci_in (keyword question : string) : bool :=
  Py.contains (Py.lower keyword) (Py.lower question).

(** The number of keywords of a category that occur in the question. *)
Definition hits (keywords : list string) (question : string) : Z :=
  Py.len (filter (fun keyword => ci_in keyword question) keywords).

(** The keyword table is written in lower case. *)
Definition lowercase (s : string) : Prop := Py.lower s = s.

(** The six categories that carry keywords, in declaration order. *)
Definition scored_categories : list string :=
  ["Admissions"; "Fees"; "Academics"; "Academic Advising"; "IT & Systems";
   "Emails"].

(** Tokens as the specification describes them, for the query and for a
    record alike: split on white space, lower-cased, with the punctuation
    characters stripped from each token. *)
Definition spec_tokens (text : string) : list string :=
  Py.set_of (map (fun w => Py.strip_chars strip_set (Py.lower w)) (Py.split text)).

(** The score the specification describes: the number of tokens common to
    the two token sets. *)
Definition spec_overlap (query item : string) : Z :=
  Py.len (Py.inter (spec_tokens query) (spec_tokens item)).

(** The order of the ranking: a larger score comes first, and among equal
    scores the smaller position in the candidate list comes first. *)
Definition ranks_before (x y : nat * Z) : Prop :=
  snd y < snd x \/ (snd x = snd y /\ (fst x < fst y)%nat).

Definition positive (x : nat * Z) : bool := snd x >? 0.

(** What a log file holds: the records of a JSON array, a lone JSON
    document, or content that does not decode. *)
Inductive Held :=
| HRecord (v : Json)
| HText (raw : string).

Definition held (file : LogFile) : list Held :=
  match file with
  | NoFile => []
  | FileJson (JArr data) => map HRecord data
  | FileJson data => [HRecord data]
  | FileUndecodable raw => [HText raw]
  | FileNotUtf8 raw => [HText raw]
  end.

(** The file is absent or [json.load] succeeds on it. *)
Definition decodable (file : LogFile) : bool :=
  match file with
  | FileUndecodable _ | FileNotUtf8 _ => false
  | _ => true
  end.

(** The file holds bytes that are not UTF-8 text. *)
Definition not_utf8 (file : LogFile) : bool :=
  match file with
  | FileNotUtf8 _ => true
  | _ => false
  end.

(** The provenance tag of one metadata record, if it has one. *)
Definition tag_of (m : Meta) : option string :=
  match m_qa_id m, m_source m with
  | Some (String c r), _ =>
      Some (cat ["QA#"; String c r; " ("; get (m_category m) "None"; ")"])
  | _, Some (String c r) => Some (String c r)
  | _, _ => None
  end.

(** The event is a call of the generator. *)
Definition is_generate (e : Event) : bool :=
  match e with EvGenerate _ _ => true | _ => false end.

(** The event is a call of the generator with an empty context. *)
Definition is_generate_empty (e : Event) : bool :=
  match e with EvGenerate "" _ => true | _ => false end.

(** The event is a retrieval made without a category filter. *)
Definition is_unfiltered (e : Event) : bool :=
  match e with
  | EvChroma _ None | EvLocal _ None => true
  | _ => false
  end.

(** The event is a call of the keyword retriever. *)
Definition is_local (e : Event) : bool :=
  match e with EvLocal _ _ => true | _ => false end.

(** The lines [run] treats as commands rather than questions. *)
Definition is_command (q : string) : bool :=
  Py.mem (Py.lower q) ["exit"; "quit"] || String.eqb (Py.lower q) "clear".

Section Situations.

Variable Embedding : Type.
Variable env : Env Embedding.

(** The filtered vector search finds nothing and the unfiltered one
    returns [docs], each with a dict as metadata: the dicts [metas]. *)
Definition vector_miss_then_hit (q F : string) (docs : list string)
  (metas : list Meta) : Prop :=
  exists e rest,
    embed Embedding env [q] = e :: rest
    /\ fst (retrieve_with_chroma Embedding (col_query Embedding env) e 5 (Some F)) = []
    /\ retrieve_with_chroma Embedding (col_query Embedding env) e 5 None
       = (docs, map Some metas).

(** The filtered vector search finds nothing and the unfiltered one
    returns documents, whatever their metadata. *)
Definition vector_miss_then_any (q F : string) (docs : list string) : Prop :=
  exists e rest,
    embed Embedding env [q] = e :: rest
    /\ fst (retrieve_with_chroma Embedding (col_query Embedding env) e 5 (Some F)) = []
    /\ fst (retrieve_with_chroma Embedding (col_query Embedding env) e 5 None) = docs
    /\ docs <> [].

(** Every metadata the vector store returns for the embedding of [q] is a
    dict. *)
Definition store_returns_dicts (q : string) : Prop :=
  forall e rest k c docs metas,
    embed Embedding env [q] = e :: rest ->
    col_query Embedding env e k c = Ollama.Ok (docs, metas) ->
    Forall (fun m => m <> None) metas.

(** The embedding fails, the filtered keyword search finds nothing and the
    unfiltered one returns [docs] with [metas]. *)
Definition keyword_miss_then_hit (q F : string) (docs : list string)
  (metas : list Meta) : Prop :=
  embed Embedding env [q] = []
  /\ fst (local_retrieve (json_path Embedding env) (data_json Embedding env) q 3 (Some F)) = []
  /\ local_retrieve (json_path Embedding env) (data_json Embedding env) q 3 None = (docs, metas).

End Situations.

(** ** The end-to-end scenarios of the specification *)

(** The one-record dataset of the first scenario. *)
Definition tuition_data : list Entry :=
  [mkEntry (Some (SInt 1)) (Some "Fees") (Some (SStr "What is tuition?"))
     (Some (SStr "10000 per year"))].

Definition tuition_request : Api.QueryRequest :=
  Api.mkRequest "How much is tuition?" (Some "default") None (Some true).

Definition fresh_world : Api.World := Api.mkWorld [] NoFile.

Definition reply : list Ollama.Message -> Ollama.result string :=
  fun _ => Ollama.Ok "Tuition is 10000 per year.".

Definition clock : nat -> string := fun _ => "2025-01-01T00:00:00".

(** The embedding service answers and the vector store is unavailable. *)
Definition env_store_down : Env unit :=
  mkEnv unit (fun _ => [tt]) (fun _ _ _ => Ollama.Raise "unavailable") reply
        (Some tuition_data) "data.json" clock.

(** The embedding service answers and the vector store holds no document. *)
Definition env_store_empty : Env unit :=
  mkEnv unit (fun _ => [tt]) (fun _ _ _ => Ollama.Ok ([], [])) reply
        (Some tuition_data) "data.json" clock.

(** The embedding service fails (and so the vector store is not reached). *)
Definition env_embed_down : Env unit :=
  mkEnv unit (fun _ => []) (fun _ _ _ => Ollama.Raise "unavailable") reply
        (Some tuition_data) "data.json" clock.

(** A vector store with one document, filed under Fees. *)
Definition tuition_meta : Meta :=
  mkMeta (Some "data.json") (Some "1") (Some "Fees")
         (Some "What is tuition?") (Some "10000 per year").

Definition tuition_doc : string :=
  cat ["Question: What is tuition?"; nl; "Answer: 10000 per year"].

Definition env_store_fees : Env unit :=
  mkEnv unit (fun _ => [tt])
        (fun _ _ where_ =>
           match where_ with
           | None | Some "Fees" => Ollama.Ok ([tuition_doc], [Some tuition_meta])
           | Some _ => Ollama.Ok ([], [])
           end)
        reply (Some tuition_data) "data.json" clock.

(** The same question with the category set to Admissions by the caller. *)
Definition admissions_request : Api.QueryRequest :=
  Api.mkRequest "How much is tuition?" (Some "default") (Some "Admissions") (Some true).

(** A vector store whose only document was stored without metadata, and a
    question that shares no word with the flat dataset. *)
Definition env_store_bare : Env unit :=
  mkEnv unit (fun _ => [tt])
        (fun _ _ where_ =>
           match where_ with
           | None => Ollama.Ok (["Orientation week starts in September."], [None])
           | Some _ => Ollama.Ok ([], [])
           end)
        reply (Some tuition_data) "data.json" clock.

Definition orientation_request : Api.QueryRequest :=
  Api.mkRequest "orientation week" (Some "default") (Some "Admissions") (Some true).

(** A log that already holds one record. *)
Definition earlier_record : Json :=
  log_record "When do classes start?" "In September." [] "2024-12-31T09:00:00".

Definition used_world : Api.World :=
  Api.mkWorld [] (FileJson (JArr [earlier_record])).

(** ** Notions for the remaining code *)

(** A text made of white space only (or empty). *)
Fixpoint blank (s : string) : bool :=
  match s with
  | EmptyString => true
  | String c r => Py.is_space c && blank r
  end.

(** Every character of the text satisfies [p]. *)
Fixpoint all_chars (p : ascii -> bool) (s : string) : bool :=
  match s with
  | EmptyString => true
  | String c r => p c && all_chars p r
  end.

(** The text of a chunking run, with line ends normalised. *)
Definition normalised (text : string) : string :=
  replace_cr (replace_crlf text).

(** What [load_items] builds: texts and metadata side by side, each text
    made of the question and answer of its metadata, each record of the
    wanted category. *)
Definition candidate (json_path : string) (category_filter : option string)
  (d : string) (m : Meta) : Prop :=
  m_source m = Some json_path
  /\ (Py.truthy_opt category_filter = true -> m_category m = category_filter)
  /\ exists q a,
       m_question m = Some q /\ m_answer m = Some a
       /\ d = cat ["Question: "; q; nl; "Answer: "; a].

(** The session table has one entry per key, as a dict does. *)
Definition wf_sessions (sessions : Api.Sessions) : Prop :=
  NoDup (map fst sessions).

(** No session holds an interaction. *)
Definition all_empty (sessions : Api.Sessions) : Prop :=
  Forall (fun km => history (snd km) = []) sessions.

(** The event is a query of the vector store. *)
Definition is_chroma (e : Event) : bool :=
  match e with EvChroma _ _ => true | _ => false end.

(** The event is a call of the embedding service. *)
Definition is_embed (e : Event) : bool :=
  match e with EvEmbed _ => true | _ => false end.

(** The history passed to the generator, when the event is such a call. *)
Definition generate_history (e : Event) : list Interaction :=
  match e with EvGenerate _ h => h | _ => [] end.

(** Requests served one after the other: the state after the last one and
    the outcomes, in order. *)
Fixpoint serve {Embedding : Type} (env : Env Embedding) (w : Api.World)
  (requests : list Api.QueryRequest) : Api.World * list Api.Outcome :=
  match requests with
  | [] => (w, [])
  | request :: rest =>
      let '(outcome, w', _) := Api.ask_question Embedding env w request in
      let (w'', outcomes) := serve env w' rest in
      (w'', outcome :: outcomes)
  end.

(** The session a request addresses. *)
Definition session_of (request : Api.QueryRequest) : string :=
  get (Py.or_else (Api.session_id request) (Some "default")) "default".

(** The message has the given role. *)
Definition has_role (r : string) (msg : Ollama.Message) : bool :=
  String.eqb (Ollama.role msg) r.

(** The question and the answer of a dataset entry are strings or absent. *)
Definition string_fields (entry : Entry) : bool :=
  match e_question entry, e_answer entry with
  | Some (SInt _), _ | _, Some (SInt _) => false
  | _, _ => true
  end.

(** A sequence of saves, in call order, up to the first that raises. *)
Fixpoint save_all (file : LogFile)
  (entries : list (string * string * list string * string))
  : Ollama.result LogFile :=
  match entries with
  | [] => Ollama.Ok file
  | (q, a, s, t) :: rest =>
      match save_result file q a s t with
      | Ollama.Ok file' => save_all file' rest
      | Ollama.Raise msg => Ollama.Raise msg
      end
  end.

(** The character is an ASCII character.  On text made of such characters
    the white space of [Py.is_space] is all the white space of Python. *)
Definition is_ascii (c : ascii) : bool := (nat_of_ascii c <? 128)%nat.

(** The character is not a carriage return. *)
Definition not_cr (c : ascii) : bool := negb (Ascii.eqb c cr).

(** The number of line feeds in a text: its number of lines, less one. *)
Fixpoint line_feeds (s : string) : nat :=
  match s with
  | EmptyString => 0
  | String c r => ((if Ascii.eqb c lf then 1 else 0) + line_feeds r)%nat
  end.

(** The line feeds inside the questions and the answers of a history. *)
Definition inner_line_feeds (h : list Interaction) : nat :=
  list_sum (map (fun x => (line_feeds (Utils.question x)
                           + line_feeds (Utils.answer x))%nat) h).

(** The text of turn number [i] in the formatted history: an empty line,
    the turn number, the question and the answer, each on a new line. *)
Definition turn_block (i : nat) (x : Interaction) : string :=
  cat [nl; nl; "Turn "; str_of_nat i; ":"; nl;
       "Student: "; Utils.question x; nl;
       "Assistant: "; Utils.answer x].

(** The turns of a history, numbered from [i]. *)
Fixpoint turn_blocks (i : nat) (h : list Interaction) : string :=
  match h with
  | [] => ""
  | x :: rest => String.append (turn_block i x) (turn_blocks (S i) rest)
  end.

End Notions.

(* ================================================================== *)
(** * Properties of the conversation memory *)
(* ================================================================== *)

Module MemoryProps.

Import Utils.

Lemma window_size_add (m : ConversationMemory) (q a : string) :
  window_size (add_interaction m q a) = window_size m.
Proof.
  unfold add_interaction. destruct (_ >? _); reflexivity.
Qed.

Lemma window_size_add_all (xs : list Interaction) (m : ConversationMemory) :
  window_size (add_all m xs) = window_size m.
Proof.
  unfold add_all. revert m.
  induction xs as [|x xs IH]; intro m; cbn [fold_left]; [reflexivity|].
  rewrite IH. apply window_size_add.
Qed.

Lemma add_all_snoc (m : ConversationMemory) (xs : list Interaction) (x : Interaction) :
  add_all m (xs ++ [x]) = add_interaction (add_all m xs) (question x) (answer x).
Proof.
  unfold add_all. rewrite fold_left_app. reflexivity.
Qed.

(** [history[-w:]] drops the first element of a list of [w + 1] elements. *)
Lemma slice_from_overflow {A} (w : Z) (l : list A) :
  0 < w -> Py.len l = w + 1 -> Py.slice_from (- w) l = skipn 1 l.
Proof.
  intros Hw Hl. unfold Py.slice_from, Py.norm_index, Py.len in *.
  destruct (- w <? 0) eqn:E; [|apply Z.ltb_ge in E; lia].
  rewrite Hl. replace (Z.max 0 (- w + (w + 1))) with 1 by lia. reflexivity.
Qed.

(** After any sequence of additions to a fresh memory, the history is the
    tail of the sequence that fits the window. *)
Lemma history_add_all (W : Z) (xs : list Interaction) :
  0 < W ->
  history (add_all (init W) xs) = skipn (List.length xs - Z.to_nat W) xs.
Proof.
  intro HW. induction xs as [|x xs IH] using rev_ind.
  - reflexivity.
  - rewrite add_all_snoc. unfold add_interaction.
    rewrite window_size_add_all. cbn [init window_size].
    destruct x as [q a]. cbn [question answer].
    rewrite IH. rewrite length_app. cbn [List.length].
    assert (Hlen : List.length (skipn (List.length xs - Z.to_nat W) xs)
                   = Nat.min (List.length xs) (Z.to_nat W))
      by (rewrite length_skipn; lia).
    destruct (_ >? W) eqn:E.
    + apply Z.gtb_lt in E. unfold Py.len in E.
      rewrite length_app, Hlen in E. cbn [List.length] in E.
      cbn [history].
      rewrite slice_from_overflow;
        [|assumption|unfold Py.len; rewrite length_app, Hlen; cbn [List.length]; try lia].

      rewrite !skipn_app, skipn_skipn, Hlen.
      assert (Hge : (1 <= Z.to_nat W <= List.length xs)%nat) by lia.
      replace (1 - Nat.min (List.length xs) (Z.to_nat W))%nat with 0%nat by lia.
      replace (List.length xs + 1 - Z.to_nat W - List.length xs)%nat with 0%nat by lia.
      replace (1 + (List.length xs - Z.to_nat W))%nat
        with (List.length xs + 1 - Z.to_nat W)%nat by lia.
      reflexivity.
    + cbn [history]. rewrite Z.gtb_ltb in E. apply Z.ltb_ge in E.
      unfold Py.len in E.
      rewrite length_app, Hlen in E. cbn [List.length] in E.
      assert (List.length xs < Z.to_nat W)%nat by lia.
      replace (List.length xs - Z.to_nat W)%nat with 0%nat by lia.
      replace (List.length xs + 1 - Z.to_nat W)%nat with 0%nat by lia.
      reflexivity.
Qed.

(** Adding to a memory that is at capacity drops its oldest entry. *)
Lemma add_at_capacity (m : ConversationMemory) (q a : string) :
  0 < window_size m ->
  Py.len (history m) = window_size m ->
  add_interaction m q a
  = mkMemory (window_size m) (tl (history m) ++ [mkInteraction q a]).
Proof.
  intros Hw Hl. unfold add_interaction.
  assert (Hl' : Py.len (history m ++ [mkInteraction q a]) = window_size m + 1)
    by (unfold Py.len in *; rewrite length_app; cbn [List.length]; lia).
  rewrite Hl'.
  destruct (window_size m + 1 >? window_size m) eqn:E;
    [|rewrite Z.gtb_ltb in E; apply Z.ltb_ge in E; lia].
  rewrite slice_from_overflow by assumption.
  destruct (history m) as [|h0 t]; [unfold Py.len in Hl; cbn in Hl; lia|].
  reflexivity.
Qed.

(** C3. For every window size [W > 0] and every [k >= 0], after [W + k]
    calls to [add_interaction] on a fresh memory, [len] is
    [min (W + k) W] and the history is exactly the last [min (W + k) W]
    added pairs in call order, oldest first.  Moreover a further addition
    to a memory at capacity evicts the oldest interaction and keeps the
    order of the remaining [W - 1] followed by the new one. *)
Theorem memory_window (W : Z) (k : nat) (xs : list Interaction) :
  0 < W ->
  Py.len xs = W + Z.of_nat k ->
  let m := add_all (init W) xs in
  len m = Z.min (W + Z.of_nat k) W
  /\ get_history m = lastn (Z.to_nat (Z.min (W + Z.of_nat k) W)) xs
  /\ get_history m = skipn k xs
  /\ forall q a,
       get_history (add_interaction m q a)
       = tl (get_history m) ++ [mkInteraction q a]
       /\ len (add_interaction m q a) = W.
Proof.
  intros HW Hlen m. unfold Py.len in Hlen.
  assert (Hh : history m = skipn k xs).
  { unfold m. rewrite history_add_all by assumption. f_equal. lia. }
  assert (Hsz : Py.len (history m) = W).
  { rewrite Hh. unfold Py.len. rewrite length_skipn. lia. }
  unfold len, get_history, lastn.
  repeat split.
  - rewrite Hsz. lia.
  - rewrite Hh. f_equal. lia.
  - exact Hh.
  - rewrite add_at_capacity; [reflexivity| |];
      unfold m; rewrite window_size_add_all; cbn [init window_size]; assumption.
  - rewrite add_at_capacity; [|unfold m; rewrite window_size_add_all; assumption..].
    cbn [history]. unfold Py.len in *. rewrite length_app. cbn [List.length].
    destruct (history m); cbn [List.length tl] in *; lia.
Qed.

(** The fourth end-to-end scenario: window 2, three additions. *)
Lemma memory_window_witness :
  let p1 := mkInteraction "q1" "a1" in
  let p2 := mkInteraction "q2" "a2" in
  let p3 := mkInteraction "q3" "a3" in
  get_history (add_all (init 2) [p1; p2; p3]) = [p2; p3].
Proof.
  intros p1 p2 p3.
  pose proof (memory_window 2 1 [p1; p2; p3]) as H.
  destruct H as (_ & _ & H & _).
  - lia.
  - reflexivity.
  - exact H.
Defined.

End MemoryProps.

(* ================================================================== *)
(** * Properties of the category classifier *)
(* ================================================================== *)

Module ClassifierProps.

Import Query Notions.

Lemma keywords_lowercase :
  Forall (fun e => Forall lowercase (snd e)) category_keywords.
Proof.
  repeat constructor.
Qed.

Lemma keyword_score_hits (keywords : list string) (q : string) :
  Forall lowercase keywords ->
  keyword_score keywords (Py.lower q) = hits keywords q.
Proof.
  intro H. unfold keyword_score, hits.
  assert (E : filter (fun keyword => Py.contains keyword (Py.lower q)) keywords
              = filter (fun keyword => ci_in keyword q) keywords).
  { induction H as [|k ks Hk _ IH]; [reflexivity|].
    cbn [filter]. unfold ci_in at 1. rewrite Hk, IH. reflexivity. }
  rewrite E. reflexivity.
Qed.

Lemma keyword_score_nonneg (keywords : list string) (ql : string) :
  0 <= keyword_score keywords ql.
Proof. unfold keyword_score, Py.len. lia. Qed.

Section Table.

Variable ql : string.

Let score (e : string * list string) : Z := keyword_score (snd e) ql.

(** The running maximum over the remaining categories: either the current
    best survives and nothing later beats it, or the winner is a later
    category, strictly above everything declared before it. *)
Lemma max_key_scores (table : list (string * list string)) :
  forall bc bs r, 0 < bs ->
  r = max_key (bc, bs) (scores_of table ql) ->
  (r = bc /\ Forall (fun e => score e <= bs) table)
  \/ (exists pre kws post,
        table = pre ++ (r, kws) :: post
        /\ bs < score (r, kws)
        /\ Forall (fun e => score e < score (r, kws)) pre
        /\ Forall (fun e => score e <= score (r, kws)) post).
Proof.
  unfold score.
  induction table as [|[c kws] rest IH]; intros bc bs r Hbs Hr.
  - left. split; [exact Hr|constructor].
  - cbn [scores_of] in Hr.
    pose proof (keyword_score_nonneg kws ql) as Hnn.
    destruct (keyword_score kws ql >? 0) eqn:Epos.
    + apply Z.gtb_lt in Epos. cbn [max_key snd] in Hr.
      destruct (keyword_score kws ql >? bs) eqn:Ebs.
      * apply Z.gtb_lt in Ebs.
        destruct (IH c (keyword_score kws ql) r Epos Hr)
          as [[Hc Hall]|(pre & k & post & Ht & Hlt & Hpre & Hpost)].
        -- right. exists [], kws, rest. subst r. rewrite Hc. cbn [app snd] in *.
           split; [reflexivity|]. split; [assumption|].
           split; [constructor|exact Hall].
        -- right. exists ((c, kws) :: pre), k, post. cbn [snd] in *.
           split; [rewrite Ht; reflexivity|]. split; [lia|].
           split; [|assumption].
           constructor; [cbn [snd]; lia|assumption].
      * rewrite Z.gtb_ltb in Ebs. apply Z.ltb_ge in Ebs.
        destruct (IH bc bs r Hbs Hr)
          as [[Hc Hall]|(pre & k & post & Ht & Hlt & Hpre & Hpost)].
        -- left. split; [assumption|].
           constructor; [cbn [snd]; lia|assumption].
        -- right. exists ((c, kws) :: pre), k, post. cbn [snd] in *.
           split; [rewrite Ht; reflexivity|]. split; [assumption|].
           split; [|assumption].
           constructor; [cbn [snd]; lia|assumption].
    + rewrite Z.gtb_ltb in Epos. apply Z.ltb_ge in Epos.
      destruct (IH bc bs r Hbs Hr)
        as [[Hc Hall]|(pre & k & post & Ht & Hlt & Hpre & Hpost)].
      * left. split; [assumption|].
        constructor; [cbn [snd]; lia|assumption].
      * right. exists ((c, kws) :: pre), k, post. cbn [snd] in *.
        split; [rewrite Ht; reflexivity|]. split; [assumption|].
        split; [|assumption].
        constructor; [cbn [snd]; lia|assumption].
Qed.

(** What [scores_of] followed by [max_key] computes on any table: no
    category has a hit, or the result is a category with a hit that is
    strictly above every category declared before it and not below any
    category declared after it. *)
Lemma detect_in_table (table : list (string * list string)) :
  match scores_of table ql with
  | [] => Forall (fun e => score e = 0) table
  | best :: rest =>
      exists pre kws post,
        table = pre ++ (max_key best rest, kws) :: post
        /\ 0 < score (max_key best rest, kws)
        /\ Forall (fun e => score e < score (max_key best rest, kws)) pre
        /\ Forall (fun e => score e <= score (max_key best rest, kws)) post
  end.
Proof.
  unfold score.
  induction table as [|[c kws] rest IH].
  - constructor.
  - cbn [scores_of].
    pose proof (keyword_score_nonneg kws ql) as Hnn.
    destruct (keyword_score kws ql >? 0) eqn:Epos.
    + apply Z.gtb_lt in Epos.
      destruct (max_key_scores rest c (keyword_score kws ql) _ Epos eq_refl)
        as [[Hc Hall]|(pre & k & post & Ht & Hlt & Hpre & Hpost)];
        unfold score in *.
      * exists [], kws, rest. rewrite Hc. cbn [app snd] in *.
        split; [reflexivity|]. split; [assumption|].
        split; [constructor|exact Hall].
      * exists ((c, kws) :: pre), k, post. cbn [snd] in *.
        split; [rewrite Ht at 1; reflexivity|]. split; [lia|].
        split; [|assumption].
        constructor; [cbn [snd]; lia|assumption].
    + rewrite Z.gtb_ltb in Epos. apply Z.ltb_ge in Epos.
      destruct (scores_of rest ql) as [|best rest'].
      * constructor; [cbn [snd]; lia|assumption].
      * destruct IH as (pre & k & post & Ht & Hlt & Hpre & Hpost).
        exists ((c, kws) :: pre), k, post. cbn [snd] in *.
        split; [rewrite Ht at 1; reflexivity|]. split; [assumption|].
        split; [|assumption].
        constructor; [cbn [snd]; lia|assumption].
Qed.

End Table.

(** The classifier on the keyword table of the code, in terms of
    case-insensitive hits. *)
Lemma detect_category_char (q : string) :
  match detect_category q with
  | None => forall c kws, In (c, kws) category_keywords -> hits kws q = 0
  | Some c =>
      exists pre kws post,
        category_keywords = pre ++ (c, kws) :: post
        /\ 0 < hits kws q
        /\ (forall c' kws', In (c', kws') pre -> hits kws' q < hits kws q)
        /\ (forall c' kws', In (c', kws') post -> hits kws' q <= hits kws q)
  end.
Proof.
  assert (Hconv : forall c kws, In (c, kws) category_keywords ->
                    keyword_score kws (Py.lower q) = hits kws q).
  { intros c kws Hin. apply keyword_score_hits.
    exact (proj1 (Forall_forall _ _) keywords_lowercase _ Hin). }
  unfold detect_category, detect_category_in.
  pose proof (detect_in_table (Py.lower q) category_keywords) as H.
  destruct (scores_of category_keywords (Py.lower q)) as [|best rest].
  - intros c kws Hin. rewrite <- (Hconv c kws Hin).
    exact (proj1 (Forall_forall _ _) H _ Hin).
  - destruct H as (pre & kws & post & Ht & Hpos & Hpre & Hpost).
    exists pre, kws, post. cbn [snd] in *.
    assert (Hk : keyword_score kws (Py.lower q) = hits kws q).
    { apply (Hconv (max_key best rest)). rewrite Ht.
      apply in_or_app. right. left. reflexivity. }
    split; [exact Ht|]. split; [lia|]. split.
    + intros c' kws' Hin.
      rewrite <- Hk, <- (Hconv c' kws').
      * exact (proj1 (Forall_forall _ _) Hpre _ Hin).
      * rewrite Ht. apply in_or_app. left. exact Hin.
    + intros c' kws' Hin.
      rewrite <- Hk, <- (Hconv c' kws').
      * exact (proj1 (Forall_forall _ _) Hpost _ Hin).
      * rewrite Ht. apply in_or_app. right. right. exact Hin.
Qed.

Lemma scored_categories_eq : map fst category_keywords = scored_categories.
Proof. reflexivity. Qed.

(** C4. For every question, [detect_category] returns the category whose
    keywords have the largest number of case-insensitive substring hits in
    the question; among categories with that number of hits the one
    declared first wins (every category declared before the result has
    strictly fewer hits); it returns [None] when no keyword of any category
    occurs.  In particular a question that hits keywords of exactly one
    category gets that category.  The classifier is a function of the
    question alone. *)
Theorem classify_max_hits (q : string) :
  match detect_category q with
  | None => forall c kws, In (c, kws) category_keywords -> hits kws q = 0
  | Some c =>
      exists pre kws post,
        category_keywords = pre ++ (c, kws) :: post
        /\ 0 < hits kws q
        /\ (forall c' kws', In (c', kws') pre -> hits kws' q < hits kws q)
        /\ (forall c' kws', In (c', kws') post -> hits kws' q <= hits kws q)
  end
  /\ (forall c kws,
        In (c, kws) category_keywords ->
        0 < hits kws q ->
        (forall c' kws', In (c', kws') category_keywords -> c' <> c ->
                         hits kws' q = 0) ->
        detect_category q = Some c).
Proof.
  split; [apply detect_category_char|].
  intros c kws Hin Hpos Hothers.
  pose proof (detect_category_char q) as H.
  destruct (detect_category q) as [c0|].
  - destruct H as (pre & kws0 & post & Ht & Hpos0 & _ & _).
    destruct (string_dec c0 c) as [->|Hne]; [reflexivity|].
    assert (Hin0 : In (c0, kws0) category_keywords)
      by (rewrite Ht; apply in_or_app; right; left; reflexivity).
    specialize (Hothers c0 kws0 Hin0 Hne). lia.
  - specialize (H c kws Hin). lia.
Qed.

(** A question that mentions tuition only is classified as Fees. *)
Lemma classify_max_hits_witness :
  detect_category "How much is tuition?" = Some "Fees".
Proof.
  refine (proj2 (classify_max_hits "How much is tuition?") "Fees" _ _ _ _).
  - right. left. reflexivity.
  - reflexivity.
  - intros c' kws' Hin Hne.
    repeat (destruct Hin as [Hin|Hin];
            [inversion Hin; subst; try reflexivity; exfalso; apply Hne; reflexivity|]).
    destruct Hin.
Defined.

(** C10. For every question the classifier's result is [None] or one of
    the six categories that carry keywords; it is never ["General"],
    although ["General"] belongs to the category list served by the API. *)
Theorem classify_never_general (q : string) :
  (detect_category q = None
   \/ exists c, detect_category q = Some c /\ In c scored_categories)
  /\ detect_category q <> Some "General"
  /\ In "General" Api.categories.
Proof.
  pose proof (detect_category_char q) as H.
  assert (Hin : forall c, detect_category q = Some c -> In c scored_categories).
  { intros c Hc. rewrite Hc in H.
    destruct H as (pre & kws & post & Ht & _).
    rewrite <- scored_categories_eq, Ht, map_app.
    apply in_or_app. right. left. reflexivity. }
  split; [|split].
  - destruct (detect_category q) as [c|]; [right|left; reflexivity].
    exists c. split; [reflexivity|]. apply Hin. reflexivity.
  - intro Hg. apply Hin in Hg.
    repeat (destruct Hg as [Hg|Hg]; [discriminate Hg|]). destruct Hg.
  - unfold Api.categories. repeat (try (left; reflexivity); right).
Qed.

End ClassifierProps.

(* ================================================================== *)
(** * Properties of the keyword fallback retriever *)
(* ================================================================== *)

Module RetrieverProps.

Import Query Notions.

(** ** The stable descending sort *)

Lemma insert_desc_perm (x : nat * Z) (l : list (nat * Z)) :
  Permutation (insert_desc x l) (x :: l).
Proof.
  induction l as [|y r IH]; cbn [insert_desc]; [reflexivity|].
  destruct (snd x <? snd y); [|reflexivity].
  rewrite IH. apply perm_swap.
Qed.

Lemma sorted_desc_perm (l : list (nat * Z)) : Permutation (sorted_desc l) l.
Proof.
  induction l as [|x l IH]; cbn; [reflexivity|].
  fold (sorted_desc l). rewrite insert_desc_perm, IH. reflexivity.
Qed.

Lemma ranks_before_score (x y : nat * Z) : ranks_before x y -> snd y <= snd x.
Proof. unfold ranks_before. lia. Qed.

(** Inserting an element whose position precedes all positions of a ranked
    list keeps the list ranked. *)
Lemma insert_desc_sorted (x : nat * Z) (l : list (nat * Z)) :
  Forall (fun y => (fst x < fst y)%nat) l ->
  StronglySorted ranks_before l ->
  StronglySorted ranks_before (insert_desc x l).
Proof.
  intros Hidx Hs. induction Hs as [|y r Hr IH Hy]; cbn [insert_desc].
  - repeat constructor.
  - inversion Hidx as [|? ? Hxy Hxr]; subst.
    destruct (snd x <? snd y) eqn:E.
    + apply Z.ltb_lt in E. constructor; [apply IH; assumption|].
      rewrite insert_desc_perm. constructor; [left; assumption|assumption].
    + apply Z.ltb_ge in E. constructor; [constructor; assumption|].
      constructor.
      * unfold ranks_before. lia.
      * rewrite Forall_forall in *. intros z Hz.
        specialize (Hy z Hz). specialize (Hxr z Hz).
        apply ranks_before_score in Hy. unfold ranks_before. lia.
Qed.

Lemma sorted_desc_sorted (l : list (nat * Z)) :
  StronglySorted (fun a b => (fst a < fst b)%nat) l ->
  StronglySorted ranks_before (sorted_desc l).
Proof.
  induction 1 as [|x l Hl IH Hx]; cbn; [constructor|].
  fold (sorted_desc l). apply insert_desc_sorted; [|assumption].
  rewrite sorted_desc_perm. assumption.
Qed.

Lemma enumerate_from_increasing {A} (l : list A) (a : nat) :
  StronglySorted (fun x y : nat * A => (fst x < fst y)%nat)
                 (combine (seq a (List.length l)) l).
Proof.
  revert a. induction l as [|v l IH]; intro a; cbn; constructor.
  - apply IH.
  - rewrite Forall_forall. intros [i w] Hin. cbn.
    apply in_combine_l in Hin. apply in_seq in Hin. lia.
Qed.

Lemma ranked_sorted (scores : list Z) :
  StronglySorted ranks_before (sorted_desc (enumerate scores)).
Proof. apply sorted_desc_sorted, enumerate_from_increasing. Qed.

Lemma ranked_perm (scores : list Z) :
  Permutation (sorted_desc (enumerate scores)) (enumerate scores).
Proof. apply sorted_desc_perm. Qed.

(** Every ranked pair is a position of the score list with its score. *)
Lemma enumerate_nth (scores : list Z) (i : nat) (s : Z) :
  In (i, s) (enumerate scores) -> nth_error scores i = Some s.
Proof.
  unfold enumerate.
  assert (G : forall (l : list Z) a i s,
             In (i, s) (combine (seq a (List.length l)) l) ->
             (a <= i)%nat /\ nth_error l (i - a) = Some s).
  { induction l as [|v l IH]; intros a j t Hin; cbn in Hin; [destruct Hin|].
    destruct Hin as [Heq|Hin].
    - inversion Heq; subst. rewrite Nat.sub_diag. split; [lia|reflexivity].
    - apply IH in Hin. destruct Hin as [Hle Hn]. split; [lia|].
      replace (j - a)%nat with (S (j - S a)) by lia. exact Hn. }
  intro Hin. apply G in Hin.
  destruct Hin as [_ Hn]. rewrite Nat.sub_0_r in Hn. exact Hn.
Qed.

(** ** Taking the head of the ranking and keeping positive scores *)

Lemma slice_to_firstn {A} (k : Z) (l : list A) :
  0 <= k -> Py.slice_to k l = firstn (Z.to_nat k) l.
Proof.
  intro Hk. unfold Py.slice_to, Py.norm_index.
  destruct (k <? 0) eqn:E; [apply Z.ltb_lt in E; lia|].
  destruct (Z.le_ge_cases k (Z.of_nat (List.length l))) as [Hle|Hge].
  - rewrite Z.min_l by assumption. reflexivity.
  - rewrite Z.min_r by assumption. rewrite Nat2Z.id.
    rewrite firstn_all. symmetry. apply firstn_all2. lia.
Qed.

Lemma in_firstn {A} (n : nat) (l : list A) (x : A) :
  In x (firstn n l) -> In x l.
Proof.
  intro H. rewrite <- (firstn_skipn n l). apply in_or_app. left. exact H.
Qed.

Lemma filter_positive_none (l : list (nat * Z)) :
  Forall (fun y => snd y <= 0) l -> filter positive l = [].
Proof.
  induction 1 as [|y l Hy _ IH]; [reflexivity|].
  cbn [filter].
  destruct (positive y) eqn:E; [|assumption].
  unfold positive in E. apply Z.gtb_lt in E. lia.
Qed.

(** On a ranked list the positive scores form a prefix, so cutting and
    filtering commute. *)
Lemma filter_firstn_ranked (n : nat) (l : list (nat * Z)) :
  StronglySorted ranks_before l ->
  filter positive (firstn n l) = firstn n (filter positive l).
Proof.
  intro Hs. revert n. induction Hs as [|y r Hr IH Hy]; intro n.
  - cbn [filter]. rewrite !firstn_nil. reflexivity.
  - destruct n as [|n]; [reflexivity|].
    rewrite firstn_cons. cbn [filter].
    destruct (positive y) eqn:E.
    + rewrite firstn_cons, IH. reflexivity.
    + unfold positive in E. rewrite Z.gtb_ltb in E. apply Z.ltb_ge in E.
      assert (Hnp : Forall (fun z => snd z <= 0) r).
      { rewrite Forall_forall in *. intros z Hz.
        specialize (Hy z Hz). apply ranks_before_score in Hy. lia. }
      rewrite (filter_positive_none r Hnp), firstn_nil.
      apply filter_positive_none.
      rewrite Forall_forall in *. intros z Hz.
      apply Hnp. eapply in_firstn; eassumption.
Qed.

Lemma top_ranked_firstn (scores : list Z) (top_k : Z) :
  0 <= top_k ->
  top_ranked scores top_k
  = firstn (Z.to_nat top_k) (filter positive (sorted_desc (enumerate scores))).
Proof.
  intro Hk. unfold top_ranked.
  rewrite slice_to_firstn by assumption.
  apply filter_firstn_ranked, ranked_sorted.
Qed.

(** ** The score is the size of a set intersection *)

Lemma mem_In (x : string) (l : list string) : Py.mem x l = true <-> In x l.
Proof.
  unfold Py.mem. rewrite existsb_exists. split.
  - intros (y & Hy & E). apply String.eqb_eq in E. subst. exact Hy.
  - intro H. exists x. split; [exact H|apply String.eqb_refl].
Qed.

(** The tokens counted by [overlap] are distinct and are exactly the
    strings that are both a query token and an item token. *)
Lemma overlap_counts_common_tokens (query item : string) :
  let common := Py.inter (query_tokens query) (item_tokens item) in
  overlap (query_tokens query) item = Py.len common
  /\ NoDup common
  /\ forall t, In t common
               <-> In t (map Py.lower (Py.split query))
                   /\ In t (map (fun w => Py.strip_chars strip_set (Py.lower w))
                                (Py.split item)).
Proof.
  cbn zeta. unfold overlap, Py.inter, query_tokens, item_tokens, Py.set_of.
  split; [reflexivity|]. split.
  - apply NoDup_filter, NoDup_nodup.
  - intro t. rewrite filter_In, mem_In, !nodup_In. reflexivity.
Qed.

(** Item tokens are the tokens of the specification. *)
Lemma item_tokens_spec (item : string) : item_tokens item = spec_tokens item.
Proof. reflexivity. Qed.

(** C5, at a query that ends in a full stop.  The record holds the word
    [tuition] followed by a full stop and its token is stripped to
    [tuition]; the query token keeps its full stop, so the code finds no
    common token and retrieves nothing, where tokens stripped on both
    sides give the score 1. *)
Theorem query_tokens_not_stripped :
  let data := [mkEntry (Some (SInt 1)) (Some "Fees")
                 (Some (SStr "What is tuition?"))
                 (Some (SStr "Pay the tuition."))] in
  let item := cat ["Question: What is tuition?"; nl; "Answer: Pay the tuition."] in
  let query := "tuition." in
  fst (load_items "data.json" None data) = [item]
  /\ query_tokens query = ["tuition."]
  /\ spec_tokens query = ["tuition"]
  /\ In "tuition" (item_tokens item)
  /\ overlap (query_tokens query) item = 0
  /\ spec_overlap query item = 1
  /\ local_retrieve "data.json" (Some data) query 3 None = ([], []).
Proof.
  cbn zeta. repeat split; try reflexivity.
  vm_compute. tauto.
Qed.

(** ** The result of [local_retrieve] *)

Lemma top_ranked_zero (scores : list Z) (top_k : Z) :
  (forall s, In s scores -> s = 0) -> top_ranked scores top_k = [].
Proof.
  intro Hz. unfold top_ranked. apply filter_positive_none.
  rewrite Forall_forall. intros [i s] Hin. cbn [snd].
  unfold Py.slice_to in Hin. apply in_firstn in Hin.
  apply (Permutation_in _ (ranked_perm scores)) in Hin.
  apply enumerate_nth, nth_error_In in Hin. rewrite (Hz s Hin). lia.
Qed.

(** C6. The candidates are ranked by descending overlap score, candidates
    with equal scores staying in dataset order; the result is the first
    [top_k] candidates of that ranking among those whose score is strictly
    positive, so it has at most [top_k] entries and may have fewer; when the
    query has no token in common with any candidate the result is empty
    whatever [top_k] is. *)
Theorem keyword_top_k (json_path : string) (data : list Entry)
  (query : string) (top_k : Z) (category_filter : option string) :
  let items := fst (load_items json_path category_filter data) in
  let metadatas := snd (load_items json_path category_filter data) in
  let scores := map (overlap (query_tokens query)) items in
  let ranked := sorted_desc (enumerate scores) in
  let result := local_retrieve json_path (Some data) query top_k category_filter in
  Permutation ranked (enumerate scores)
  /\ StronglySorted ranks_before ranked
  /\ (forall i s, In (i, s) ranked -> nth_error scores i = Some s)
  /\ (0 <= top_k ->
      let top := firstn (Z.to_nat top_k) (filter positive ranked) in
      result = (map (fun x => nth (fst x) items "") top,
                map (fun x => nth (fst x) metadatas empty_meta) top)
      /\ Forall (fun x => 0 < snd x) top
      /\ Py.len (fst result) <= top_k)
  /\ ((forall s, In s scores -> s = 0) -> result = ([], [])).
Proof.
  cbn zeta. unfold local_retrieve.
  destruct (load_items json_path category_filter data) as [items metadatas].
  cbn [fst snd].
  split; [apply ranked_perm|]. split; [apply ranked_sorted|]. split.
  { intros i s Hin. apply enumerate_nth.
    exact (Permutation_in _ (ranked_perm _) Hin). }
  split.
  - intro Hk.
    assert (Hpos : Forall (fun x : nat * Z => 0 < snd x)
                     (firstn (Z.to_nat top_k)
                        (filter positive
                           (sorted_desc (enumerate (map (overlap (query_tokens query)) items)))))).
    { rewrite Forall_forall. intros x Hx. apply in_firstn in Hx.
      apply filter_In in Hx. destruct Hx as [_ Hx].
      unfold positive in Hx. apply Z.gtb_lt in Hx. exact Hx. }
    destruct items as [|item items'].
    + cbn. rewrite firstn_nil. repeat split; [constructor|lia].
    + rewrite top_ranked_firstn by assumption.
      split; [reflexivity|]. split; [exact Hpos|].
      cbn [fst]. unfold Py.len. rewrite length_map.
      pose proof (firstn_le_length (Z.to_nat top_k)
                    (filter positive
                       (sorted_desc (enumerate (map (overlap (query_tokens query)) (item :: items')))))).
      lia.
  - intro Hz. destruct items as [|item items']; [reflexivity|].
    rewrite top_ranked_zero by assumption. reflexivity.
Qed.

(** A ranking with a tie and a candidate without overlap: three candidates,
    the first two share two tokens with the query and keep their order, the
    third shares none and is left out although [top_k] is 3. *)
Example keyword_top_k_example :
  let data := [mkEntry (Some (SInt 1)) (Some "Fees") (Some (SStr "tuition fees")) (Some (SStr "high"));
               mkEntry (Some (SInt 2)) (Some "Fees") (Some (SStr "fees for tuition")) (Some (SStr "low"));
               mkEntry (Some (SInt 3)) (Some "Emails") (Some (SStr "mail")) (Some (SStr "yes"))] in
  map m_qa_id (snd (local_retrieve "data.json" (Some data) "tuition fees" 3 None))
  = [Some "1"; Some "2"]
  /\ map m_qa_id (snd (local_retrieve "data.json" (Some data) "tuition fees" 1 None))
     = [Some "1"].
Proof. split; reflexivity. Qed.

End RetrieverProps.

(* ================================================================== *)
(** * Properties of the answer pipeline *)
(* ================================================================== *)

Module PipelineProps.

Import Ollama Query Api Notions.

Lemma truthy_strip (s : string) :
  Py.truthy (Py.strip s) = true -> Py.truthy s = true.
Proof. destruct s; [discriminate|reflexivity]. Qed.

(** ** The metadata returned by the vector store *)

Lemma zipped_dicts_map_Some (docs : list string) (metas : list Meta) :
  zipped_dicts docs (map Some metas) = Ok (firstn (List.length docs) metas).
Proof.
  revert metas. induction docs as [|d docs IH]; intros [|m metas];
    cbn [zipped_dicts map List.length firstn]; try reflexivity.
  rewrite IH. reflexivity.
Qed.

Lemma combine_firstn_r {A B} (l : list A) (l' : list B) :
  combine l (firstn (List.length l) l') = combine l l'.
Proof.
  revert l'. induction l as [|x l IH]; intros [|y l'];
    cbn [combine List.length firstn]; try reflexivity.
  rewrite IH. reflexivity.
Qed.

Lemma dicts_map_Some (metas : list Meta) : dicts (map Some metas) = metas.
Proof.
  unfold dicts. induction metas as [|m metas IH]; [reflexivity|].
  cbn [map flat_map app]. rewrite IH. reflexivity.
Qed.

(** On dict metadata [format_context] does not raise. *)
Lemma format_context_stored_dicts (docs : list string) (metas : list Meta) :
  format_context_stored docs (map Some metas) = Ok (format_context docs metas).
Proof.
  unfold format_context_stored. rewrite zipped_dicts_map_Some.
  unfold format_context. rewrite combine_firstn_r. reflexivity.
Qed.

(** Without documents there is no pair to read. *)
Lemma format_context_stored_nil (metas : list (option Meta)) :
  format_context_stored [] metas = Ok "".
Proof. reflexivity. Qed.

(** When every metadata is a dict the list is a list of dicts. *)
Lemma all_dicts_map_Some (metas : list (option Meta)) :
  Forall (fun m => m <> None) metas -> metas = map Some (dicts metas).
Proof.
  induction 1 as [|[m|] metas Hm _ IH]; [reflexivity| |congruence].
  unfold dicts in *. cbn [flat_map app map]. rewrite <- IH. reflexivity.
Qed.

Section Orchestrator.

Variable Embedding : Type.
Variable env : Env Embedding.

#[local] Abbreviation retrieve := (Query.retrieve Embedding env).
#[local] Abbreviation ask_question := (Api.ask_question Embedding env).
#[local] Abbreviation run_turn := (Query.run_turn Embedding env).

(** ** The retrieval stage *)

Lemma retrieve_vector_broaden (q F : string) (docs : list string) (metas : list Meta) :
  Py.truthy F = true ->
  vector_miss_then_hit Embedding env q F docs metas ->
  retrieve q (Some F)
  = (Some (docs, metas, format_context docs metas),
     [EvEmbed [q]; EvChroma 5 (Some F); EvChroma 5 None]).
Proof.
  intros HF (e & rest & He & Hmiss & Hhit).
  unfold Query.retrieve, vector_path. rewrite He.
  destruct (retrieve_with_chroma Embedding _ e 5 (Some F)) as [d m].
  cbn [fst] in Hmiss. subst d. cbn [Py.truthy_opt]. rewrite HF, Hhit.
  rewrite format_context_stored_dicts, dicts_map_Some. reflexivity.
Qed.

Lemma retrieve_keyword_broaden (q F : string) (docs : list string) (metas : list Meta) :
  Py.truthy F = true ->
  docs <> [] ->
  keyword_miss_then_hit Embedding env q F docs metas ->
  retrieve q (Some F)
  = (Some (docs, metas, format_context docs metas),
     [EvEmbed [q]; EvLocal 3 (Some F); EvLocal 3 None]).
Proof.
  intros HF Hne (He & Hmiss & Hhit).
  unfold Query.retrieve, vector_path, keyword_path. rewrite He.
  destruct (local_retrieve _ _ q 3 (Some F)) as [d m].
  cbn [fst] in Hmiss. subst d. cbn [Py.truthy_opt]. rewrite HF, Hhit.
  destruct docs; [congruence|reflexivity].
Qed.

(** When the embedding succeeds the retrieval stage always hands a context
    to the generator, also when the store returned no document: the
    keyword search is not tried and the context is empty. *)
Lemma retrieve_vector_empty (q : string) (c : option string) (e : Embedding)
  (rest : list Embedding) :
  embed Embedding env [q] = e :: rest ->
  fst (retrieve_with_chroma Embedding (col_query Embedding env) e 5 c) = [] ->
  fst (retrieve_with_chroma Embedding (col_query Embedding env) e 5 None) = [] ->
  exists metas,
    retrieve q c
    = (Some ([], metas, ""),
       [EvEmbed [q]; EvChroma 5 c]
       ++ (if Py.truthy_opt c then [EvChroma 5 None] else [])).
Proof.
  intros He H1 H2. unfold Query.retrieve, vector_path. rewrite He.
  destruct (retrieve_with_chroma Embedding _ e 5 c) as [d m].
  cbn [fst] in H1. subst d.
  destruct (Py.truthy_opt c).
  - destruct (retrieve_with_chroma Embedding _ e 5 None) as [d' m'].
    cbn [fst] in H2. subst d'. eexists. reflexivity.
  - eexists. reflexivity.
Qed.

(** The vector path ends in the [except] handler in two cases only: the
    embedding failed, or a document came back with a metadata that is not
    a dict. *)
Lemma vector_path_cases (q : string) (c : option string) :
  (embed Embedding env [q] = []
   /\ vector_path Embedding env q c = (None, [EvEmbed [q]]))
  \/ (exists e rest docs metas events,
        embed Embedding env [q] = e :: rest
        /\ (events = [EvEmbed [q]; EvChroma 5 c]
            \/ events = [EvEmbed [q]; EvChroma 5 c; EvChroma 5 None])
        /\ (retrieve_with_chroma Embedding (col_query Embedding env) e 5 c
            = (docs, metas)
            \/ retrieve_with_chroma Embedding (col_query Embedding env) e 5 None
               = (docs, metas))
        /\ ((exists ctx,
               format_context_stored docs metas = Ok ctx
               /\ vector_path Embedding env q c
                  = (Some (docs, dicts metas, ctx), events))
            \/ (exists msg,
                  format_context_stored docs metas = Raise msg
                  /\ vector_path Embedding env q c = (None, events)))).
Proof.
  unfold vector_path.
  destruct (embed Embedding env [q]) as [|e rest]; [left; split; reflexivity|].
  right. exists e, rest.
  destruct (retrieve_with_chroma Embedding _ e 5 c) as [[|d ds] m] eqn:E1.
  - destruct (Py.truthy_opt c).
    + destruct (retrieve_with_chroma Embedding _ e 5 None) as [d' m'] eqn:E2.
      exists d', m'. eexists. split; [reflexivity|].
      split; [right; reflexivity|]. split; [right; reflexivity|].
      destruct (format_context_stored d' m') as [ctx|msg].
      * left. exists ctx. split; reflexivity.
      * right. exists msg. split; reflexivity.
    + exists [], m. eexists. split; [reflexivity|].
      split; [left; reflexivity|]. split; [left; reflexivity|].
      left. exists "". split; reflexivity.
  - exists (d :: ds), m. eexists. split; [reflexivity|].
    split; [left; reflexivity|]. split; [left; reflexivity|].
    destruct (format_context_stored (d :: ds) m) as [ctx|msg].
    + left. exists ctx. split; reflexivity.
    + right. exists msg. split; reflexivity.
Qed.

(** A store that returns dicts only never sends a request to the [except]
    handler once the embedding has succeeded. *)
Lemma retrieve_with_chroma_dicts (q : string) (e : Embedding)
  (rest : list Embedding) (k : Z) (c : option string) (docs : list string)
  (metas : list (option Meta)) :
  store_returns_dicts Embedding env q ->
  embed Embedding env [q] = e :: rest ->
  retrieve_with_chroma Embedding (col_query Embedding env) e k c = (docs, metas) ->
  exists ctx, format_context_stored docs metas = Ok ctx.
Proof.
  intros Hd He Hr.
  assert (Hall : Forall (fun m => m <> None) metas).
  { unfold retrieve_with_chroma in Hr.
    destruct (Py.truthy_opt c).
    - destruct (col_query Embedding env e k c) as [[d m]|msg] eqn:E.
      + inversion Hr; subst. exact (Hd e rest k c _ _ He E).
      + inversion Hr; subst. constructor.
    - destruct (col_query Embedding env e k None) as [[d m]|msg] eqn:E.
      + inversion Hr; subst. exact (Hd e rest k None _ _ He E).
      + inversion Hr; subst. constructor. }
  rewrite (all_dicts_map_Some metas Hall), format_context_stored_dicts.
  eexists. reflexivity.
Qed.

(** A store that raises is read as a store without documents. *)
Lemma retrieve_with_chroma_raise (e : Embedding) (k : Z) (c : option string) :
  (forall k' c', exists msg, col_query Embedding env e k' c' = Raise msg) ->
  retrieve_with_chroma Embedding (col_query Embedding env) e k c = ([], []).
Proof.
  intro H. unfold retrieve_with_chroma.
  destruct (Py.truthy_opt c).
  - destruct (H k c) as [msg ->]. reflexivity.
  - destruct (H k None) as [msg ->]. reflexivity.
Qed.

(** When the embedding fails and the keyword search finds nothing, with
    and without the filter, the stage ends without evidence. *)
Lemma retrieve_keyword_empty (q : string) (c : option string) :
  embed Embedding env [q] = [] ->
  fst (local_retrieve (json_path Embedding env) (data_json Embedding env) q 3 c) = [] ->
  fst (local_retrieve (json_path Embedding env) (data_json Embedding env) q 3 None) = [] ->
  exists events,
    retrieve q c = (None, events)
    /\ forallb (fun ev => negb (is_generate ev)) events = true.
Proof.
  intros He H1 H2. unfold Query.retrieve, vector_path, keyword_path. rewrite He.
  destruct (local_retrieve _ _ q 3 c) as [d m].
  cbn [fst] in H1. subst d.
  destruct (Py.truthy_opt c).
  - destruct (local_retrieve _ _ q 3 None) as [d' m'].
    cbn [fst] in H2. subst d'. eexists. split; reflexivity.
  - eexists. split; reflexivity.
Qed.

(** ** The endpoint after the retrieval stage *)

(** With evidence, the endpoint calls the generator once, on the context
    of the stage; it answers with the provenance tags of the retrieved
    metadata and logs the answer, or reports the generator's failure. *)
Lemma ask_question_after_retrieve (w : World) (request : QueryRequest)
  (docs : list string) (metas : list Meta) (ctx : string) (events : list Event) :
  let q := Py.strip (question request) in
  let c := Py.or_else (category request) (detect_category q) in
  Py.truthy q = true ->
  retrieve q c = (Some (docs, metas, ctx), events) ->
  exists history w',
    (exists msg,
        ask_question w request
        = (HTTPException 500 msg, w', events ++ [EvGenerate ctx history])
        /\ results_file w' = results_file w)
    \/ (exists r,
          ask_question w request
          = (Response r, w', events ++ [EvGenerate ctx history])
          /\ sources r = sources_of metas
          /\ resp_category r = c
          /\ save_result (results_file w) q (answer r) (sources r)
               (now Embedding env 0%nat)
             = Ok (results_file w')).
Proof.
  intros q c Hq Hr. unfold Api.ask_question.
  rewrite (truthy_strip _ Hq). fold q. rewrite Hq. cbn [negb orb].
  fold c. rewrite Hr.
  destruct (get (use_memory request) false).
  - destruct (get_session_memory _ _) as [s m].
    destruct (Ollama.generate _ _ _ _) as [ans|msg].
    + destruct (memory_truthy (Some m)); cbv beta iota zeta;
        destruct (save_result (results_file w) q ans (sources_of metas)
                    (now Embedding env 0%nat)) as [file|msg] eqn:Es;
        eexists; eexists;
        solve [ right; eexists; repeat split; try reflexivity; exact Es
              | left; eexists; split; reflexivity ].
    + eexists; eexists; left; eexists; split; reflexivity.
  - destruct (Ollama.generate _ _ _ _) as [ans|msg].
    + cbn [memory_truthy]. cbv beta iota zeta.
      destruct (save_result (results_file w) q ans (sources_of metas)
                  (now Embedding env 0%nat)) as [file|msg] eqn:Es;
        eexists; eexists;
        solve [ right; eexists; repeat split; try reflexivity; exact Es
              | left; eexists; split; reflexivity ].
    + eexists; eexists; left; eexists; split; reflexivity.
Qed.

(** Without evidence the endpoint answers 404, calls nothing more and
    leaves the log as it was. *)
Lemma ask_question_no_evidence (w : World) (request : QueryRequest)
  (events : list Event) :
  let q := Py.strip (question request) in
  let c := Py.or_else (category request) (detect_category q) in
  Py.truthy q = true ->
  retrieve q c = (None, events) ->
  exists w',
    ask_question w request
    = (HTTPException 404 "No relevant information found for this question",
       w', events)
    /\ results_file w' = results_file w.
Proof.
  intros q c Hq Hr. unfold Api.ask_question.
  rewrite (truthy_strip _ Hq). fold q. rewrite Hq. cbn [negb orb].
  fold c. rewrite Hr.
  destruct (get (use_memory request) false).
  - destruct (get_session_memory _ _) as [s m]. eexists. split; reflexivity.
  - eexists. split; reflexivity.
Qed.

(** The three ways a request can go. *)
Lemma ask_question_cases (w : World) (request : QueryRequest) :
  let q := Py.strip (question request) in
  let c := Py.or_else (category request) (detect_category q) in
  (Py.truthy q = false
   /\ ask_question w request
      = (HTTPException 400 "Question cannot be empty", w, []))
  \/ (Py.truthy q = true
      /\ exists events, retrieve q c = (None, events))
  \/ (Py.truthy q = true
      /\ exists docs metas ctx events,
           retrieve q c = (Some (docs, metas, ctx), events)).
Proof.
  intros q c. destruct (Py.truthy q) eqn:Hq.
  - right. destruct (retrieve q c) as [[[[docs metas] ctx]|] events] eqn:Hr.
    + right. split; [reflexivity|]. exists docs, metas, ctx, events. reflexivity.
    + left. split; [reflexivity|]. exists events. reflexivity.
  - left. split; [reflexivity|]. unfold Api.ask_question. fold q. rewrite Hq.
    rewrite orb_true_r. reflexivity.
Qed.

(** A response comes from a retrieval with evidence, and carries the tags
    of the retrieved metadata. *)
Lemma ask_question_response_inv (w w' : World) (request : QueryRequest)
  (r : QueryResponse) (trace : list Event) :
  let q := Py.strip (question request) in
  let c := Py.or_else (category request) (detect_category q) in
  ask_question w request = (Response r, w', trace) ->
  exists docs metas ctx events history,
    retrieve q c = (Some (docs, metas, ctx), events)
    /\ trace = events ++ [EvGenerate ctx history]
    /\ sources r = sources_of metas
    /\ save_result (results_file w) q (answer r) (sources r)
         (now Embedding env 0%nat)
       = Ok (results_file w').
Proof.
  intros q c H.
  destruct (ask_question_cases w request)
    as [[Hq H400]|[[Hq (events & Hr)]|[Hq (docs & metas & ctx & events & Hr)]]].
  - rewrite H400 in H. discriminate H.
  - destruct (ask_question_no_evidence w request events Hq Hr) as (w1 & H404 & _).
    rewrite H404 in H. discriminate H.
  - destruct (ask_question_after_retrieve w request docs metas ctx events Hq Hr)
      as (history & w1 & [(msg & H500 & _)|(r1 & Hok & Hs & _ & Hf)]).
    + rewrite H500 in H. discriminate H.
    + rewrite Hok in H. inversion H; subst r1 w1.
      exists docs, metas, ctx, events, history. repeat split; assumption.
Qed.

(** A request that is not answered leaves the log file as it was. *)
Lemma ask_question_error_inv (w w' : World) (request : QueryRequest)
  (status : Z) (detail : string) (trace : list Event) :
  ask_question w request = (HTTPException status detail, w', trace) ->
  results_file w' = results_file w.
Proof.
  intro H.
  destruct (ask_question_cases w request)
    as [[Hq H400]|[[Hq (events & Hr)]|[Hq (docs & metas & ctx & events & Hr)]]].
  - rewrite H400 in H. inversion H. reflexivity.
  - destruct (ask_question_no_evidence w request events Hq Hr) as (w1 & H404 & Hf).
    rewrite H404 in H. inversion H; subst. exact Hf.
  - destruct (ask_question_after_retrieve w request docs metas ctx events Hq Hr)
      as (history & w1 & [(msg & H500 & Hf)|(r1 & Hok & _)]).
    + rewrite H500 in H. inversion H; subst. exact Hf.
    + rewrite Hok in H. discriminate H.
Qed.

(** ** One turn of the interactive loop after the retrieval stage *)

Lemma run_turn_after_retrieve (st : RunState) (line : string)
  (docs : list string) (metas : list Meta) (ctx : string) (events : list Event) :
  let q := Py.strip line in
  Py.truthy q = true ->
  is_command q = false ->
  retrieve q (detect_category q) = (Some (docs, metas, ctx), events) ->
  exists st',
    (exists msg,
        run_turn st line
        = (Uncaught msg, st', events ++ [EvGenerate ctx (Utils.history (memory st))])
        /\ Query.results_file st' = Query.results_file st
        /\ (st' = st
            \/ (not_utf8 (Query.results_file st) = true
                /\ exists out,
                     memory st' = Utils.add_interaction (memory st) q out)))
    \/ (exists out,
          run_turn st line
          = (Answered out (sources_of metas), st',
             events ++ [EvGenerate ctx (Utils.history (memory st))])
          /\ memory st' = Utils.add_interaction (memory st) q out
          /\ save_result (Query.results_file st) q out (sources_of metas)
               (now Embedding env 0%nat)
             = Ok (Query.results_file st')).
Proof.
  intros q Hq Hcmd Hr. unfold Query.run_turn. fold q. rewrite Hq. cbn [negb].
  unfold is_command in Hcmd. apply orb_false_elim in Hcmd.
  destruct Hcmd as [-> ->]. rewrite Hr.
  unfold Utils.get_history. cbv beta iota zeta.
  destruct (Ollama.generate _ _ _ _) as [out|msg].
  - destruct (save_result (Query.results_file st) q out (sources_of metas)
                (now Embedding env 0%nat)) as [file|msg] eqn:Es.
    + eexists. right. eexists. repeat split; try reflexivity. exact Es.
    + eexists. left. eexists. split; [reflexivity|]. split; [reflexivity|].
      right. split; [|exists out; reflexivity].
      destruct (Query.results_file st) as [|[]| |]; try discriminate Es;
        reflexivity.
  - eexists. left. eexists. split; [reflexivity|]. split; [reflexivity|].
    left. destruct st. reflexivity.
Qed.

(** An answered turn of the loop comes from a retrieval with evidence and
    shows the tags of the retrieved metadata. *)
Lemma run_turn_answered_inv (st st' : RunState) (line out : string)
  (srcs : list string) (trace : list Event) :
  let q := Py.strip line in
  run_turn st line = (Answered out srcs, st', trace) ->
  exists docs metas ctx events,
    retrieve q (detect_category q) = (Some (docs, metas, ctx), events)
    /\ srcs = sources_of metas.
Proof.
  intros q H. unfold Query.run_turn in H. fold q in H.
  destruct (negb (Py.truthy q)); [discriminate H|].
  destruct (Py.mem (Py.lower q) ["exit"; "quit"]); [discriminate H|].
  destruct (String.eqb (Py.lower q) "clear"); [discriminate H|].
  destruct (retrieve q (detect_category q)) as [[[[docs metas] ctx]|] events];
    [|discriminate H].
  destruct (Ollama.generate _ _ _ _) as [ans|msg]; [|discriminate H].
  destruct (save_result _ _ _ _ _) as [file|msg]; [|discriminate H].
  inversion H; subst.
  exists docs, metas, ctx, events. split; reflexivity.
Qed.

(** What the caller and the trace show once the stage found evidence. *)
Lemma ask_question_with_evidence (w : World) (request : QueryRequest)
  (docs : list string) (metas : list Meta) (ctx : string) (events : list Event) :
  let q := Py.strip (question request) in
  let c := Py.or_else (category request) (detect_category q) in
  Py.truthy q = true ->
  retrieve q c = (Some (docs, metas, ctx), events) ->
  exists history,
    snd (ask_question w request) = events ++ [EvGenerate ctx history]
    /\ (forall detail,
          fst (fst (ask_question w request)) <> HTTPException 404 detail)
    /\ (forall r w' trace,
          ask_question w request = (Response r, w', trace) ->
          sources r = sources_of metas).
Proof.
  intros q c Hq Hr.
  destruct (ask_question_after_retrieve w request docs metas ctx events Hq Hr)
    as (history & w1 & [(msg & H500 & _)|(r1 & Hok & Hs & _)]);
    exists history.
  - rewrite H500. cbn [fst snd]. split; [reflexivity|]. split.
    + intros detail H. discriminate H.
    + intros r w' trace H. discriminate H.
  - rewrite Hok. cbn [fst snd]. split; [reflexivity|]. split.
    + intros detail H. discriminate H.
    + intros r w' trace H. inversion H; subst. exact Hs.
Qed.

Lemma retrieve_store_down (q : string) (c : option string) (e : Embedding)
  (rest : list Embedding) :
  embed Embedding env [q] = e :: rest ->
  (forall k f, exists msg, col_query Embedding env e k f = Raise msg) ->
  retrieve q c
  = (Some ([], [], ""),
     [EvEmbed [q]; EvChroma 5 c]
     ++ (if Py.truthy_opt c then [EvChroma 5 None] else [])).
Proof.
  intros He Hdown. unfold Query.retrieve, vector_path. rewrite He.
  rewrite !retrieve_with_chroma_raise by assumption.
  destruct (Py.truthy_opt c); reflexivity.
Qed.

End Orchestrator.

(** A category that reaches the retrieval stage as [Some F] is a non-empty
    string: it is the caller's non-empty override or a detected category. *)
Lemma active_filter_truthy (override : option string) (q F : string) :
  Py.or_else override (detect_category q) = Some F -> Py.truthy F = true.
Proof.
  unfold Py.or_else. destruct (Py.truthy_opt override) eqn:E.
  - intros ->. exact E.
  - intro Hd. pose proof (ClassifierProps.detect_category_char q) as H.
    rewrite Hd in H. destruct H as (pre & kws & post & Ht & _).
    assert (Hin : In F (map fst category_keywords)).
    { rewrite Ht, map_app. apply in_or_app. right. left. reflexivity. }
    cbn in Hin.
    repeat (destruct Hin as [<-|Hin]; [reflexivity|]). destruct Hin.
Qed.

(** ** Empty retrieval on the vector path *)

(** C1, on the code: when the embedding succeeds and both the filtered
    query and the unfiltered retry return no document, the endpoint does
    not answer 404; it calls the generator, and the context it passes is
    empty.  (The 404 is raised only inside the keyword path, see
    [ask_question_no_evidence] and [retrieve_keyword_empty].) *)
Theorem empty_vector_result_reaches_generator (Embedding : Type)
  (env : Env Embedding) (w : World) (request : QueryRequest)
  (e : Embedding) (rest : list Embedding) :
  let q := Py.strip (question request) in
  let c := Py.or_else (category request) (detect_category q) in
  Py.truthy q = true ->
  embed Embedding env [q] = e :: rest ->
  fst (retrieve_with_chroma Embedding (col_query Embedding env) e 5 c) = [] ->
  fst (retrieve_with_chroma Embedding (col_query Embedding env) e 5 None) = [] ->
  exists history,
    In (EvGenerate "" history) (snd (ask_question Embedding env w request))
    /\ existsb is_generate_empty (snd (ask_question Embedding env w request)) = true
    /\ forall detail,
         fst (fst (ask_question Embedding env w request))
         <> HTTPException 404 detail.
Proof.
  intros q c Hq He H1 H2.
  destruct (retrieve_vector_empty Embedding env q c e rest He H1 H2) as (metas & Hr).
  destruct (ask_question_with_evidence Embedding env w request _ _ _ _ Hq Hr)
    as (history & Htrace & H404 & _).
  exists history. rewrite Htrace. split; [|split].
  - apply in_or_app. right. left. reflexivity.
  - rewrite existsb_app. cbn. apply orb_true_r.
  - exact H404.
Qed.

(** The tuition question against a store without documents: the generator
    is called on an empty context and the caller gets an answer. *)
Lemma empty_vector_result_reaches_generator_witness :
  exists history,
    In (EvGenerate "" history)
       (snd (ask_question unit env_store_empty fresh_world tuition_request))
    /\ existsb is_generate_empty
         (snd (ask_question unit env_store_empty fresh_world tuition_request)) = true.
Proof.
  destruct (empty_vector_result_reaches_generator unit env_store_empty
              fresh_world tuition_request tt [])
    as (history & Hin & Hgen & _); try reflexivity.
  exists history. split; assumption.
Defined.

(** The sibling path: with the embedding failing and no keyword match,
    the endpoint answers 404 and the generator is not called. *)
Lemma keyword_path_not_found (Embedding : Type) (env : Env Embedding)
  (w : World) (request : QueryRequest) :
  let q := Py.strip (question request) in
  let c := Py.or_else (category request) (detect_category q) in
  Py.truthy q = true ->
  embed Embedding env [q] = [] ->
  fst (local_retrieve (json_path Embedding env) (data_json Embedding env) q 3 c) = [] ->
  fst (local_retrieve (json_path Embedding env) (data_json Embedding env) q 3 None) = [] ->
  exists w' trace,
    ask_question Embedding env w request
    = (HTTPException 404 "No relevant information found for this question",
       w', trace)
    /\ existsb is_generate trace = false.
Proof.
  intros q c Hq He H1 H2.
  destruct (retrieve_keyword_empty Embedding env q c He H1 H2) as (events & Hr & Hno).
  destruct (ask_question_no_evidence Embedding env w request events Hq Hr)
    as (w' & H404 & _).
  exists w', events. split; [exact H404|].
  clear -Hno. induction events as [|ev events IH]; [reflexivity|].
  cbn in *. apply andb_true_iff in Hno. destruct Hno as [Hev Hno].
  apply negb_true_iff in Hev. rewrite Hev. apply IH. exact Hno.
Qed.

(** ** Failure of the vector store *)

(** C2, on the code: when the embedding succeeds and every query of the
    vector store raises, [retrieve_with_chroma] turns the failure into an
    empty result; the keyword retriever is never called, the generator
    receives an empty context and an answered request carries no source. *)
Theorem store_failure_skips_keyword_fallback (Embedding : Type)
  (env : Env Embedding) (w : World) (request : QueryRequest)
  (e : Embedding) (rest : list Embedding) :
  let q := Py.strip (question request) in
  Py.truthy q = true ->
  embed Embedding env [q] = e :: rest ->
  (forall k f, exists msg, col_query Embedding env e k f = Raise msg) ->
  existsb is_local (snd (ask_question Embedding env w request)) = false
  /\ existsb is_generate_empty (snd (ask_question Embedding env w request)) = true
  /\ forall r w' trace,
       ask_question Embedding env w request = (Response r, w', trace) ->
       sources r = [].
Proof.
  intros q Hq He Hdown.
  pose proof (retrieve_store_down Embedding env q
                (Py.or_else (category request) (detect_category q)) e rest He Hdown)
    as Hr.
  destruct (ask_question_with_evidence Embedding env w request _ _ _ _ Hq Hr)
    as (history & Htrace & _ & Hsrc).
  rewrite Htrace. split; [|split].
  - rewrite existsb_app.
    destruct (Py.truthy_opt _); reflexivity.
  - rewrite existsb_app. cbn. apply orb_true_r.
  - exact Hsrc.
Qed.

(** The first scenario with the vector store unavailable and the embedding
    service answering: the response has no source. *)
Lemma store_failure_skips_keyword_fallback_witness :
  existsb is_local
    (snd (ask_question unit env_store_down fresh_world tuition_request)) = false
  /\ existsb is_generate_empty
       (snd (ask_question unit env_store_down fresh_world tuition_request)) = true.
Proof.
  destruct (store_failure_skips_keyword_fallback unit env_store_down fresh_world
              tuition_request tt []) as (Hlocal & Hgen & _).
  - reflexivity.
  - reflexivity.
  - intros k f. exists "unavailable". reflexivity.
  - split; assumption.
Defined.

(** The first scenario as the code runs it when the store is unavailable:
    an answer without sources, produced from an empty context. *)
Example tuition_scenario_store_down :
  exists w',
    ask_question unit env_store_down fresh_world tuition_request
    = (Response (mkResponse "Tuition is 10000 per year." (Some "Fees") []
                   "2025-01-01T00:00:00" 0),
       w',
       [EvEmbed ["How much is tuition?"]; EvChroma 5 (Some "Fees");
        EvChroma 5 None; EvGenerate "" []]).
Proof. eexists. reflexivity. Qed.

(** The first scenario when it is the embedding that fails: the keyword
    retriever is used with [top_k = 3], the context is not empty and the
    response carries the tag of the record. *)
Example tuition_scenario_embed_down :
  exists w' ctx,
    ask_question unit env_embed_down fresh_world tuition_request
    = (Response (mkResponse "Tuition is 10000 per year." (Some "Fees")
                   ["QA#1 (Fees)"] "2025-01-01T00:00:00" 0),
       w',
       [EvEmbed ["How much is tuition?"]; EvLocal 3 (Some "Fees");
        EvGenerate ctx []])
    /\ ctx <> "".
Proof. eexists. eexists. split; [reflexivity|discriminate]. Qed.

(** When it is the embedding that fails, the whole retrieval is done by the
    keyword retriever, called with [top_k = 3]. *)
Lemma embed_failure_uses_keyword_fallback (Embedding : Type)
  (env : Env Embedding) (q : string) (c : option string) :
  embed Embedding env [q] = [] ->
  retrieve Embedding env q c
  = (fst (keyword_path Embedding env q c),
     EvEmbed [q] :: snd (keyword_path Embedding env q c))
  /\ Forall (fun ev => ev = EvLocal 3 c \/ ev = EvLocal 3 None)
            (snd (keyword_path Embedding env q c)).
Proof.
  intro He. split.
  - unfold retrieve, vector_path. rewrite He.
    destruct (keyword_path Embedding env q c). reflexivity.
  - unfold keyword_path.
    destruct (local_retrieve _ _ q 3 c) as [[|d ds] m].
    + destruct (Py.truthy_opt c).
      * destruct (local_retrieve _ _ q 3 None) as [[|d' ds'] m'];
          cbn [snd]; constructor; auto.
      * cbn [snd]. constructor; auto.
    + cbn [snd]. constructor; auto.
Qed.

(** ** Broaden-on-miss *)




(** The same request when the embedding fails: the keyword retriever finds
    nothing under Admissions and the record without the filter. *)
Example broaden_on_miss_keyword_example :
  keyword_miss_then_hit unit env_embed_down "How much is tuition?" "Admissions"
    [tuition_doc] [tuition_meta]
  /\ exists w' ctx,
       ask_question unit env_embed_down fresh_world admissions_request
       = (Response (mkResponse "Tuition is 10000 per year." (Some "Admissions")
                      ["QA#1 (Fees)"] "2025-01-01T00:00:00" 0),
          w',
          [EvEmbed ["How much is tuition?"]; EvLocal 3 (Some "Admissions");
           EvLocal 3 None; EvGenerate ctx []]).
Proof.
  split; [repeat split; reflexivity|].
  eexists. eexists. reflexivity.
Qed.

End PipelineProps.

(* ================================================================== *)
(** * Provenance tags and the query log *)
(* ================================================================== *)

Module OutputProps.

Import Ollama Query Api Notions.

(** ** Provenance tags *)

Lemma source_tag_tag_of (m : Meta) :
  source_tag m = match tag_of m with Some t => [t] | None => [] end.
Proof.
  unfold source_tag, tag_of.
  destruct (m_qa_id m) as [[|c r]|]; destruct (m_source m) as [[|c' r']|];
    reflexivity.
Qed.

Lemma sources_of_In (metas : list Meta) (s : string) :
  In s (sources_of metas) <-> exists m, In m metas /\ tag_of m = Some s.
Proof.
  unfold sources_of, Py.set_of, source_tags.
  rewrite nodup_In, in_flat_map. split; intros (m & Hm & Hs); exists m;
    (split; [exact Hm|]); rewrite source_tag_tag_of in *.
  - destruct (tag_of m) as [t|]; [|destruct Hs].
    destruct Hs as [->|[]]. reflexivity.
  - rewrite Hs. left. reflexivity.
Qed.

Lemma sources_of_NoDup (metas : list Meta) : NoDup (sources_of metas).
Proof. apply NoDup_nodup. Qed.

Lemma sources_of_once (metas : list Meta) (s : string) :
  In s (sources_of metas) -> count_occ string_dec (sources_of metas) s = 1%nat.
Proof.
  intro Hin.
  pose proof (proj1 (NoDup_count_occ string_dec _) (sources_of_NoDup metas) s) as Hle.
  apply (count_occ_In string_dec) in Hin. lia.
Qed.


(** Two results of the same record and one without identification. *)
Example sources_deduplicated_example :
  Permutation
    (sources_of [tuition_meta; tuition_meta; empty_meta;
                 mkMeta (Some "notes.pdf") None None None None])
    ["QA#1 (Fees)"; "notes.pdf"].
Proof. apply Permutation_refl. Qed.

(** ** The query log *)

(** [save_result] raises exactly on a file that is not UTF-8 text. *)
Lemma save_result_raises (file : LogFile) (query answer : string)
  (sources : list string) (timestamp : string) :
  (not_utf8 file = true ->
   save_result file query answer sources timestamp = Raise "UnicodeDecodeError")
  /\ (not_utf8 file = false ->
      exists file', save_result file query answer sources timestamp = Ok file').
Proof.
  destruct file as [|v|raw|raw]; cbn [not_utf8]; split; intro H;
    try discriminate H; try reflexivity.
  - eexists. reflexivity.
  - destruct v; eexists; reflexivity.
  - eexists. reflexivity.
Qed.

Lemma save_result_held (file file' : LogFile) (query answer : string)
  (sources : list string) (timestamp : string) :
  save_result file query answer sources timestamp = Ok file' ->
  decodable file = true ->
  held file' = held file ++ [HRecord (log_record query answer sources timestamp)].
Proof.
  intros Hs Hd. destruct file as [|v|raw|raw]; try discriminate Hd.
  - inversion Hs. reflexivity.
  - destruct v; inversion Hs; try reflexivity.
    cbn [held]. rewrite map_app. reflexivity.
Qed.

(** Text that does not decode as JSON is dropped: the file is rewritten as
    if it had not existed. *)
Lemma save_result_undecodable (raw query answer : string)
  (sources : list string) (timestamp : string) :
  save_result (FileUndecodable raw) query answer sources timestamp
  = Ok (FileJson (JArr [log_record query answer sources timestamp])).
Proof. reflexivity. Qed.

(** After a save the file decodes, so the files the code writes itself
    never lose a record. *)
Lemma save_result_decodable (file file' : LogFile) (query answer : string)
  (sources : list string) (timestamp : string) :
  save_result file query answer sources timestamp = Ok file' ->
  decodable file' = true.
Proof.
  intro Hs. destruct file as [|v|raw|raw]; try discriminate Hs.
  - inversion Hs. reflexivity.
  - destruct v; inversion Hs; reflexivity.
  - inversion Hs. reflexivity.
Qed.

(** What one save does, for every state of the file. *)
Lemma save_result_effect (file : LogFile) (query answer : string)
  (sources : list string) (timestamp : string) :
  let record := log_record query answer sources timestamp in
  match save_result file query answer sources timestamp with
  | Ok file' =>
      not_utf8 file = false
      /\ decodable file' = true
      /\ (decodable file = true -> held file' = held file ++ [HRecord record])
      /\ (forall raw, file = FileUndecodable raw -> file' = FileJson (JArr [record]))
  | Raise _ => not_utf8 file = true
  end.
Proof.
  cbn zeta.
  destruct (save_result file query answer sources timestamp) as [file'|msg] eqn:Hs.
  - split; [destruct file; try reflexivity; discriminate Hs|].
    split; [eapply save_result_decodable; exact Hs|].
    split; [intro Hd; eapply save_result_held; eassumption|].
    intros raw ->. inversion Hs. reflexivity.
  - destruct file as [|v|raw|raw]; try discriminate Hs; [|reflexivity].
    destruct v; discriminate Hs.
Qed.

(** Successive saves on a decodable file only add records at the end. *)
Lemma save_all_held (entries : list (string * string * list string * string))
  (file : LogFile) :
  decodable file = true ->
  exists file',
    save_all file entries = Ok file'
    /\ decodable file' = true
    /\ held file'
       = held file
         ++ map (fun '(q, a, s, t) => HRecord (log_record q a s t)) entries.
Proof.
  revert file. induction entries as [|[[[q a] s] t] entries IH]; intros file Hd.
  - exists file. cbn. rewrite app_nil_r. repeat split; [exact Hd].
  - cbn [save_all map].
    destruct (proj2 (save_result_raises file q a s t)) as [file1 Hs].
    { destruct file; try reflexivity; discriminate Hd. }
    rewrite Hs.
    destruct (IH file1 (save_result_decodable _ _ _ _ _ _ Hs)) as (file' & Ha & Hd' & Hh).
    exists file'. split; [exact Ha|]. split; [exact Hd'|].
    rewrite Hh, (save_result_held _ _ _ _ _ _ Hs Hd), <- app_assoc. reflexivity.
Qed.




(** The log after the first scenario answered twice. *)
Example query_log_example :
  let w1 := snd (fst (ask_question unit env_embed_down fresh_world tuition_request)) in
  let w2 := snd (fst (ask_question unit env_embed_down w1 tuition_request)) in
  held (results_file w2)
  = [HRecord (log_record "How much is tuition?" "Tuition is 10000 per year."
                ["QA#1 (Fees)"] "2025-01-01T00:00:00");
     HRecord (log_record "How much is tuition?" "Tuition is 10000 per year."
                ["QA#1 (Fees)"] "2025-01-01T00:00:00")].
Proof. vm_compute. reflexivity. Qed.

(** The same request on a log file that is not UTF-8 text: the model is
    called, the answer is lost and the caller gets status 500. *)
Example query_log_not_utf8_example :
  exists ctx,
    ask_question unit env_embed_down
      (mkWorld [] (FileNotUtf8 (String (ascii_of_nat 255) EmptyString)))
      tuition_request
    = (HTTPException 500 "Internal error: UnicodeDecodeError",
       mkWorld [("default", Utils.init 10)]
               (FileNotUtf8 (String (ascii_of_nat 255) EmptyString)),
       [EvEmbed ["How much is tuition?"]; EvLocal 3 (Some "Fees");
        EvGenerate ctx []]).
Proof. eexists. vm_compute. reflexivity. Qed.

End OutputProps.

(* ================================================================== *)
(** * Facts about the string primitives *)
(* ================================================================== *)

Module PyFacts.

Import Notions.

Lemma length_list_ascii (s : string) :
  List.length (list_ascii_of_string s) = String.length s.
Proof. induction s as [|c r IH]; cbn; [reflexivity|]. rewrite IH. reflexivity. Qed.

Lemma length_of_list_ascii (l : list ascii) :
  String.length (string_of_list_ascii l) = List.length l.
Proof. induction l as [|c r IH]; cbn; [reflexivity|]. rewrite IH. reflexivity. Qed.

Lemma lstrip_by_length (p : ascii -> bool) (s : string) :
  (String.length (Py.lstrip_by p s) <= String.length s)%nat.
Proof.
  induction s as [|c r IH]; cbn; [lia|].
  destruct (p c); cbn; lia.
Qed.

Lemma rstrip_by_length (p : ascii -> bool) (s : string) :
  (String.length (Py.rstrip_by p s) <= String.length s)%nat.
Proof.
  induction s as [|c r IH]; cbn; [lia|].
  destruct (Py.rstrip_by p r) as [|d r'].
  - destruct (p c); cbn; lia.
  - cbn in *. lia.
Qed.

Lemma strip_length (s : string) :
  (String.length (Py.strip s) <= String.length s)%nat.
Proof.
  unfold Py.strip.
  pose proof (rstrip_by_length Py.is_space (Py.lstrip_by Py.is_space s)).
  pose proof (lstrip_by_length Py.is_space s). lia.
Qed.

(** What is left after stripping on the left is empty or starts with a
    character that is kept. *)
Lemma lstrip_by_head (p : ascii -> bool) (s : string) :
  (Py.lstrip_by p s = EmptyString /\ all_chars p s = true)
  \/ (exists c r, Py.lstrip_by p s = String c r /\ p c = false
                  /\ all_chars p s = false).
Proof.
  induction s as [|c r IH]; cbn; [left; split; reflexivity|].
  destruct (p c) eqn:E; cbn.
  - exact IH.
  - right. exists c, r. repeat split. exact E.
Qed.

Lemma rstrip_by_kept_head (p : ascii -> bool) (c : ascii) (r : string) :
  p c = false -> Py.rstrip_by p (String c r) <> EmptyString.
Proof.
  intro E. cbn. destruct (Py.rstrip_by p r); [rewrite E|]; discriminate.
Qed.

Lemma all_chars_blank (s : string) : all_chars Py.is_space s = blank s.
Proof. induction s as [|c r IH]; cbn; [reflexivity|]. rewrite IH. reflexivity. Qed.

(** [strip] leaves nothing exactly on blank texts. *)
Lemma strip_empty_iff (s : string) :
  Py.truthy (Py.strip s) = false <-> blank s = true.
Proof.
  unfold Py.strip. rewrite <- all_chars_blank.
  destruct (lstrip_by_head Py.is_space s) as [[-> Hb]|(c & r & -> & Hc & Hb)].
  - cbn. rewrite Hb. tauto.
  - rewrite Hb. split; [|discriminate].
    pose proof (rstrip_by_kept_head Py.is_space c r Hc) as Hne.
    destruct (Py.rstrip_by Py.is_space (String c r)); [congruence|discriminate].
Qed.

Lemma truthy_length (s : string) :
  Py.truthy s = true <-> (0 < String.length s)%nat.
Proof. destruct s; cbn; split; intros; try lia; try discriminate; reflexivity. Qed.

(** The length of a slice [s[start : start + size]] taken at a position
    inside or after the text. *)
Lemma substr_length (start size : Z) (s : string) :
  0 <= start -> 0 <= size ->
  Py.strlen (Py.substr start (start + size) s) <= size.
Proof.
  intros Hs Hz. unfold Py.strlen, Py.substr, Py.norm_index.
  rewrite length_of_list_ascii, length_skipn, length_firstn.
  destruct (start <? 0) eqn:E1; [apply Z.ltb_lt in E1; lia|].
  destruct (start + size <? 0) eqn:E2; [apply Z.ltb_lt in E2; lia|].
  lia.
Qed.

(** A slice from the start that reaches the end of the text is the text. *)
Lemma substr_whole (size : Z) (s : string) :
  Py.strlen s <= size -> Py.substr 0 size s = s.
Proof.
  intro H. unfold Py.strlen, Py.substr, Py.norm_index in *.
  rewrite length_list_ascii.
  destruct (size <? 0) eqn:E; [apply Z.ltb_lt in E; lia|].
  cbn [Z.ltb Z.compare]. rewrite Z.min_l by lia. cbn [Z.to_nat skipn].
  rewrite firstn_all2 by (rewrite length_list_ascii; lia).
  apply string_of_list_ascii_of_string.
Qed.

End PyFacts.

(* ================================================================== *)
(** * Further properties of src/utils.py *)
(* ================================================================== *)

Module UtilsProps.

Import Utils Notions.

(** ** ConversationMemory from any state *)

Lemma slice_from_last {A} (w : Z) (l : list A) :
  0 < w -> w < Py.len l ->
  Py.slice_from (- w) l = skipn (List.length l - Z.to_nat w) l.
Proof.
  intros Hw Hl. unfold Py.slice_from, Py.norm_index, Py.len in *.
  destruct (- w <? 0) eqn:E; [|apply Z.ltb_ge in E; lia].
  f_equal. lia.
Qed.

(** X1. With a positive window, additions to a memory that holds at most
    [window_size] interactions leave the last [window_size] elements of
    the old history followed by the additions, and the size stays within
    the window. *)
Theorem memory_add_from_any_state (m : ConversationMemory) (xs : list Interaction) :
  0 < window_size m ->
  len m <= window_size m ->
  get_history (add_all m xs)
  = lastn (Z.to_nat (window_size m)) (history m ++ xs)
  /\ len (add_all m xs) <= window_size m
  /\ window_size (add_all m xs) = window_size m.
Proof.
  intros HW Hlen. unfold get_history, lastn, len, Py.len in *.
  assert (H : history (add_all m xs)
              = skipn (List.length (history m ++ xs) - Z.to_nat (window_size m))
                      (history m ++ xs)).
  { induction xs as [|x xs IH] using rev_ind.
    - cbn [add_all fold_left]. rewrite app_nil_r.
      replace (List.length (history m) - Z.to_nat (window_size m))%nat
        with 0%nat by lia. reflexivity.
    - rewrite MemoryProps.add_all_snoc. unfold add_interaction.
      rewrite MemoryProps.window_size_add_all. destruct x as [q a].
      cbn [question answer]. rewrite IH.
      set (h := history m ++ xs) in *.
      assert (Hsk : List.length (skipn (List.length h - Z.to_nat (window_size m)) h)
                    = Nat.min (List.length h) (Z.to_nat (window_size m)))
        by (rewrite length_skipn; lia).
      assert (Happ : history m ++ xs ++ [mkInteraction q a]
                     = h ++ [mkInteraction q a])
        by (unfold h; rewrite app_assoc; reflexivity).
      rewrite Happ.
      destruct (_ >? window_size m) eqn:E; cbn [history].
      + apply Z.gtb_lt in E. unfold Py.len in E.
        rewrite length_app, Hsk in E. cbn [List.length] in E.
        rewrite slice_from_last;
          [|assumption|unfold Py.len; rewrite length_app, Hsk; cbn [List.length]; lia].
        rewrite !length_app, Hsk. cbn [List.length].
        rewrite !skipn_app, skipn_skipn, Hsk.
        assert (Hge : (1 <= Z.to_nat (window_size m) <= List.length h)%nat) by lia.
        replace (Nat.min (List.length h) (Z.to_nat (window_size m)) + 1
                 - Z.to_nat (window_size m)
                 - Nat.min (List.length h) (Z.to_nat (window_size m)))%nat
          with 0%nat by lia.
        replace (List.length h + 1 - Z.to_nat (window_size m) - List.length h)%nat
          with 0%nat by lia.
        f_equal. f_equal. lia.
      + rewrite Z.gtb_ltb in E. apply Z.ltb_ge in E. unfold Py.len in E.
        rewrite length_app, Hsk in E. cbn [List.length] in E.
        rewrite length_app. cbn [List.length].
        replace (List.length h - Z.to_nat (window_size m))%nat with 0%nat by lia.
        replace (List.length h + 1 - Z.to_nat (window_size m))%nat with 0%nat by lia.
        reflexivity. }
  split; [exact H|]. split.
  - rewrite H, length_skipn. lia.
  - apply MemoryProps.window_size_add_all.
Qed.

Lemma memory_add_from_any_state_witness :
  get_history
    (add_all (mkMemory 2 [mkInteraction "q1" "a1"; mkInteraction "q2" "a2"])
             [mkInteraction "q3" "a3"])
  = [mkInteraction "q2" "a2"; mkInteraction "q3" "a3"].
Proof.
  destruct (memory_add_from_any_state
              (mkMemory 2 [mkInteraction "q1" "a1"; mkInteraction "q2" "a2"])
              [mkInteraction "q3" "a3"]) as (H & _).
  - reflexivity.
  - cbn. lia.
  - exact H.
Defined.

(** X2. A window of size zero never evicts (the slice [history[-0:]] is
    the whole list), so the memory grows with every addition; a negative
    window keeps nothing. *)
Theorem memory_nonpositive_window :
  (forall xs, get_history (add_all (init 0) xs) = xs)
  /\ (forall W xs, W < 0 -> get_history (add_all (init W) xs) = []).
Proof.
  unfold get_history. split.
  - intro xs. induction xs as [|x xs IH] using rev_ind; [reflexivity|].
    rewrite MemoryProps.add_all_snoc. unfold add_interaction.
    rewrite MemoryProps.window_size_add_all, IH. destruct x as [q a].
    cbn [init window_size question answer].
    destruct (_ >? 0); [|reflexivity].
    cbn [history]. unfold Py.slice_from, Py.norm_index. cbn [Z.opp Z.ltb Z.compare].
    rewrite Z.min_l by lia. reflexivity.
  - intros W xs HW. induction xs as [|x xs IH] using rev_ind; [reflexivity|].
    rewrite MemoryProps.add_all_snoc. unfold add_interaction.
    rewrite MemoryProps.window_size_add_all, IH.
    cbn [init window_size app].
    destruct (_ >? W) eqn:E.
    + cbn [history]. unfold Py.slice_from, Py.norm_index. cbn [List.length].
      destruct (- W <? 0) eqn:E2; [apply Z.ltb_lt in E2; lia|].
      replace (Z.to_nat (Z.min (- W) (Z.of_nat 1))) with 1%nat by lia.
      reflexivity.
    + rewrite Z.gtb_ltb in E. apply Z.ltb_ge in E. unfold Py.len in E.
      cbn in E. lia.
Qed.

(** ** chunk_text *)

Lemma replace_cr_length (s : string) :
  String.length (replace_cr s) = String.length s.
Proof. induction s as [|c r IH]; cbn; [reflexivity|]. rewrite IH. reflexivity. Qed.

Lemma replace_crlf_cons (c : ascii) (r : string) :
  replace_crlf (String c r)
  = if Ascii.eqb c cr
    then match r with
         | String d r' =>
             if Ascii.eqb d lf then String lf (replace_crlf r')
             else String c (replace_crlf r)
         | EmptyString => String c EmptyString
         end
    else String c (replace_crlf r).
Proof. reflexivity. Qed.

Lemma replace_crlf_length (s : string) :
  (String.length (replace_crlf s) <= String.length s)%nat.
Proof.
  enough (H : (String.length (replace_crlf s) <= String.length s)%nat
              /\ forall c, (String.length (replace_crlf (String c s))
                            <= String.length (String c s))%nat)
    by exact (proj1 H).
  induction s as [|d r [IH1 IH2]].
  - split; [cbn; lia|]. intro c. rewrite replace_crlf_cons.
    destruct (Ascii.eqb c cr); cbn; lia.
  - split; [apply IH2|]. intro c. rewrite replace_crlf_cons.
    specialize (IH2 d).
    destruct (Ascii.eqb c cr); [destruct (Ascii.eqb d lf)|];
      cbn [String.length] in *; lia.
Qed.

Lemma normalised_length (text : string) :
  Py.strlen (normalised text) <= Py.strlen text.
Proof.
  unfold normalised, Py.strlen. rewrite replace_cr_length.
  pose proof (replace_crlf_length text). lia.
Qed.

Lemma normalised_truthy (text : string) :
  Py.truthy text = true -> 0 < Py.strlen (normalised text).
Proof.
  intro H. unfold normalised, Py.strlen. rewrite replace_cr_length.
  destruct text as [|c r]; [discriminate H|].
  rewrite replace_crlf_cons. destruct (Ascii.eqb c cr).
  - destruct r as [|d r']; [cbn; lia|].
    destruct (Ascii.eqb d lf); cbn [String.length]; lia.
  - cbn [String.length]. lia.
Qed.

(** More fuel does not change a result. *)
Lemma chunk_loop_fuel (text : string) (chunk_size overlap : Z) (fuel : nat) :
  forall start chunks result,
    chunk_loop fuel text chunk_size overlap start chunks = Some result ->
    forall fuel', (fuel <= fuel')%nat ->
      chunk_loop fuel' text chunk_size overlap start chunks = Some result.
Proof.
  induction fuel as [|fuel IH]; intros start chunks result H fuel' Hle;
    [discriminate H|].
  destruct fuel' as [|fuel']; [lia|].
  cbn [chunk_loop] in *. destruct (start <? Py.strlen text); [|exact H].
  cbv zeta in *. eapply IH; [exact H|lia].
Qed.

Section Chunking.

Variable text : string.
Variables chunk_size overlap : Z.

(** With an overlap smaller than the chunk size every iteration moves the
    start forward, so the loop ends; no chunk is longer than the chunk
    size. *)
Lemma chunk_loop_terminates :
  0 <= overlap < chunk_size ->
  forall fuel start chunks,
    0 <= start ->
    Z.max 0 (Py.strlen text - start) < Z.of_nat fuel ->
    exists more,
      chunk_loop fuel text chunk_size overlap start chunks = Some (chunks ++ more)
      /\ Forall (fun c => Py.strlen c <= chunk_size) more.
Proof.
  intro Hov. induction fuel as [|fuel IH]; intros start chunks Hs Hf; [lia|].
  cbn [chunk_loop]. destruct (start <? Py.strlen text) eqn:E.
  - apply Z.ltb_lt in E. cbv zeta.
    destruct (start + chunk_size - overlap <? 0) eqn:E2;
      [apply Z.ltb_lt in E2; lia|].
    destruct (IH (start + chunk_size - overlap)
                 (chunks ++ [Py.strip (Py.substr start (start + chunk_size) text)]))
      as (more & Hloop & Hall); [lia|lia|].
    exists (Py.strip (Py.substr start (start + chunk_size) text) :: more).
    split.
    + rewrite Hloop, <- app_assoc. reflexivity.
    + constructor; [|exact Hall].
      pose proof (PyFacts.strip_length (Py.substr start (start + chunk_size) text)).
      pose proof (PyFacts.substr_length start chunk_size text Hs).
      unfold Py.strlen in *. lia.
  - exists []. rewrite app_nil_r. split; [reflexivity|constructor].
Qed.

(** With an overlap that is not smaller than the chunk size the start
    stays at zero. *)
Lemma chunk_loop_diverges :
  chunk_size <= overlap ->
  0 < Py.strlen text ->
  forall fuel chunks, chunk_loop fuel text chunk_size overlap 0 chunks = None.
Proof.
  intros Hov Hlen. induction fuel as [|fuel IH]; intro chunks; [reflexivity|].
  cbn [chunk_loop]. destruct (0 <? Py.strlen text) eqn:E;
    [|apply Z.ltb_ge in E; lia].
  cbv zeta. destruct (0 + chunk_size - overlap <? 0) eqn:E2.
  - apply IH.
  - apply Z.ltb_ge in E2.
    replace (0 + chunk_size - overlap) with 0 by lia. apply IH.
Qed.

End Chunking.

(** X3. With [0 <= overlap < chunk_size], [chunk_text] returns: the loop
    ends within [len(text)] iterations, and every chunk it returns is
    non-empty and at most [chunk_size] characters long. *)
Theorem chunk_text_terminates (text : string) (chunk_size overlap : Z) :
  0 <= overlap < chunk_size ->
  exists chunks,
    (forall fuel, Py.strlen text < Z.of_nat fuel ->
                  chunk_text fuel text chunk_size overlap = Some chunks)
    /\ Forall (fun c => 0 < Py.strlen c <= chunk_size) chunks.
Proof.
  intro Hov. unfold chunk_text.
  destruct (Py.truthy text) eqn:Ht; cbn [negb].
  - fold (normalised text).
    pose proof (normalised_length text) as Hn.
    destruct (chunk_loop_terminates (normalised text) chunk_size overlap Hov
                (S (String.length text)) 0 [])
      as (more & Hloop & Hall); [lia|unfold Py.strlen in *; lia|].
    cbn [app] in Hloop.
    exists (filter Py.truthy more). split.
    + intros fuel Hf.
      rewrite (chunk_loop_fuel _ _ _ _ _ _ _ Hloop fuel)
        by (unfold Py.strlen in Hf; lia).
      reflexivity.
    + rewrite Forall_forall in *. intros c Hc.
      apply filter_In in Hc. destruct Hc as [Hin Htr].
      apply PyFacts.truthy_length in Htr.
      specialize (Hall c Hin). unfold Py.strlen in *. cbv beta in Hall. lia.
  - exists []. split; [reflexivity|constructor].
Qed.

Lemma chunk_text_terminates_witness :
  exists chunks,
    chunk_text 20 "alpha beta gamma" 8 2 = Some chunks
    /\ Forall (fun c => 0 < Py.strlen c <= 8) chunks.
Proof.
  destruct (chunk_text_terminates "alpha beta gamma" 8 2) as (chunks & Hrun & Hall).
  - lia.
  - exists chunks. split; [apply Hrun; cbn; lia|exact Hall].
Defined.

(** X4. With [overlap >= chunk_size] and a non-empty text, [chunk_text]
    does not return: the start of the window never advances. *)
Theorem chunk_text_diverges (text : string) (chunk_size overlap : Z) :
  Py.truthy text = true ->
  chunk_size <= overlap ->
  forall fuel, chunk_text fuel text chunk_size overlap = None.
Proof.
  intros Ht Hov fuel. unfold chunk_text. rewrite Ht. cbn [negb].
  fold (normalised text).
  rewrite chunk_loop_diverges; [reflexivity|assumption|].
  apply normalised_truthy. exact Ht.
Qed.

Lemma chunk_text_diverges_witness :
  chunk_text 1000 "alpha beta gamma" 100 100 = None.
Proof.
  apply (chunk_text_diverges "alpha beta gamma" 100 100); [reflexivity|lia].
Defined.

(** X5. A non-empty ASCII text of at most [chunk_size - overlap]
    characters comes back as one chunk, the text with its line ends
    normalised and its surrounding white space removed, or as no chunk
    when it is blank.  (The text is taken to be ASCII because the length
    and the white space of the embedding are those of Python on such text
    only.) *)
Theorem chunk_text_short (text : string) (chunk_size overlap : Z) (fuel : nat) :
  all_chars is_ascii text = true ->
  Py.truthy text = true ->
  0 <= overlap ->
  Py.strlen text <= chunk_size - overlap ->
  (2 <= fuel)%nat ->
  chunk_text fuel text chunk_size overlap
  = Some (if blank (normalised text) then []
          else [Py.strip (normalised text)]).
Proof.
  intros _ Ht Hov Hlen Hfuel. unfold chunk_text. rewrite Ht. cbn [negb].
  fold (normalised text).
  pose proof (normalised_length text) as Hn.
  pose proof (normalised_truthy text Ht) as Hpos.
  destruct fuel as [|[|fuel]]; try lia.
  cbn [chunk_loop].
  destruct (0 <? Py.strlen (normalised text)) eqn:E;
    [|apply Z.ltb_ge in E; lia].
  cbv zeta.
  destruct (0 + chunk_size - overlap <? 0) eqn:E2;
    [apply Z.ltb_lt in E2; lia|].
  destruct (0 + chunk_size - overlap <? Py.strlen (normalised text)) eqn:E3;
    [apply Z.ltb_lt in E3; lia|].
  rewrite PyFacts.substr_whole by lia.
  cbn [app filter].
  destruct (Py.truthy (Py.strip (normalised text))) eqn:Es.
  - destruct (blank (normalised text)) eqn:Eb; [|reflexivity].
    apply PyFacts.strip_empty_iff in Eb. congruence.
  - apply PyFacts.strip_empty_iff in Es. rewrite Es. reflexivity.
Qed.

Lemma chunk_text_short_witness :
  chunk_text 2 "  alpha beta  " 800 150 = Some ["alpha beta"].
Proof.
  apply (chunk_text_short "  alpha beta  " 800 150 2);
    [reflexivity|reflexivity|lia|cbn; lia|lia].
Defined.

End UtilsProps.

(* ================================================================== *)
(** * Further properties of src/query.py *)
(* ================================================================== *)

Module QueryProps.

Import Ollama Query Notions.

(** ** format_context *)

Lemma fragment_truthy (d : string) (m : Meta) : Py.truthy (fragment (d, m)) = true.
Proof.
  unfold fragment. destruct (m_category m) as [[|c r]|]; cbn [Py.truthy];
    try reflexivity; destruct d; reflexivity.
Qed.

Lemma concat_truthy (sep x : string) (xs : list string) :
  Py.truthy x = true -> Py.truthy (String.concat sep (x :: xs)) = true.
Proof.
  intro H. destruct x; [discriminate H|].
  cbn [String.concat]. destruct xs; reflexivity.
Qed.

(** X6. The context handed to the generator depends on the document texts
    and on the [category] of each metadata record only: the identifier, the
    source and the other metadata fields never reach it. *)
Theorem format_context_only_category (docs : list string) (metas : list Meta) :
  format_context docs metas
  = format_context docs
      (map (fun m => mkMeta None None (m_category m) None None) metas).
Proof.
  unfold format_context. f_equal.
  revert metas. induction docs as [|d docs IH]; intro metas; [reflexivity|].
  destruct metas as [|m metas]; [reflexivity|].
  cbn [map combine]. rewrite IH. reflexivity.
Qed.

(** X7. Documents and metadata are paired position by position and what
    has no partner is left out; the context is empty exactly when one of
    the two lists is. *)
Theorem format_context_pairs (docs : list string) (metas : list Meta) :
  let n := Nat.min (List.length docs) (List.length metas) in
  format_context docs metas = format_context (firstn n docs) (firstn n metas)
  /\ (format_context docs metas = "" <-> docs = [] \/ metas = []).
Proof.
  cbn zeta. unfold format_context. split.
  - rewrite <- combine_firstn.
    rewrite firstn_all2; [reflexivity|]. rewrite length_combine. lia.
  - destruct docs as [|d docs]; [cbn; tauto|].
    destruct metas as [|m metas]; [cbn; tauto|].
    cbn [combine map]. split.
    + intro H. pose proof (concat_truthy nl _ (map fragment (combine docs metas))
                             (fragment_truthy d m)) as Ht.
      rewrite H in Ht. discriminate Ht.
    + intros [H|H]; discriminate H.
Qed.

(** ** local_retrieve *)

Lemma load_items_candidates (json_path : string) (category_filter : option string)
  (data : list Entry) :
  Forall2 (candidate json_path category_filter)
          (fst (load_items json_path category_filter data))
          (snd (load_items json_path category_filter data)).
Proof.
  induction data as [|entry rest IH]; [constructor|].
  cbn [load_items].
  destruct (load_items json_path category_filter rest) as [items metadatas].
  cbn [fst snd] in IH.
  destruct (Py.truthy_opt category_filter
            && negb (get (e_category entry) "General"
                     =? get category_filter "")%string) eqn:E; [exact IH|].
  destruct (Py.truthy _ || Py.truthy _); [|exact IH].
  cbn [fst snd]. constructor; [|exact IH].
  split; [reflexivity|]. split.
  - intro Ht. rewrite Ht in E. cbn [andb] in E.
    apply negb_false_iff, String.eqb_eq in E. cbn [m_category].
    destruct category_filter as [f|]; [|discriminate Ht].
    cbn [get] in E. rewrite E. reflexivity.
  - eexists. eexists. repeat split.
Qed.

Lemma Forall2_nth {A B} (P : A -> B -> Prop) (l : list A) (l' : list B)
  (i : nat) (a : A) (b : B) :
  Forall2 P l l' -> (i < List.length l)%nat -> P (nth i l a) (nth i l' b).
Proof.
  intro H. revert i. induction H as [|x y l l' Hxy _ IH]; intros i Hi;
    [cbn in Hi; lia|].
  destruct i as [|i]; [exact Hxy|]. cbn in *. apply IH. lia.
Qed.

Lemma top_ranked_in_range (scores : list Z) (top_k : Z) (x : nat * Z) :
  In x (top_ranked scores top_k) -> (fst x < List.length scores)%nat.
Proof.
  unfold top_ranked. intro H. apply filter_In in H. destruct H as [H _].
  unfold Py.slice_to in H. apply RetrieverProps.in_firstn in H.
  apply (Permutation_in _ (RetrieverProps.ranked_perm scores)) in H.
  destruct x as [i s]. apply RetrieverProps.enumerate_nth in H.
  cbn [fst]. apply nth_error_Some. congruence.
Qed.

(** X8. Whatever the query and [top_k], the keyword retriever returns as
    many metadata records as documents; each document is the
    question-and-answer text of its metadata, taken from the dataset file,
    and with a category filter every returned record has that category; a
    missing or unreadable dataset gives an empty result. *)
Theorem local_retrieve_results (json_path : string) (data : list Entry)
  (query : string) (top_k : Z) (category_filter : option string) :
  Forall2 (candidate json_path category_filter)
          (fst (local_retrieve json_path (Some data) query top_k category_filter))
          (snd (local_retrieve json_path (Some data) query top_k category_filter))
  /\ local_retrieve json_path None query top_k category_filter = ([], []).
Proof.
  split; [|reflexivity].
  unfold local_retrieve.
  pose proof (load_items_candidates json_path category_filter data) as Hc.
  destruct (load_items json_path category_filter data) as [items metadatas].
  cbn [fst snd] in Hc.
  destruct items as [|item items']; [constructor|].
  cbn [fst snd].
  set (items := item :: items') in *.
  assert (Hin : forall x, In x (top_ranked (map (overlap (query_tokens query)) items) top_k)
                          -> (fst x < List.length items)%nat).
  { intros x Hx. apply top_ranked_in_range in Hx.
    rewrite length_map in Hx. exact Hx. }
  induction (top_ranked (map (overlap (query_tokens query)) items) top_k)
    as [|x top IH]; [constructor|].
  cbn [map]. constructor.
  - apply Forall2_nth; [exact Hc|]. apply Hin. left. reflexivity.
  - apply IH. intros y Hy. apply Hin. right. exact Hy.
Qed.

(** ** Case and word order *)

Lemma lower_ascii_idem (c : ascii) :
  Py.lower_ascii (Py.lower_ascii c) = Py.lower_ascii c.
Proof. destruct c as [[] [] [] [] [] [] [] []]; reflexivity. Qed.

Lemma is_space_lower (c : ascii) :
  Py.is_space (Py.lower_ascii c) = Py.is_space c.
Proof. destruct c as [[] [] [] [] [] [] [] []]; reflexivity. Qed.

Lemma lower_idem (s : string) : Py.lower (Py.lower s) = Py.lower s.
Proof.
  induction s as [|c r IH]; cbn [Py.lower]; [reflexivity|].
  rewrite lower_ascii_idem, IH. reflexivity.
Qed.

Lemma lower_append (a b : string) :
  Py.lower (String.append a b) = String.append (Py.lower a) (Py.lower b).
Proof.
  induction a as [|c r IH]; cbn [Py.lower String.append]; [reflexivity|].
  rewrite IH. reflexivity.
Qed.

Lemma rev_string_lower (s acc : string) :
  Py.rev_string (Py.lower acc) (Py.lower s) = Py.lower (Py.rev_string acc s).
Proof.
  revert acc. induction s as [|c r IH]; intro acc; cbn [Py.lower Py.rev_string];
    [reflexivity|].
  rewrite <- IH. reflexivity.
Qed.

Lemma flush_lower (cur : string) (out : list string) :
  Py.flush (Py.lower cur) (map Py.lower out) = map Py.lower (Py.flush cur out).
Proof.
  destruct cur as [|c r]; [reflexivity|].
  unfold Py.flush. cbn [Py.lower map].
  rewrite <- (rev_string_lower (String c r) EmptyString). reflexivity.
Qed.

Lemma split_aux_lower (s cur : string) :
  Py.split_aux (Py.lower cur) (Py.lower s) = map Py.lower (Py.split_aux cur s).
Proof.
  revert cur. induction s as [|c r IH]; intro cur; cbn [Py.lower Py.split_aux].
  - apply (flush_lower cur []).
  - rewrite is_space_lower. destruct (Py.is_space c).
    + rewrite <- flush_lower. f_equal. apply (IH EmptyString).
    + apply (IH (String c cur)).
Qed.

Lemma query_tokens_lower (q : string) :
  query_tokens (Py.lower q) = query_tokens q.
Proof.
  unfold query_tokens, Py.split.
  pose proof (split_aux_lower q EmptyString) as H. cbn [Py.lower] in H.
  rewrite H, map_map. f_equal.
  apply map_ext. intro w. apply lower_idem.
Qed.

Lemma filter_perm {A} (f : A -> bool) (l l' : list A) :
  Permutation l l' -> Permutation (filter f l) (filter f l').
Proof.
  induction 1 as [|x l l' _ IH|x y l|l l' l'' _ IH1 _ IH2]; cbn [filter].
  - constructor.
  - destruct (f x); [constructor|]; exact IH.
  - destruct (f x), (f y); try reflexivity. apply perm_swap.
  - etransitivity; eassumption.
Qed.

Lemma overlap_same_words (q1 q2 item : string) :
  (forall t, In t (map Py.lower (Py.split q1))
             <-> In t (map Py.lower (Py.split q2))) ->
  overlap (query_tokens q1) item = overlap (query_tokens q2) item.
Proof.
  intro H. unfold overlap, Py.inter, Py.len. f_equal.
  apply Permutation_length, filter_perm.
  unfold query_tokens, Py.set_of.
  apply NoDup_Permutation; try apply NoDup_nodup.
  intro t. rewrite !nodup_In. apply H.
Qed.

(** X9. The keyword retriever reads the query as a set of lower-cased
    words: two queries with the same words, in any order and with any
    repetition, get the same result. *)
Theorem local_retrieve_query_as_set (json_path : string)
  (data_json : option (list Entry)) (q1 q2 : string) (top_k : Z)
  (category_filter : option string) :
  (forall t, In t (map Py.lower (Py.split q1))
             <-> In t (map Py.lower (Py.split q2))) ->
  local_retrieve json_path data_json q1 top_k category_filter
  = local_retrieve json_path data_json q2 top_k category_filter.
Proof.
  intro H. unfold local_retrieve.
  destruct (match data_json with
            | Some data => load_items json_path category_filter data
            | None => ([], [])
            end) as [items metadatas].
  destruct items as [|item items']; [reflexivity|].
  assert (E : map (overlap (query_tokens q1)) (item :: items')
              = map (overlap (query_tokens q2)) (item :: items'))
    by (apply map_ext; intro it; apply overlap_same_words; exact H).
  rewrite E. reflexivity.
Qed.

Lemma local_retrieve_query_as_set_witness :
  local_retrieve "data.json" (Some tuition_data) "tuition is tuition much how" 3 None
  = local_retrieve "data.json" (Some tuition_data) "how much is tuition" 3 None.
Proof.
  apply (local_retrieve_query_as_set "data.json" (Some tuition_data)
           "tuition is tuition much how" "how much is tuition" 3 None).
  intro t. vm_compute. tauto.
Defined.

(** X10. Letter case in the query does not matter to the keyword
    retriever. *)
Theorem local_retrieve_case_insensitive (json_path : string)
  (data_json : option (list Entry)) (query : string) (top_k : Z)
  (category_filter : option string) :
  local_retrieve json_path data_json (Py.lower query) top_k category_filter
  = local_retrieve json_path data_json query top_k category_filter.
Proof.
  unfold local_retrieve. rewrite query_tokens_lower. reflexivity.
Qed.

(** ** detect_category *)

Lemma prefix_append (k a b : string) :
  String.prefix k a = true -> String.prefix k (String.append a b) = true.
Proof.
  revert a. induction k as [|c k IH]; intros a H;
    [destruct (String.append a b); reflexivity|].
  destruct a as [|d a]; [discriminate H|].
  cbn [String.prefix String.append] in *.
  destruct (ascii_dec c d); [apply IH; exact H|discriminate H].
Qed.

Lemma contains_append_r (k a b : string) :
  Py.contains k a = true -> Py.contains k (String.append a b) = true.
Proof.
  induction a as [|c a IH]; intro H.
  - cbn in H. rewrite orb_false_r in H.
    destruct k; [|discriminate H]. destruct b; reflexivity.
  - cbn [Py.contains String.append] in *. apply orb_true_iff in H.
    apply orb_true_iff. destruct H as [H|H].
    + left. apply (prefix_append k (String c a) b H).
    + right. apply IH. exact H.
Qed.

Lemma contains_append_l (k a b : string) :
  Py.contains k b = true -> Py.contains k (String.append a b) = true.
Proof.
  intro H. induction a as [|c a IH]; [exact H|].
  cbn [Py.contains String.append]. rewrite IH. apply orb_true_r.
Qed.

Lemma hits_positive (keywords : list string) (q : string) :
  0 < hits keywords q <-> exists k, In k keywords /\ ci_in k q = true.
Proof.
  unfold hits, Py.len. split.
  - intro H. destruct (filter (fun keyword => ci_in keyword q) keywords)
      as [|k ks] eqn:E; [cbn in H; lia|].
    assert (Hin : In k (filter (fun keyword => ci_in keyword q) keywords))
      by (rewrite E; left; reflexivity).
    apply filter_In in Hin. exists k. exact Hin.
  - intros (k & Hin & Hk).
    assert (Hf : In k (filter (fun keyword => ci_in keyword q) keywords))
      by (apply filter_In; split; assumption).
    destruct (filter (fun keyword => ci_in keyword q) keywords);
      [destruct Hf|cbn; lia].
Qed.

(** X11. The classifier ignores letter case, and text added before or
    after a question that is classified never makes it unclassified (a
    keyword that occurs keeps occurring). *)
Theorem detect_category_stable (q : string) :
  detect_category (Py.lower q) = detect_category q
  /\ forall before after,
       detect_category q <> None ->
       detect_category (String.append before (String.append q after)) <> None.
Proof.
  split.
  - unfold detect_category, detect_category_in. rewrite lower_idem. reflexivity.
  - intros before after Hq Hext.
    pose proof (ClassifierProps.detect_category_char q) as H1.
    pose proof (ClassifierProps.detect_category_char
                  (String.append before (String.append q after))) as H2.
    rewrite Hext in H2.
    destruct (detect_category q) as [c|]; [|congruence].
    destruct H1 as (pre & kws & post & Ht & Hpos & _).
    apply hits_positive in Hpos. destruct Hpos as (k & Hin & Hk).
    assert (Hc : In (c, kws) category_keywords)
      by (rewrite Ht; apply in_or_app; right; left; reflexivity).
    specialize (H2 c kws Hc).
    assert (Hpos : 0 < hits kws (String.append before (String.append q after))).
    { apply hits_positive. exists k. split; [exact Hin|].
      unfold ci_in in *. rewrite !lower_append.
      apply contains_append_l, contains_append_r. exact Hk. }
    lia.
Qed.

End QueryProps.

(* ================================================================== *)
(** * Further properties of api.py *)
(* ================================================================== *)

Module ApiProps.

Import Ollama Query Api Notions.

(** ** The session table *)

Lemma lookup_store_same (sessions : Sessions) (k : string)
  (m : Utils.ConversationMemory) :
  lookup (store sessions k m) k = Some m.
Proof.
  induction sessions as [|[k' m'] rest IH]; cbn [store lookup].
  - rewrite String.eqb_refl. reflexivity.
  - destruct (String.eqb k' k) eqn:E; cbn [lookup]; rewrite E; [reflexivity|exact IH].
Qed.

Lemma lookup_store_other (sessions : Sessions) (k k' : string)
  (m : Utils.ConversationMemory) :
  k' <> k -> lookup (store sessions k m) k' = lookup sessions k'.
Proof.
  intro Hne. induction sessions as [|[k0 m0] rest IH]; cbn [store lookup].
  - destruct (String.eqb k k') eqn:E; [apply String.eqb_eq in E; congruence|reflexivity].
  - destruct (String.eqb k0 k) eqn:E; cbn [lookup].
    + apply String.eqb_eq in E. subst k0.
      destruct (String.eqb k k') eqn:E'; [apply String.eqb_eq in E'; congruence|reflexivity].
    + destruct (String.eqb k0 k'); [reflexivity|exact IH].
Qed.

Lemma lookup_None_keys (sessions : Sessions) (k : string) :
  lookup sessions k = None <-> ~ In k (map fst sessions).
Proof.
  induction sessions as [|[k' m'] rest IH]; cbn [lookup map fst In]; [tauto|].
  destruct (String.eqb k' k) eqn:E.
  - apply String.eqb_eq in E. split; [discriminate|]. intro H. exfalso. apply H. left. exact E.
  - apply String.eqb_neq in E. rewrite IH. tauto.
Qed.

Lemma keys_store (sessions : Sessions) (k : string) (m : Utils.ConversationMemory) :
  map fst (store sessions k m)
  = match lookup sessions k with
    | Some _ => map fst sessions
    | None => map fst sessions ++ [k]
    end.
Proof.
  induction sessions as [|[k' m'] rest IH]; cbn [store lookup map fst app]; [reflexivity|].
  destruct (String.eqb k' k) eqn:E; cbn [map fst].
  - reflexivity.
  - rewrite IH. destruct (lookup rest k); reflexivity.
Qed.

Lemma wf_store (sessions : Sessions) (k : string) (m : Utils.ConversationMemory) :
  wf_sessions sessions -> wf_sessions (store sessions k m).
Proof.
  unfold wf_sessions. intro H. rewrite keys_store.
  destruct (lookup sessions k) eqn:E; [exact H|].
  apply lookup_None_keys in E.
  apply NoDup_rev in H. rewrite <- (rev_involutive (map fst sessions ++ [k])).
  apply NoDup_rev. rewrite rev_app_distr. cbn [rev app].
  constructor; [|exact H]. rewrite <- in_rev. exact E.
Qed.

Lemma lookup_remove_other (sessions : Sessions) (k k' : string) :
  k' <> k -> lookup (remove sessions k) k' = lookup sessions k'.
Proof.
  intro Hne. induction sessions as [|[k0 m0] rest IH]; cbn [remove lookup]; [reflexivity|].
  destruct (String.eqb k0 k) eqn:E.
  - apply String.eqb_eq in E. subst k0.
    destruct (String.eqb k k') eqn:E'; [apply String.eqb_eq in E'; congruence|reflexivity].
  - cbn [lookup]. destruct (String.eqb k0 k'); [reflexivity|exact IH].
Qed.

Lemma keys_remove_incl (sessions : Sessions) (k x : string) :
  In x (map fst (remove sessions k)) -> In x (map fst sessions).
Proof.
  induction sessions as [|[k0 m0] rest IH]; cbn [remove map fst In]; [tauto|].
  destruct (String.eqb k0 k); cbn [map fst In]; tauto.
Qed.

Lemma wf_remove (sessions : Sessions) (k : string) :
  wf_sessions sessions ->
  wf_sessions (remove sessions k) /\ lookup (remove sessions k) k = None.
Proof.
  unfold wf_sessions.
  induction sessions as [|[k0 m0] rest IH]; cbn [remove map fst lookup]; intro H.
  - split; [constructor|reflexivity].
  - inversion H as [|? ? Hnin Hnd]; subst.
    destruct (String.eqb k0 k) eqn:E.
    + apply String.eqb_eq in E. subst k0. split; [exact Hnd|].
      apply lookup_None_keys. exact Hnin.
    + destruct (IH Hnd) as [IH1 IH2]. cbn [map fst lookup]. rewrite E.
      split; [|exact IH2]. constructor; [|exact IH1].
      intro Hin. apply Hnin. eapply keys_remove_incl. exact Hin.
Qed.

Lemma length_remove (sessions : Sessions) (k : string) (m : Utils.ConversationMemory) :
  lookup sessions k = Some m ->
  List.length sessions = S (List.length (remove sessions k)).
Proof.
  induction sessions as [|[k0 m0] rest IH]; cbn [lookup remove]; [discriminate|].
  destruct (String.eqb k0 k); [reflexivity|].
  intro H. cbn [List.length]. rewrite (IH H). reflexivity.
Qed.

Lemma store_absent (sessions : Sessions) (k : string)
  (m : Utils.ConversationMemory) :
  lookup sessions k = None -> store sessions k m = sessions ++ [(k, m)].
Proof.
  induction sessions as [|[k' m'] rest IH]; cbn [lookup store app]; [reflexivity|].
  destruct (String.eqb k' k); [discriminate|].
  intro H. rewrite (IH H). reflexivity.
Qed.

(** X12. [get_session_memory] returns the memory stored under the key and
    leaves the table as it is when the key is known; for an unknown key it
    creates an empty memory with window 10 and adds it at the end of the
    table; afterwards the key is bound to the returned memory, a second
    call changes nothing, other keys are untouched and the table keeps one
    entry per key. *)
Theorem get_session_memory_table (sessions : Sessions) (k : string) :
  wf_sessions sessions ->
  let (sessions', m) := get_session_memory sessions k in
  wf_sessions sessions'
  /\ lookup sessions' k = Some m
  /\ (forall m0, lookup sessions k = Some m0 -> m = m0 /\ sessions' = sessions)
  /\ (lookup sessions k = None ->
      m = Utils.init 10 /\ sessions' = sessions ++ [(k, m)])
  /\ get_session_memory sessions' k = (sessions', m)
  /\ forall k', k' <> k -> lookup sessions' k' = lookup sessions k'.
Proof.
  intro Hwf. unfold get_session_memory.
  destruct (lookup sessions k) as [m|] eqn:E.
  - rewrite ?E. split; [exact Hwf|]. split; [reflexivity|].
    split; [intros m0 H; inversion H; split; reflexivity|].
    split; [discriminate|]. split; reflexivity.
  - rewrite lookup_store_same.
    split; [apply wf_store; exact Hwf|]. split; [reflexivity|].
    split; [discriminate|].
    split; [intros _; split; [reflexivity|apply store_absent; exact E]|].
    split; [reflexivity|].
    intros k' Hne. apply lookup_store_other. exact Hne.
Qed.

(** A session that holds one interaction is returned as it is, and a
    session that does not exist is created behind it. *)
Lemma get_session_memory_table_witness :
  let alice := Utils.mkMemory 10 [Utils.mkInteraction "Hello" "Welcome"] in
  get_session_memory [("alice", alice)] "alice" = ([("alice", alice)], alice)
  /\ get_session_memory [("alice", alice)] "bob"
     = ([("alice", alice); ("bob", Utils.init 10)], Utils.init 10).
Proof.
  cbn zeta.
  pose proof (get_session_memory_table
                [("alice", Utils.mkMemory 10 [Utils.mkInteraction "Hello" "Welcome"])]
                "alice") as Ha.
  pose proof (get_session_memory_table
                [("alice", Utils.mkMemory 10 [Utils.mkInteraction "Hello" "Welcome"])]
                "bob") as Hb.
  assert (Hwf : wf_sessions
                  [("alice", Utils.mkMemory 10 [Utils.mkInteraction "Hello" "Welcome"])]).
  { repeat constructor. cbn. tauto. }
  specialize (Ha Hwf). specialize (Hb Hwf).
  destruct (get_session_memory _ "alice") as [sa ma].
  destruct (get_session_memory _ "bob") as [sb mb].
  destruct Ha as (_ & _ & Hknown & _). destruct Hb as (_ & _ & _ & Hnew & _).
  destruct (Hknown _ eq_refl) as [-> ->].
  destruct (Hnew eq_refl) as [-> ->].
  split; reflexivity.
Defined.

(** X13. Deleting a session removes exactly that session: its key is
    unbound afterwards, the other sessions are untouched, the number of
    active sessions drops by one, and the next request for the key starts
    from an empty memory; deleting an unknown session changes nothing. *)
Theorem delete_session_forgets (sessions : Sessions) (k : string) :
  wf_sessions sessions ->
  let sessions' := snd (delete_session sessions k) in
  wf_sessions sessions'
  /\ lookup sessions' k = None
  /\ (forall k', k' <> k -> lookup sessions' k' = lookup sessions k')
  /\ snd (get_session_memory sessions' k) = Utils.init 10
  /\ (lookup sessions k = None -> sessions' = sessions)
  /\ (lookup sessions k <> None ->
      fst (list_sessions sessions) = fst (list_sessions sessions') + 1).
Proof.
  intro Hwf. cbn zeta. unfold delete_session.
  destruct (lookup sessions k) as [m|] eqn:E; cbn [snd].
  - destruct (wf_remove sessions k Hwf) as [Hwf' Hnone].
    split; [exact Hwf'|]. split; [exact Hnone|].
    split; [intros k' Hne; apply lookup_remove_other; exact Hne|].
    split; [unfold get_session_memory; rewrite Hnone; reflexivity|].
    split; [discriminate|].
    intros _. unfold list_sessions, Py.len. cbn [fst].
    rewrite !length_map, (length_remove sessions k m E). lia.
  - split; [exact Hwf|]. split; [exact E|]. split; [reflexivity|].
    split; [unfold get_session_memory; rewrite E; reflexivity|].
    split; [reflexivity|]. intro H. congruence.
Qed.

Lemma delete_session_forgets_witness :
  lookup (snd (delete_session
                 [("alice", Utils.init 10); ("bob", Utils.init 10)] "alice"))
         "alice" = None.
Proof.
  destruct (delete_session_forgets
              [("alice", Utils.init 10); ("bob", Utils.init 10)] "alice")
    as (_ & H & _).
  - repeat constructor; cbn; intuition discriminate.
  - exact H.
Defined.

(** X14. Clearing the memory of a session empties its history and keeps
    its window size; the other sessions are untouched and no session is
    created for an unknown key; a missing or empty session id stands for
    the session ["default"]. *)
Theorem clear_conversation_memory_resets (sessions : Sessions)
  (session_id : option string) :
  let k := get (Py.or_else session_id (Some "default")) "default" in
  let sessions' := snd (clear_conversation_memory sessions session_id) in
  (forall m, lookup sessions k = Some m ->
             lookup sessions' k = Some (Utils.mkMemory (Utils.window_size m) []))
  /\ (lookup sessions k = None -> sessions' = sessions)
  /\ (forall k', k' <> k -> lookup sessions' k' = lookup sessions k')
  /\ (Py.truthy_opt session_id = false -> k = "default").
Proof.
  cbn zeta. unfold clear_conversation_memory.
  set (k := get (Py.or_else session_id (Some "default")) "default").
  destruct (lookup sessions k) as [m|] eqn:E; cbn [snd].
  - split.
    + intros m' Hm. inversion Hm; subst. rewrite lookup_store_same. reflexivity.
    + split; [discriminate|]. split.
      * intros k' Hne. apply lookup_store_other. exact Hne.
      * intro H. unfold k, Py.or_else. rewrite H. reflexivity.
  - split; [discriminate|]. split; [reflexivity|]. split; [reflexivity|].
    intro H. unfold k, Py.or_else. rewrite H. reflexivity.
Qed.

(** ** ask_question *)

Section Endpoint.

Variable Embedding : Type.
Variable env : Env Embedding.

#[local] Abbreviation retrieve := (Query.retrieve Embedding env).
#[local] Abbreviation ask_question := (Api.ask_question Embedding env).

(** The calls of the keyword path: one or two keyword searches. *)
Lemma keyword_path_events (q : string) (c : option string) :
  snd (keyword_path Embedding env q c) = [EvLocal 3 c]
  \/ snd (keyword_path Embedding env q c) = [EvLocal 3 c; EvLocal 3 None].
Proof.
  unfold keyword_path.
  destruct (local_retrieve _ _ q 3 c) as [[|d ds] m].
  - destruct (Py.truthy_opt c).
    + destruct (local_retrieve _ _ q 3 None) as [[|d' ds'] m']; cbn; tauto.
    + cbn. tauto.
  - cbn. tauto.
Qed.

(** The calls of the retrieval stage: the embedding, then at most two
    queries of the vector store, then at most two keyword searches. *)
Lemma retrieve_events (q : string) (c : option string) :
  exists v k,
    snd (retrieve q c) = EvEmbed [q] :: v ++ k
    /\ (v = [] \/ v = [EvChroma 5 c] \/ v = [EvChroma 5 c; EvChroma 5 None])
    /\ (k = [] \/ k = [EvLocal 3 c] \/ k = [EvLocal 3 c; EvLocal 3 None]).
Proof.
  unfold Query.retrieve.
  pose proof (keyword_path_events q c) as Hk.
  destruct (PipelineProps.vector_path_cases Embedding env q c)
    as [[_ ->]|(e & rest & docs & metas & events & _ & Hev & _
                & [(ctx & _ & ->)|(msg & _ & ->)])].
  - destruct (keyword_path Embedding env q c) as [r events']. cbn [snd] in *.
    exists [], events'. split; [reflexivity|]. split; [tauto|tauto].
  - cbn [snd]. destruct Hev as [-> | ->].
    + exists [EvChroma 5 c], []. repeat split; tauto.
    + exists [EvChroma 5 c; EvChroma 5 None], []. repeat split; tauto.
  - destruct (keyword_path Embedding env q c) as [r events']. cbn [snd] in *.
    destruct Hev as [-> | ->].
    + exists [EvChroma 5 c], events'. split; [reflexivity|]. tauto.
    + exists [EvChroma 5 c; EvChroma 5 None], events'. split; [reflexivity|]. tauto.
Qed.

(** The retrieval stage never calls the generator. *)
Lemma retrieve_events_no_generate (q : string) (c : option string) :
  Forall (fun e => generate_history e = []) (snd (retrieve q c))
  /\ existsb is_generate (snd (retrieve q c)) = false.
Proof.
  destruct (retrieve_events q c) as (v & k & -> & Hv & Hk).
  destruct Hv as [-> | [-> | ->]]; destruct Hk as [-> | [-> | ->]];
    split; try reflexivity; repeat constructor.
Qed.

(** The vector store is not queried after a failed embedding; the keyword
    retriever is not called after a successful one when the store returns
    dicts as metadata. *)
Lemma retrieve_events_path (q : string) (c : option string) :
  let events := snd (retrieve q c) in
  (embed Embedding env [q] <> [] ->
   store_returns_dicts Embedding env q -> existsb is_local events = false)
  /\ (embed Embedding env [q] = [] -> existsb is_chroma events = false).
Proof.
  cbn zeta. unfold Query.retrieve.
  pose proof (keyword_path_events q c) as Hk.
  destruct (PipelineProps.vector_path_cases Embedding env q c)
    as [[He ->]|(e & rest & docs & metas & events & He & Hev & Hres
                & [(ctx & _ & ->)|(msg & Hraise & ->)])].
  - split; [congruence|]. intros _.
    destruct (keyword_path Embedding env q c) as [r events']. cbn [snd] in *.
    destruct Hk as [-> | ->]; reflexivity.
  - split; [|congruence]. intros _ _. cbn [snd].
    destruct Hev as [-> | ->]; reflexivity.
  - split; [|congruence]. intros _ Hd. exfalso.
    destruct Hres as [Hres|Hres];
      destruct (PipelineProps.retrieve_with_chroma_dicts Embedding env q e rest
                  5 _ docs metas Hd He Hres) as [ctx Hok];
      congruence.
Qed.

(** The outcome and the trace of a request, case by case. *)
Lemma ask_question_trace_cases (w : World) (request : QueryRequest) :
  let q := Py.strip (question request) in
  let c := Py.or_else (category request) (detect_category q) in
  let '(outcome, _, trace) := ask_question w request in
  (blank (question request) = true
   /\ outcome = HTTPException 400 "Question cannot be empty" /\ trace = [])
  \/ (blank (question request) = false
      /\ outcome = HTTPException 404 "No relevant information found for this question"
      /\ trace = snd (retrieve q c))
  \/ (blank (question request) = false
      /\ ((exists r, outcome = Response r)
          \/ (exists msg, outcome = HTTPException 500 msg))
      /\ exists ctx history, trace = snd (retrieve q c) ++ [EvGenerate ctx history]).
Proof.
  cbn zeta.
  destruct (PipelineProps.ask_question_cases Embedding env w request)
    as [[Hq H400]|[[Hq (events & Hr)]|[Hq (docs & metas & ctx & events & Hr)]]].
  - rewrite H400. left. split; [|split; reflexivity].
    apply PyFacts.strip_empty_iff. exact Hq.
  - destruct (PipelineProps.ask_question_no_evidence Embedding env w request
                events Hq Hr) as (w' & H404 & _).
    rewrite H404, Hr. right. left. split; [|split; reflexivity].
    destruct (blank (question request)) eqn:Eb; [|reflexivity].
    apply PyFacts.strip_empty_iff in Eb. congruence.
  - destruct (PipelineProps.ask_question_after_retrieve Embedding env w request
                docs metas ctx events Hq Hr)
      as (history & w' & [(msg & H500 & _)|(r & Hok & _)]).
    + rewrite H500, Hr. right. right. split.
      * destruct (blank (question request)) eqn:Eb; [|reflexivity].
        apply PyFacts.strip_empty_iff in Eb. congruence.
      * split; [right; exists msg; reflexivity|].
        exists ctx, history. reflexivity.
    + rewrite Hok, Hr. right. right. split.
      * destruct (blank (question request)) eqn:Eb; [|reflexivity].
        apply PyFacts.strip_empty_iff in Eb. congruence.
      * split; [left; exists r; reflexivity|].
        exists ctx, history. reflexivity.
Qed.

End Endpoint.

(** X15. A question that is empty or made of (ASCII) white space only is
    refused with status 400 before anything else happens: no session is
    created, no service is called and the log is untouched;
    [detect_question_category] refuses the same questions; an ASCII
    question with any other character is never refused with status 400.
    (Outside ASCII Python knows more white space than the embedding, so
    the second part is stated for ASCII questions.) *)
Theorem blank_question_refused (Embedding : Type) (env : Env Embedding)
  (w : World) (request : QueryRequest) :
  (blank (question request) = true ->
   ask_question Embedding env w request
   = (HTTPException 400 "Question cannot be empty", w, [])
   /\ detect_question_category request
      = inl (HTTPException 400 "Question cannot be empty"))
  /\ (all_chars is_ascii (question request) = true ->
      blank (question request) = false ->
      (forall detail,
          fst (fst (ask_question Embedding env w request))
          <> HTTPException 400 detail)
      /\ detect_question_category request
         = inr (categories, detect_category (Py.strip (question request)))).
Proof.
  split; [intro Hb|intros _ Hb].
  - apply PyFacts.strip_empty_iff in Hb.
    unfold Api.ask_question, detect_question_category. rewrite Hb.
    rewrite orb_true_r. split; reflexivity.
  - assert (Hq : Py.truthy (Py.strip (question request)) = true).
    { destruct (Py.truthy (Py.strip (question request))) eqn:E; [reflexivity|].
      apply PyFacts.strip_empty_iff in E. congruence. }
    split.
    + intro detail.
      pose proof (ask_question_trace_cases Embedding env w request) as H.
      cbn zeta in H.
      destruct (Api.ask_question Embedding env w request) as [[outcome w'] trace].
      cbn [fst].
      destruct H as [(Hb' & _)|[(_ & -> & _)|(_ & [[r ->]|[msg ->]] & _)]];
        [congruence|discriminate..].
    + unfold detect_question_category.
      rewrite Hq, (PipelineProps.truthy_strip _ Hq). reflexivity.
Qed.

Lemma blank_question_refused_witness :
  ask_question unit env_embed_down fresh_world
    (mkRequest "   " (Some "default") None (Some true))
  = (HTTPException 400 "Question cannot be empty", fresh_world, []).
Proof.
  destruct (blank_question_refused unit env_embed_down fresh_world
              (mkRequest "   " (Some "default") None (Some true))) as [H _].
  destruct (H eq_refl) as [Hask _]. exact Hask.
Defined.

(** X16. One request makes at most one embedding call, then at most two
    queries of the vector store, then at most two calls of the keyword
    retriever, and last at most one call of the generator, in this order;
    the generator is called exactly when the request ends with a response
    or with status 500. *)
Theorem ask_question_calls (Embedding : Type) (env : Env Embedding)
  (w : World) (request : QueryRequest) :
  let outcome := fst (fst (ask_question Embedding env w request)) in
  let trace := snd (ask_question Embedding env w request) in
  (exists e v k g,
      trace = e ++ v ++ k ++ g
      /\ forallb is_embed e = true /\ (List.length e <= 1)%nat
      /\ forallb is_chroma v = true /\ (List.length v <= 2)%nat
      /\ forallb is_local k = true /\ (List.length k <= 2)%nat
      /\ forallb is_generate g = true /\ (List.length g <= 1)%nat)
  /\ Py.len (filter is_embed trace) <= 1
  /\ Py.len (filter is_chroma trace) <= 2
  /\ Py.len (filter is_local trace) <= 2
  /\ Py.len (filter is_generate trace) <= 1
  /\ (existsb is_generate trace = true
      <-> (exists r, outcome = Response r)
          \/ (exists msg, outcome = HTTPException 500 msg)).
Proof.
  cbn zeta.
  pose proof (ask_question_trace_cases Embedding env w request) as H.
  cbn zeta in H.
  destruct (Api.ask_question Embedding env w request) as [[outcome w'] trace].
  cbn [fst snd].
  destruct (retrieve_events Embedding env (Py.strip (question request))
              (Py.or_else (category request)
                 (detect_category (Py.strip (question request)))))
    as (v & k & Hev & Hv & Hk).
  assert (Hno : ~ ((exists r : QueryResponse, @HTTPException 400 "Question cannot be empty" = Response r)
                   \/ (exists msg, HTTPException 400 "Question cannot be empty"
                                   = HTTPException 500 msg)))
    by (intros [[r H0]|[msg H0]]; discriminate H0).
  assert (Hno' : ~ ((exists r : QueryResponse,
                        HTTPException 404 "No relevant information found for this question"
                        = Response r)
                    \/ (exists msg,
                           HTTPException 404 "No relevant information found for this question"
                           = HTTPException 500 msg)))
    by (intros [[r H0]|[msg H0]]; discriminate H0).
  destruct H as [(_ & -> & ->)|[(_ & -> & ->)|(_ & Hout & ctx & history & ->)]].
  - split.
    { exists [], [], [], []. repeat split; try reflexivity; cbn; lia. }
    cbn. repeat match goal with |- _ /\ _ => split end; try lia.
    split; [discriminate|intro H0; contradiction].
  - rewrite Hev. split.
    { exists [EvEmbed [Py.strip (question request)]], v, k, [].
      rewrite app_nil_r.
      destruct Hv as [-> | [-> | ->]]; destruct Hk as [-> | [-> | ->]];
        repeat split; try reflexivity; cbn; lia. }
    destruct Hv as [-> | [-> | ->]]; destruct Hk as [-> | [-> | ->]]; cbn;
      repeat match goal with |- _ /\ _ => split end; try lia;
      (split; [discriminate|intro H0; contradiction]).
  - rewrite Hev. split.
    { exists [EvEmbed [Py.strip (question request)]], v, k, [EvGenerate ctx history].
      destruct Hv as [-> | [-> | ->]]; destruct Hk as [-> | [-> | ->]];
        repeat split; try reflexivity; cbn; lia. }
    destruct Hv as [-> | [-> | ->]]; destruct Hk as [-> | [-> | ->]]; cbn;
      repeat match goal with |- _ /\ _ => split end; try lia;
      (split; [intros _; exact Hout|reflexivity]).
Qed.

(** X17. When the embedding fails the vector store is not queried and the
    keyword retriever does the retrieval.  When the embedding succeeds and
    the vector store returns dicts as metadata, the keyword retriever is
    not called, whatever else the store does (it may fail or find
    nothing). *)
Theorem retrieval_path_by_embedding (Embedding : Type) (env : Env Embedding)
  (w : World) (request : QueryRequest) :
  let q := Py.strip (question request) in
  let trace := snd (ask_question Embedding env w request) in
  (embed Embedding env [q] <> [] ->
   store_returns_dicts Embedding env q -> existsb is_local trace = false)
  /\ (embed Embedding env [q] = [] ->
      existsb is_chroma trace = false
      /\ (blank (question request) = false -> existsb is_local trace = true)).
Proof.
  cbn zeta.
  pose proof (ask_question_trace_cases Embedding env w request) as H.
  cbn zeta in H.
  destruct (Api.ask_question Embedding env w request) as [[outcome w'] trace].
  cbn [snd].
  pose proof (retrieve_events_path Embedding env (Py.strip (question request))
                (Py.or_else (category request)
                   (detect_category (Py.strip (question request))))) as [Hv Hk].
  assert (Hloc : embed Embedding env [Py.strip (question request)] = [] ->
                 existsb is_local
                   (snd (retrieve Embedding env (Py.strip (question request))
                           (Py.or_else (category request)
                              (detect_category (Py.strip (question request))))))
                 = true).
  { intro He.
    destruct (PipelineProps.embed_failure_uses_keyword_fallback Embedding env
                (Py.strip (question request))
                (Py.or_else (category request)
                   (detect_category (Py.strip (question request)))) He)
      as [Hr _].
    rewrite Hr. cbn [snd existsb is_local orb].
    destruct (keyword_path_events Embedding env (Py.strip (question request))
                (Py.or_else (category request)
                   (detect_category (Py.strip (question request)))))
      as [-> | ->]; reflexivity. }
  destruct H as [(Hb & _ & ->)|[(_ & _ & ->)|(_ & _ & ctx & history & ->)]].
  - split; [reflexivity|]. intros _. split; [reflexivity|congruence].
  - split; [exact Hv|]. intro He. split; [exact (Hk He)|]. intros _. exact (Hloc He).
  - rewrite !existsb_app. cbn [existsb is_local is_chroma orb].
    rewrite !orb_false_r. split; [exact Hv|].
    intro He. split; [exact (Hk He)|]. intros _. exact (Hloc He).
Qed.

(** A store that answers and holds nothing: the keyword retriever is not
    called. *)
Lemma retrieval_path_by_embedding_witness :
  existsb is_local
    (snd (ask_question unit env_store_empty fresh_world tuition_request)) = false.
Proof.
  apply (retrieval_path_by_embedding unit env_store_empty fresh_world tuition_request).
  - discriminate.
  - intros e rest k c docs metas _ H. inversion H. constructor.
Defined.

(** ** The sessions after a request *)

Lemma all_empty_lookup (sessions : Sessions) (k : string)
  (m : Utils.ConversationMemory) :
  all_empty sessions -> lookup sessions k = Some m -> Utils.history m = [].
Proof.
  unfold all_empty. induction 1 as [|[k' m'] rest Hm _ IH]; cbn [lookup];
    [discriminate|].
  destruct (String.eqb k' k); [|exact IH].
  intro H. inversion H; subst. exact Hm.
Qed.

Lemma all_empty_store (sessions : Sessions) (k : string)
  (m : Utils.ConversationMemory) :
  all_empty sessions -> Utils.history m = [] -> all_empty (store sessions k m).
Proof.
  unfold all_empty. intros H Hm.
  induction H as [|[k' m'] rest Hm' Hrest IH]; cbn [store].
  - constructor; [exact Hm|constructor].
  - destruct (String.eqb k' k); constructor; cbn [snd] in *; assumption.
Qed.

Lemma all_empty_get_session_memory (sessions : Sessions) (k : string) :
  all_empty sessions ->
  all_empty (fst (get_session_memory sessions k))
  /\ Utils.history (snd (get_session_memory sessions k)) = [].
Proof.
  intro H. unfold get_session_memory.
  destruct (lookup sessions k) as [m|] eqn:E; cbn [fst snd].
  - split; [exact H|]. eapply all_empty_lookup; eassumption.
  - split; [|reflexivity]. apply all_empty_store; [exact H|reflexivity].
Qed.

Lemma memory_truthy_empty (m : Utils.ConversationMemory) :
  Utils.history m = [] -> memory_truthy (Some m) = false.
Proof. intro H. unfold memory_truthy, Utils.len. rewrite H. reflexivity. Qed.

(** One request on a table of empty memories. *)
Lemma ask_question_keeps_empty (Embedding : Type) (env : Env Embedding)
  (w : World) (request : QueryRequest) :
  all_empty (conversation_sessions w) ->
  let '(outcome, w', trace) := ask_question Embedding env w request in
  all_empty (conversation_sessions w')
  /\ (forall r, outcome = Response r -> memory_size r = 0)
  /\ Forall (fun e => generate_history e = []) trace.
Proof.
  intro Hall. unfold Api.ask_question.
  destruct (negb _ || negb _); [repeat split; [exact Hall|discriminate|constructor]|].
  pose proof (proj1 (retrieve_events_no_generate Embedding env
                       (Py.strip (question request))
                       (Py.or_else (category request)
                          (detect_category (Py.strip (question request))))))
    as Hevents.
  destruct (get (use_memory request) false).
  - pose proof (all_empty_get_session_memory (conversation_sessions w)
                  (get (Py.or_else (session_id request) (Some "default")) "default")
                  Hall) as [Hs Hm].
    destruct (get_session_memory _ _) as [s m]. cbn [fst snd] in Hs, Hm.
    cbv beta iota zeta.
    destruct (retrieve Embedding env _ _) as [[[[docs metas] ctx]|] events];
      cbn [snd] in Hevents; cbv beta iota zeta;
      [|cbn [conversation_sessions]; split;
        [exact Hs|split; [discriminate|exact Hevents]]].
    rewrite !(memory_truthy_empty m Hm).
    destruct (Ollama.generate _ _ _ _) as [ans|msg]; cbv beta iota zeta;
      rewrite ?(memory_truthy_empty m Hm); cbn [conversation_sessions].
    + destruct (save_result _ _ _ _ _) as [file|msg];
        cbn [conversation_sessions].
      * split; [exact Hs|]. split.
        -- intros r H. inversion H. reflexivity.
        -- apply Forall_app. split; [exact Hevents|repeat constructor].
      * split; [exact Hs|]. split; [discriminate|].
        apply Forall_app. split; [exact Hevents|repeat constructor].
    + split; [exact Hs|]. split; [discriminate|].
      apply Forall_app. split; [exact Hevents|repeat constructor].
  - cbn [memory_truthy].
    destruct (retrieve Embedding env _ _) as [[[[docs metas] ctx]|] events];
      cbn [snd] in Hevents.
    + destruct (Ollama.generate _ _ _ _) as [ans|msg].
      * destruct (save_result _ _ _ _ _) as [file|msg];
          cbn [conversation_sessions].
        -- split; [exact Hall|]. split.
           ++ intros r H. inversion H. reflexivity.
           ++ apply Forall_app. split; [exact Hevents|repeat constructor].
        -- split; [exact Hall|]. split; [discriminate|].
           apply Forall_app. split; [exact Hevents|repeat constructor].
      * cbn [conversation_sessions]. split; [exact Hall|]. split; [discriminate|].
        apply Forall_app. split; [exact Hevents|repeat constructor].
    + cbn [conversation_sessions]. split; [exact Hall|]. split; [discriminate|exact Hevents].
Qed.


(** X18. The endpoint never stores an interaction in a memory that is
    empty: [if memory:] takes the truth value of the memory, which is its
    length.  Starting from a table of empty memories (the table is empty
    when the process starts), after any sequence of requests every memory
    is still empty and every response reports [memory_size = 0]. *)
Theorem endpoint_memory_stays_empty (Embedding : Type) (env : Env Embedding)
  (w : World) (requests : list QueryRequest) :
  all_empty (conversation_sessions w) ->
  all_empty (conversation_sessions (fst (serve env w requests)))
  /\ Forall (fun outcome => forall r, outcome = Response r -> memory_size r = 0)
            (snd (serve env w requests)).
Proof.
  revert w. induction requests as [|request rest IH]; intros w Hall.
  - split; [exact Hall|constructor].
  - cbn [serve].
    pose proof (ask_question_keeps_empty Embedding env w request Hall) as H.
    destruct (ask_question Embedding env w request) as [[outcome w'] trace].
    destruct H as (Hall' & Hsize & _).
    destruct (IH w' Hall') as [IH1 IH2].
    destruct (serve env w' rest) as [w'' outcomes]. cbn [fst snd] in *.
    split; [exact IH1|]. constructor; assumption.
Qed.

(** The tuition question answered twice in the same session: the second
    answer still reports an empty memory. *)
Lemma endpoint_memory_stays_empty_witness :
  snd (serve env_embed_down fresh_world [tuition_request; tuition_request])
  = [Response (mkResponse "Tuition is 10000 per year." (Some "Fees")
                 ["QA#1 (Fees)"] "2025-01-01T00:00:00" 0);
     Response (mkResponse "Tuition is 10000 per year." (Some "Fees")
                 ["QA#1 (Fees)"] "2025-01-01T00:00:00" 0)]
  /\ all_empty
       (conversation_sessions
          (fst (serve env_embed_down fresh_world [tuition_request; tuition_request]))).
Proof.
  split; [reflexivity|].
  apply (endpoint_memory_stays_empty unit env_embed_down fresh_world
           [tuition_request; tuition_request]).
  constructor.
Defined.

(** The sessions after a request: untouched, or with the session of the
    request created, or with one interaction added to it. *)
Lemma ask_question_sessions (Embedding : Type) (env : Env Embedding)
  (w : World) (request : QueryRequest) :
  let k := session_of request in
  let sessions := conversation_sessions w in
  let sessions' :=
    conversation_sessions (snd (fst (ask_question Embedding env w request))) in
  sessions' = sessions
  \/ sessions' = fst (get_session_memory sessions k)
  \/ exists m, sessions' = store (fst (get_session_memory sessions k)) k m.
Proof.
  cbn zeta. unfold Api.ask_question, session_of.
  destruct (negb _ || negb _); [left; reflexivity|].
  destruct (get (use_memory request) false).
  - destruct (get_session_memory _ _) as [s m].
    destruct (retrieve Embedding env _ _) as [[[[docs metas] ctx]|] events].
    + destruct (Ollama.generate _ _ _ _) as [ans|msg].
      * destruct (memory_truthy (Some m)); cbv beta iota zeta;
          destruct (save_result _ _ _ _ _) as [file|msg];
          cbn [fst snd conversation_sessions].
        -- right. right. eexists. reflexivity.
        -- right. right. eexists. reflexivity.
        -- right. left. reflexivity.
        -- right. left. reflexivity.
      * right. left. reflexivity.
    + right. left. reflexivity.
  - destruct (retrieve Embedding env _ _) as [[[[docs metas] ctx]|] events].
    + destruct (Ollama.generate _ _ _ _) as [ans|msg]; [|left; reflexivity].
      cbn [memory_truthy]. cbv beta iota zeta.
      destruct (save_result _ _ _ _ _) as [file|msg]; left; reflexivity.
    + left. reflexivity.
Qed.

(** X19. A request touches no session but its own: every other session
    is found afterwards exactly as it was, whatever the outcome; no session
    is ever removed, and the table keeps one entry per key. *)
Theorem ask_question_other_sessions (Embedding : Type) (env : Env Embedding)
  (w : World) (request : QueryRequest) :
  let sessions' :=
    conversation_sessions (snd (fst (ask_question Embedding env w request))) in
  (forall k, k <> session_of request ->
             lookup sessions' k = lookup (conversation_sessions w) k)
  /\ (forall k, lookup (conversation_sessions w) k <> None ->
                lookup sessions' k <> None)
  /\ (wf_sessions (conversation_sessions w) -> wf_sessions sessions').
Proof.
  cbn zeta.
  pose proof (ask_question_sessions Embedding env w request) as H. cbn zeta in H.
  set (k0 := session_of request) in *.
  set (sessions := conversation_sessions w) in *.
  assert (Hg : (forall k, k <> k0 ->
                  lookup (fst (get_session_memory sessions k0)) k = lookup sessions k)
               /\ (forall k, lookup sessions k <> None ->
                     lookup (fst (get_session_memory sessions k0)) k <> None)
               /\ (wf_sessions sessions ->
                   wf_sessions (fst (get_session_memory sessions k0)))).
  { unfold get_session_memory.
    destruct (lookup sessions k0) as [m|] eqn:E; cbn [fst].
    - repeat split; auto.
    - split; [intros k Hne; apply lookup_store_other; exact Hne|]. split.
      + intros k Hk. destruct (string_dec k k0) as [->|Hne]; [congruence|].
        rewrite lookup_store_other by exact Hne. exact Hk.
      + apply wf_store. }
  destruct Hg as (Hg1 & Hg2 & Hg3).
  destruct H as [-> | [-> | [m ->]]].
  - repeat split; auto.
  - repeat split; auto.
  - split; [|split].
    + intros k Hne. rewrite lookup_store_other by exact Hne. apply Hg1. exact Hne.
    + intros k Hk. destruct (string_dec k k0) as [->|Hne].
      * rewrite lookup_store_same. discriminate.
      * rewrite lookup_store_other by exact Hne. apply Hg2. exact Hk.
    + intro Hwf. apply wf_store, Hg3. exact Hwf.
Qed.

End ApiProps.

(* ================================================================== *)
(** * Properties of src/ollama_client.py and src/ingest.py *)
(* ================================================================== *)

Module ClientProps.

Import Ollama Query Notions.

(** ** build_messages *)

Lemma pair_roles (q a : string) :
  let pair := [mkMessage "user" q; mkMessage "assistant" a] in
  filter (has_role "user") pair = [mkMessage "user" q]
  /\ filter (has_role "assistant") pair = [mkMessage "assistant" a]
  /\ filter (has_role "system") pair = [].
Proof. repeat split; reflexivity. Qed.

Lemma history_messages_roles (h : list Utils.Interaction) :
  let msgs :=
    flat_map (fun interaction =>
                [mkMessage "user" (Utils.question interaction);
                 mkMessage "assistant" (Utils.answer interaction)]) h in
  List.length msgs = (2 * List.length h)%nat
  /\ map content (filter (has_role "user") msgs) = map Utils.question h
  /\ map content (filter (has_role "assistant") msgs) = map Utils.answer h
  /\ filter (has_role "system") msgs = [].
Proof.
  cbn zeta. induction h as [|x h (IH1 & IH2 & IH3 & IH4)];
    [repeat split; reflexivity|].
  cbn [flat_map].
  destruct (pair_roles (Utils.question x) (Utils.answer x)) as (P1 & P2 & P3).
  cbn zeta in P1, P2, P3.
  rewrite !filter_app, P1, P2, P3, !map_app, length_app, IH1, IH2, IH3, IH4.
  cbn [map content app List.length]. repeat split; try reflexivity. lia.
Qed.

(** The messages of the history, position by position. *)
Lemma history_messages_nth (h : list Utils.Interaction) (rest : list Message)
  (i : nat) (x : Utils.Interaction) :
  nth_error h i = Some x ->
  let msgs :=
    flat_map (fun interaction =>
                [mkMessage "user" (Utils.question interaction);
                 mkMessage "assistant" (Utils.answer interaction)]) h ++ rest in
  nth_error msgs (2 * i) = Some (mkMessage "user" (Utils.question x))
  /\ nth_error msgs (2 * i + 1) = Some (mkMessage "assistant" (Utils.answer x)).
Proof.
  cbn zeta. revert i. induction h as [|y h IH]; intros [|i] H; cbn [nth_error] in H;
    try discriminate H.
  - inversion H; subst. split; reflexivity.
  - replace (2 * S i)%nat with (S (S (2 * i))) by lia.
    cbn [flat_map app Nat.add nth_error]. apply IH. exact H.
Qed.

Lemma history_messages_end (h : list Utils.Interaction) (m : Message) :
  nth_error
    (flat_map (fun interaction =>
                 [mkMessage "user" (Utils.question interaction);
                  mkMessage "assistant" (Utils.answer interaction)]) h ++ [m])
    (2 * List.length h) = Some m.
Proof.
  induction h as [|y h IH]; [reflexivity|].
  replace (2 * List.length (y :: h))%nat with (S (S (2 * List.length h)))
    by (cbn [List.length]; lia).
  cbn [flat_map app nth_error]. exact IH.
Qed.

(** X20. The messages sent to the model are the system text first, then
    each stored interaction as a user message followed by an assistant
    message, oldest first, and the prompt last as a user message: the
    [i]-th interaction (from 0) is at the positions [1 + 2i] and
    [2 + 2i], and the prompt at the position [1 + 2n] behind [n]
    interactions. *)
Theorem build_messages_shape (system prompt : string)
  (h : list Utils.Interaction) :
  let msgs := build_messages system prompt h in
  List.length msgs = (2 * List.length h + 2)%nat
  /\ nth_error msgs 0 = Some (mkMessage "system" system)
  /\ (forall i x,
        nth_error h i = Some x ->
        nth_error msgs (1 + 2 * i) = Some (mkMessage "user" (Utils.question x))
        /\ nth_error msgs (2 + 2 * i)
           = Some (mkMessage "assistant" (Utils.answer x)))
  /\ nth_error msgs (1 + 2 * List.length h) = Some (mkMessage "user" prompt)
  /\ hd_error msgs = Some (mkMessage "system" system)
  /\ last msgs (mkMessage "" "") = mkMessage "user" prompt
  /\ map content (filter (has_role "system") msgs) = [system]
  /\ map content (filter (has_role "user") msgs) = map Utils.question h ++ [prompt]
  /\ map content (filter (has_role "assistant") msgs) = map Utils.answer h.
Proof.
  cbn zeta. unfold build_messages.
  destruct (history_messages_roles h) as (H1 & H2 & H3 & H4). cbn zeta in *.
  split; [rewrite !length_app, H1; cbn [List.length]; lia|].
  split; [reflexivity|].
  split.
  { intros i x Hx.
    destruct (history_messages_nth h [mkMessage "user" prompt] i x Hx) as [Hu Ha].
    cbn zeta in Hu, Ha. split.
    - replace (1 + 2 * i)%nat with (S (2 * i)) by lia.
      cbn [app nth_error]. exact Hu.
    - replace (2 + 2 * i)%nat with (S (2 * i + 1)) by lia.
      cbn [app nth_error]. exact Ha. }
  split.
  { replace (1 + 2 * List.length h)%nat with (S (2 * List.length h)) by lia.
    cbn [app nth_error]. apply history_messages_end. }
  set (mid := flat_map _ h) in *.
  assert (Hs : filter (has_role "system") [mkMessage "system" system]
               = [mkMessage "system" system]
               /\ filter (has_role "user") [mkMessage "system" system] = []
               /\ filter (has_role "assistant") [mkMessage "system" system] = [])
    by (repeat split; reflexivity).
  assert (Hp : filter (has_role "system") [mkMessage "user" prompt] = []
               /\ filter (has_role "user") [mkMessage "user" prompt]
                  = [mkMessage "user" prompt]
               /\ filter (has_role "assistant") [mkMessage "user" prompt] = [])
    by (repeat split; reflexivity).
  destruct Hs as (S1 & S2 & S3). destruct Hp as (P1 & P2 & P3).
  split; [reflexivity|].
  split; [rewrite app_assoc; apply last_last|].
  rewrite !filter_app, S1, S2, S3, P1, P2, P3, H4, !map_app, H2, H3.
  cbn [map content app]. rewrite app_nil_r. repeat split; reflexivity.
Qed.

(** ** embed *)

Lemma embed_texts_ok {Embedding : Type} (embed_one : string -> result Embedding)
  (texts : list string) (embeddings : list Embedding) :
  embed_texts embed_one texts = Some embeddings ->
  Forall2 (fun t e => embed_one t = Ok e) texts embeddings.
Proof.
  revert embeddings. induction texts as [|t texts IH]; intros embeddings H.
  - inversion H. constructor.
  - cbn [embed_texts] in H. destruct (embed_one t) as [e|msg] eqn:E; [|discriminate H].
    destruct (embed_texts embed_one texts) as [es|]; [|discriminate H].
    inversion H; subst. constructor; [exact E|apply IH; reflexivity].
Qed.

Lemma embed_texts_fail {Embedding : Type} (embed_one : string -> result Embedding)
  (texts : list string) :
  embed_texts embed_one texts = None <->
  exists t msg, In t texts /\ embed_one t = Raise msg.
Proof.
  induction texts as [|t texts IH]; cbn [embed_texts In].
  - split; [discriminate|]. intros (t & msg & [] & _).
  - destruct (embed_one t) as [e|msg] eqn:E.
    + destruct (embed_texts embed_one texts) as [es|].
      * split; [discriminate|]. intros (t' & msg & [<-|Hin] & Hr); [congruence|].
        assert (Hn : Some es = None)
          by (apply (proj2 IH); exists t', msg; split; assumption).
        discriminate Hn.
      * split; [|reflexivity]. intros _.
        destruct (proj1 IH eq_refl) as (t' & msg & Hin & Hr).
        exists t', msg. split; [right; exact Hin|exact Hr].
    + split; [|reflexivity]. intros _. exists t, msg. split; [left; reflexivity|exact E].
Qed.

(** X21. [embed] is all or nothing: it returns one embedding per text, in
    the order of the texts, when every request succeeds, and the empty
    list as soon as one request fails; in particular the embedding of a
    single question is missing exactly when its request fails. *)
Theorem embed_all_or_nothing (Embedding : Type)
  (embed_one : string -> result Embedding) (texts : list string) :
  ((forall t, In t texts -> exists e, embed_one t = Ok e) ->
   Forall2 (fun t e => embed_one t = Ok e) texts (Ollama.embed embed_one texts))
  /\ ((exists t msg, In t texts /\ embed_one t = Raise msg) ->
      Ollama.embed embed_one texts = [])
  /\ (forall q,
        Ollama.embed embed_one [q]
        = match embed_one q with Ok e => [e] | Raise _ => [] end).
Proof.
  unfold Ollama.embed. split; [|split].
  - intro Hall. destruct (embed_texts embed_one texts) as [es|] eqn:E.
    + apply embed_texts_ok. exact E.
    + apply embed_texts_fail in E. destruct E as (t & msg & Hin & Hr).
      destruct (Hall t Hin) as [e He]. congruence.
  - intro H. apply embed_texts_fail in H. rewrite H. reflexivity.
  - intro q. cbn [embed_texts]. destruct (embed_one q); reflexivity.
Qed.

End ClientProps.

Module IngestProps.

Import Ollama Query Ingest Notions.

(** ** prepare *)

Lemma stripped_string_field (field : option Scalar) :
  match field with Some (SInt _) => False | _ => True end ->
  stripped field = Ok (Py.strip (str (get field (SStr "")))).
Proof. destruct field as [[s|n]|]; [reflexivity|intros []|reflexivity]. Qed.

(** X22. On a dataset whose questions and answers are strings, the texts
    that ingestion indexes are exactly the candidates of the keyword
    retriever without a filter, in the same order, with the same category,
    question and answer in their metadata; ingestion produces one id and
    one metadata record per text. *)
Theorem prepare_matches_local_retrieve (json_path : string) (data : list Entry) :
  forallb string_fields data = true ->
  exists all_texts metadatas ids,
    prepare data = Ok (all_texts, metadatas, ids)
    /\ all_texts = fst (load_items json_path None data)
    /\ map m_category metadatas
       = map m_category (snd (load_items json_path None data))
    /\ map m_question metadatas
       = map m_question (snd (load_items json_path None data))
    /\ map m_answer metadatas
       = map m_answer (snd (load_items json_path None data))
    /\ List.length metadatas = List.length all_texts
    /\ List.length ids = List.length all_texts.
Proof.
  induction data as [|entry rest IH]; intro H.
  - exists [], [], []. repeat split.
  - cbn [forallb] in H. apply andb_true_iff in H. destruct H as [He Hrest].
    destruct (IH Hrest) as (t & m & i & Hp & Ht & Hc & Hq & Ha & Hlm & Hli).
    cbn [prepare load_items]. cbn [Py.truthy_opt andb].
    destruct (load_items json_path None rest) as [items metas].
    cbn [fst snd] in *.
    rewrite (stripped_string_field (e_question entry)),
            (stripped_string_field (e_answer entry));
      try (unfold string_fields in He;
           destruct (e_question entry) as [[?|?]|], (e_answer entry) as [[?|?]|];
           try discriminate He; exact I).
    rewrite Hp.
    destruct (Py.truthy (Py.strip (str (get (e_question entry) (SStr ""))))) eqn:Eq;
      destruct (Py.truthy (Py.strip (str (get (e_answer entry) (SStr ""))))) eqn:Ea;
      cbn [negb andb orb].
    4: { exists t, m, i. repeat split; assumption. }
    all: subst t; eexists; eexists; eexists; split; [reflexivity|];
      cbn [map m_category m_question m_answer List.length fst snd];
      rewrite Hc, Hq, Ha, Hlm, Hli; repeat split; reflexivity.
Qed.

Lemma prepare_matches_local_retrieve_witness :
  exists all_texts metadatas ids,
    prepare tuition_data = Ok (all_texts, metadatas, ids)
    /\ all_texts = fst (load_items "data.json" None tuition_data).
Proof.
  destruct (prepare_matches_local_retrieve "data.json" tuition_data eq_refl)
    as (t & m & i & Hp & Ht & _).
  exists t, m, i. split; assumption.
Defined.

(** X23. Ingestion fails on a dataset in which a question or an answer is
    not a string ([strip] is called on the value itself), although the
    keyword retriever accepts such a dataset (it converts with [str]
    first). *)
Theorem prepare_rejects_non_strings (data : list Entry) :
  forallb string_fields data = false ->
  prepare data = Raise "AttributeError".
Proof.
  induction data as [|entry rest IH]; intro H; [discriminate H|].
  cbn [forallb] in H. cbn [prepare].
  destruct (string_fields entry) eqn:He.
  - cbn [andb] in H. rewrite (IH H).
    unfold string_fields in He.
    destruct (e_question entry) as [[?|?]|], (e_answer entry) as [[?|?]|];
      try discriminate He; cbn [stripped];
      destruct (negb _ && negb _); reflexivity.
  - unfold string_fields in He.
    destruct (e_question entry) as [[?|?]|], (e_answer entry) as [[?|?]|];
      try discriminate He; reflexivity.
Qed.

Lemma prepare_rejects_non_strings_witness :
  prepare [mkEntry (Some (SInt 1)) (Some "Fees") (Some (SInt 2024))
             (Some (SStr "the year"))]
  = Raise "AttributeError"
  /\ fst (load_items "data.json" None
            [mkEntry (Some (SInt 1)) (Some "Fees") (Some (SInt 2024))
               (Some (SStr "the year"))])
     = [cat ["Question: 2024"; nl; "Answer: the year"]].
Proof.
  split; [|reflexivity].
  apply (prepare_rejects_non_strings
           [mkEntry (Some (SInt 1)) (Some "Fees") (Some (SInt 2024))
              (Some (SStr "the year"))]).
  reflexivity.
Defined.

(** ** The embedding batches *)

Lemma firstn_plus {A} (n m : nat) (l : list A) :
  firstn (n + m) l = firstn n l ++ firstn m (skipn n l).
Proof.
  revert l. induction n as [|n IH]; intro l; [reflexivity|].
  destruct l as [|x l]; [cbn; rewrite firstn_nil; reflexivity|].
  cbn [Nat.add firstn skipn app]. rewrite IH. reflexivity.
Qed.

Lemma concat_windows {A} (b : nat) (l : list A) (c a : nat) :
  List.concat (map (fun i => firstn b (skipn i l))
              (map (fun j => (j * b)%nat) (seq a c)))
  = firstn (c * b) (skipn (a * b) l).
Proof.
  revert a. induction c as [|c IH]; intro a; [reflexivity|].
  cbn [seq map List.concat]. rewrite IH.
  replace (S c * b)%nat with (b + c * b)%nat by lia.
  rewrite firstn_plus, skipn_skipn.
  replace (b + a * b)%nat with (S a * b)%nat by lia. reflexivity.
Qed.

Lemma flat_map_length_concat {A B} (f : list A -> list B) (bs : list (list A)) :
  (forall b, In b bs -> List.length (f b) = List.length b) ->
  List.length (flat_map f bs) = List.length (List.concat bs).
Proof.
  induction bs as [|b bs IH]; intro H; [reflexivity|].
  cbn [flat_map List.concat]. rewrite !length_app.
  rewrite (H b (or_introl eq_refl)), IH; [reflexivity|].
  intros b' Hb'. apply H. right. exact Hb'.
Qed.

(** X24. The embedding loop of ingestion cuts the texts into consecutive
    batches of at most 32: put end to end the batches are the texts, in
    order, and none is empty; so when [embed] gives one embedding per text
    of each batch there is one embedding per text. *)
Theorem batches_cover (Embedding : Type) (embed : list string -> list Embedding)
  (all_texts : list string) :
  List.concat (batches 32 all_texts) = all_texts
  /\ Forall (fun b => (0 < List.length b <= 32)%nat) (batches 32 all_texts)
  /\ ((forall b, In b (batches 32 all_texts) ->
                 List.length (embed b) = List.length b) ->
      List.length (embed_all embed all_texts) = List.length all_texts).
Proof.
  assert (Hcat : List.concat (batches 32 all_texts) = all_texts).
  { unfold batches, batch_starts. rewrite concat_windows. cbn [Nat.mul skipn].
    apply firstn_all2.
    pose proof (Nat.div_mod_eq (List.length all_texts + 32 - 1) 32).
    pose proof (Nat.mod_upper_bound (List.length all_texts + 32 - 1) 32).
    lia. }
  split; [exact Hcat|]. split.
  - unfold batches, batch_starts. rewrite Forall_forall. intros b Hb.
    apply in_map_iff in Hb. destruct Hb as (i & <- & Hi).
    apply in_map_iff in Hi. destruct Hi as (j & <- & Hj).
    apply in_seq in Hj. rewrite length_firstn, length_skipn.
    pose proof (Nat.div_mod_eq (List.length all_texts + 32 - 1) 32).
    pose proof (Nat.mod_upper_bound (List.length all_texts + 32 - 1) 32).
    lia.
  - intro Hlen. unfold embed_all.
    rewrite (flat_map_length_concat embed (batches 32 all_texts) Hlen), Hcat.
    reflexivity.
Qed.

(** ** ingest_json_data *)

(** With [VECTOR_DB] bound to ["chroma"], a run that is not a dry run, has
    texts to index and gets embeddings writes them to the store. *)
Lemma ingest_saves_when_bound (Embedding : Type)
  (embed : list string -> list Embedding)
  (col_add : list string -> list string -> list Meta -> list Embedding
             -> result unit)
  (globals : list (string * Global)) (data : list Entry)
  (all_texts : list string) (metadatas : list Meta) (ids : list string) :
  read_global globals "VECTOR_DB" = Ok (GStr "chroma") ->
  prepare data = Ok (all_texts, metadatas, ids) ->
  all_texts <> [] ->
  embed_all embed all_texts <> [] ->
  col_add ids all_texts metadatas (embed_all embed all_texts) = Ok tt ->
  ingest_json_data_in Embedding embed col_add globals (Some data) false
  = Saved ids all_texts metadatas (embed_all embed all_texts).
Proof.
  intros Hg Hp Ht He Hadd. unfold ingest_json_data_in. rewrite Hp.
  destruct all_texts as [|t ts]; [congruence|].
  destruct (embed_all embed (t :: ts)) as [|e es] eqn:E; [congruence|].
  rewrite Hg. cbn [global_eqb]. rewrite String.eqb_refl, Hadd. reflexivity.
Qed.

(** [VECTOR_DB] is not among the names of the module. *)
Lemma vector_db_unbound (chroma_persist_dir : string) :
  read_global (module_globals chroma_persist_dir) "VECTOR_DB" = Raise "NameError".
Proof. reflexivity. Qed.

(** X25. [ingest_json_data] never writes to the vector store, whatever the
    store would answer: the test [VECTOR_DB == "chroma"] reads a name that
    [ingest.py] neither defines nor imports, so a run that is not a dry
    run and has texts to index ends in an exception after the embedding
    loop, [IndexError] when no embedding came back and [NameError]
    otherwise; with the name bound to ["chroma"] the same run writes to the
    store. *)
Theorem ingest_never_saves (Embedding : Type)
  (embed : list string -> list Embedding)
  (col_add : list string -> list string -> list Meta -> list Embedding
             -> result unit)
  (chroma_persist_dir : string) (file : option (list Entry)) (dry_run : bool) :
  (forall ids texts metadatas embeddings,
      ingest_json_data Embedding embed col_add chroma_persist_dir file dry_run
      <> Saved ids texts metadatas embeddings)
  /\ (forall data all_texts metadatas ids,
        file = Some data ->
        prepare data = Ok (all_texts, metadatas, ids) ->
        all_texts <> [] ->
        ingest_json_data Embedding embed col_add chroma_persist_dir file dry_run
        = (if dry_run
           then DryRun (Py.len all_texts) (hd_error metadatas)
                       (option_map (Py.substr 0 200) (hd_error all_texts))
           else match embed_all embed all_texts with
                | [] => Raised "IndexError"
                | _ => Raised "NameError"
                end)
        /\ (dry_run = false ->
            embed_all embed all_texts <> [] ->
            col_add ids all_texts metadatas (embed_all embed all_texts) = Ok tt ->
            ingest_json_data_in Embedding embed col_add
              (("VECTOR_DB", GStr "chroma") :: module_globals chroma_persist_dir)
              file dry_run
            = Saved ids all_texts metadatas (embed_all embed all_texts))).
Proof.
  split.
  - intros ids texts metadatas embeddings.
    unfold ingest_json_data, ingest_json_data_in.
    rewrite vector_db_unbound.
    destruct file as [data|]; [|discriminate].
    destruct (prepare data) as [[[t m] i]|msg]; [|discriminate].
    destruct t; [discriminate|].
    destruct dry_run; [discriminate|].
    destruct (embed_all embed _); discriminate.
  - intros data t m i -> Hp Hne. split.
    + unfold ingest_json_data, ingest_json_data_in.
      rewrite vector_db_unbound, Hp.
      destruct t; [congruence|]. reflexivity.
    + intros -> He Hadd.
      apply ingest_saves_when_bound; try assumption. reflexivity.
Qed.

(** The tuition dataset with an embedding service and a store that both
    answer: the run ends in [NameError]. *)
Lemma ingest_never_saves_witness :
  ingest_json_data unit (map (fun _ => tt)) (fun _ _ _ _ => Ok tt)
    "./chroma_db" (Some tuition_data) false
  = Raised "NameError".
Proof.
  destruct (ingest_never_saves unit (map (fun _ => tt)) (fun _ _ _ _ => Ok tt)
              "./chroma_db" (Some tuition_data) false) as [_ H].
  destruct (H tuition_data _ _ _ eq_refl eq_refl) as [Hrun _]; [discriminate|].
  exact Hrun.
Defined.

End IngestProps.

(* ================================================================== *)
(** * The log over several saves, and the interactive loop *)
(* ================================================================== *)

Module LoopProps.

Import Ollama Query Notions.



(** ** One turn of [run] *)

Lemma add_interaction_len (m : Utils.ConversationMemory) (q a : string) :
  0 < Utils.window_size m ->
  Utils.len m <= Utils.window_size m ->
  Utils.len (Utils.add_interaction m q a)
  = Z.min (Utils.len m + 1) (Utils.window_size m).
Proof.
  intros HW Hlen. unfold Utils.add_interaction, Utils.len, Py.len in *.
  rewrite length_app. cbn [List.length].
  destruct (_ >? Utils.window_size m) eqn:E; cbn [Utils.history].
  - apply Z.gtb_lt in E.
    rewrite UtilsProps.slice_from_last;
      [|assumption|unfold Py.len; rewrite length_app; cbn [List.length]; lia].
    rewrite length_skipn, length_app. cbn [List.length]. lia.
  - rewrite Z.gtb_ltb in E. apply Z.ltb_ge in E.
    rewrite length_app. cbn [List.length]. lia.
Qed.



End LoopProps.

(* ================================================================== *)
(** * Line ends in chunks, the formatted history, the response fields *)
(* ================================================================== *)

Module MoreProps.

Import Ollama Query Api Notions.

(** ** No carriage return in a chunk *)

Lemma all_chars_list (p : ascii -> bool) (s : string) :
  all_chars p s = forallb p (list_ascii_of_string s).
Proof. induction s as [|c r IH]; cbn; [reflexivity|]. rewrite IH. reflexivity. Qed.

Lemma all_chars_of_list (p : ascii -> bool) (l : list ascii) :
  all_chars p (string_of_list_ascii l) = forallb p l.
Proof. induction l as [|c r IH]; cbn; [reflexivity|]. rewrite IH. reflexivity. Qed.

Lemma forallb_firstn {A} (p : A -> bool) (n : nat) (l : list A) :
  forallb p l = true -> forallb p (firstn n l) = true.
Proof.
  revert l. induction n as [|n IH]; intros l H; [reflexivity|].
  destruct l as [|x l]; [reflexivity|].
  cbn in *. apply andb_true_iff in H. destruct H as [Hx Hl].
  rewrite Hx. apply IH. exact Hl.
Qed.

Lemma forallb_skipn {A} (p : A -> bool) (n : nat) (l : list A) :
  forallb p l = true -> forallb p (skipn n l) = true.
Proof.
  revert l. induction n as [|n IH]; intros l H; [exact H|].
  destruct l as [|x l]; [reflexivity|].
  cbn in *. apply andb_true_iff in H. apply IH. exact (proj2 H).
Qed.

Lemma all_chars_substr (p : ascii -> bool) (start stop : Z) (s : string) :
  all_chars p s = true -> all_chars p (Py.substr start stop s) = true.
Proof.
  intro H. unfold Py.substr. rewrite all_chars_of_list.
  apply forallb_skipn, forallb_firstn. rewrite <- all_chars_list. exact H.
Qed.

Lemma all_chars_lstrip (p f : ascii -> bool) (s : string) :
  all_chars p s = true -> all_chars p (Py.lstrip_by f s) = true.
Proof.
  induction s as [|c r IH]; intro H; [reflexivity|].
  cbn [Py.lstrip_by]. destruct (f c); [|exact H].
  cbn in H. apply andb_true_iff in H. apply IH. exact (proj2 H).
Qed.

Lemma all_chars_rstrip (p f : ascii -> bool) (s : string) :
  all_chars p s = true -> all_chars p (Py.rstrip_by f s) = true.
Proof.
  induction s as [|c r IH]; intro H; [reflexivity|].
  cbn in H. apply andb_true_iff in H. destruct H as [Hc Hr].
  specialize (IH Hr). cbn [Py.rstrip_by].
  destruct (Py.rstrip_by f r) as [|d r'].
  - destruct (f c); [reflexivity|]. cbn. rewrite Hc. reflexivity.
  - cbn [all_chars] in *. rewrite Hc. exact IH.
Qed.

Lemma all_chars_strip (p : ascii -> bool) (s : string) :
  all_chars p s = true -> all_chars p (Py.strip s) = true.
Proof. intro H. apply all_chars_rstrip, all_chars_lstrip. exact H. Qed.

Lemma replace_cr_no_cr (s : string) : all_chars not_cr (Utils.replace_cr s) = true.
Proof.
  induction s as [|c r IH]; [reflexivity|].
  cbn [Utils.replace_cr all_chars]. rewrite IH, andb_true_r.
  unfold not_cr. destruct (Ascii.eqb c Utils.cr) eqn:E; [reflexivity|].
  rewrite E. reflexivity.
Qed.

Lemma chunk_loop_chars (p : ascii -> bool) (text : string)
  (chunk_size overlap : Z) (fuel : nat) :
  all_chars p text = true ->
  forall start chunks result,
    Forall (fun c => all_chars p c = true) chunks ->
    Utils.chunk_loop fuel text chunk_size overlap start chunks = Some result ->
    Forall (fun c => all_chars p c = true) result.
Proof.
  intro Ht. induction fuel as [|fuel IH]; intros start chunks result Hc H;
    [discriminate H|].
  cbn [Utils.chunk_loop] in H.
  destruct (start <? Py.strlen text).
  - cbv zeta in H. eapply IH; [|exact H].
    apply Forall_app. split; [exact Hc|]. constructor; [|constructor].
    apply all_chars_strip, all_chars_substr. exact Ht.
  - inversion H; subst. exact Hc.
Qed.

(** X28. No chunk contains a carriage return: line ends are turned into
    line feeds before the text is cut. *)
Theorem chunk_text_no_cr (fuel : nat) (text : string) (chunk_size overlap : Z)
  (chunks : list string) :
  Utils.chunk_text fuel text chunk_size overlap = Some chunks ->
  Forall (fun c => all_chars not_cr c = true) chunks.
Proof.
  unfold Utils.chunk_text. destruct (negb (Py.truthy text)).
  - intro H. inversion H. constructor.
  - destruct (Utils.chunk_loop fuel _ chunk_size overlap 0 []) as [raw|] eqn:E;
      [|discriminate].
    intro H. inversion H; subst. clear H.
    pose proof (chunk_loop_chars not_cr _ chunk_size overlap fuel
                  (replace_cr_no_cr (Utils.replace_crlf text)) 0 [] raw
                  (Forall_nil _) E) as Hraw.
    rewrite Forall_forall in *. intros c Hc. apply filter_In in Hc.
    apply Hraw. exact (proj1 Hc).
Qed.

Lemma chunk_text_no_cr_witness :
  exists chunks,
    Utils.chunk_text 5
      (String "a" (String Utils.cr (String Utils.lf (String "b" EmptyString))))
      800 150 = Some chunks
    /\ Forall (fun c => all_chars not_cr c = true) chunks.
Proof.
  eexists. split; [reflexivity|].
  apply (chunk_text_no_cr 5
           (String "a" (String Utils.cr (String Utils.lf (String "b" EmptyString))))
           800 150).
  reflexivity.
Defined.

(** ** get_formatted_history *)

Lemma append_assoc (a b c : string) :
  String.append (String.append a b) c = String.append a (String.append b c).
Proof. induction a as [|x a IH]; cbn; [reflexivity|]. rewrite IH. reflexivity. Qed.

Lemma append_nil_r (a : string) : String.append a "" = a.
Proof. induction a as [|x a IH]; cbn; [reflexivity|]. rewrite IH. reflexivity. Qed.

Lemma concat_cons2 (sep x y : string) (l : list string) :
  String.concat sep (x :: y :: l)
  = String.append x (String.append sep (String.concat sep (y :: l))).
Proof. reflexivity. Qed.

(** Joined with line feeds, the heading and the strings of the turns are
    the heading followed by the text of each turn. *)
Lemma concat_turns (head : string) (i : nat) (h : list Utils.Interaction) :
  String.concat (String Utils.lf "") (head :: Utils.formatted_turns i h)
  = String.append head (turn_blocks i h).
Proof.
  revert head i. induction h as [|x h IH]; intros head i.
  - cbn. rewrite append_nil_r. reflexivity.
  - cbn [Utils.formatted_turns Utils.turn_lines app turn_blocks].
    rewrite !concat_cons2, IH.
    unfold turn_block, cat, nl. cbn [String.concat].
    rewrite !append_assoc. cbn [String.append]. rewrite ?append_assoc.
    reflexivity.
Qed.

Lemma line_feeds_append (a b : string) :
  line_feeds (String.append a b) = (line_feeds a + line_feeds b)%nat.
Proof.
  induction a as [|x a IH]; cbn [String.append line_feeds]; [reflexivity|].
  rewrite IH. lia.
Qed.

Lemma line_feeds_digits (d : Decimal.uint) :
  line_feeds (NilEmpty.string_of_uint d) = 0%nat.
Proof. induction d; cbn; assumption || reflexivity. Qed.

Lemma line_feeds_uint (d : Decimal.uint) :
  line_feeds (NilZero.string_of_uint d) = 0%nat.
Proof.
  unfold NilZero.string_of_uint. destruct d; try reflexivity;
    apply line_feeds_digits.
Qed.

Lemma line_feeds_str_of_nat (i : nat) : line_feeds (Utils.str_of_nat i) = 0%nat.
Proof.
  unfold Utils.str_of_nat, Py.str_of_Z.
  destruct (Z.of_nat i); [reflexivity|apply line_feeds_uint|].
  cbn [String.append line_feeds]. apply line_feeds_uint.
Qed.

Lemma line_feeds_turn_block (i : nat) (x : Utils.Interaction) :
  line_feeds (turn_block i x)
  = (4 + (line_feeds (Utils.question x) + line_feeds (Utils.answer x)))%nat.
Proof.
  unfold turn_block, cat, nl. cbn [String.concat].
  rewrite !line_feeds_append, line_feeds_str_of_nat. cbn.
  rewrite <- plus_n_Sm. reflexivity.
Qed.

Lemma line_feeds_turn_blocks (i : nat) (h : list Utils.Interaction) :
  line_feeds (turn_blocks i h) = (4 * List.length h + inner_line_feeds h)%nat.
Proof.
  revert i. induction h as [|x h IH]; intro i; [reflexivity|].
  cbn [turn_blocks]. rewrite line_feeds_append, line_feeds_turn_block, IH.
  unfold inner_line_feeds, list_sum. cbn [map fold_right List.length]. lia.
Qed.

(** X29. The formatted history is the empty string exactly when the
    memory holds no interaction.  Otherwise it is the heading
    [Previous conversation:] followed, for each interaction in order and
    numbered from 1, by an empty line, the line [Turn i:], the line
    [Student: question] and the line [Assistant: answer]: four line feeds
    per interaction, besides those inside the questions and answers. *)
Theorem formatted_history_empty_iff (m : Utils.ConversationMemory) :
  (Utils.get_formatted_history m = "" <-> Utils.history m = [])
  /\ (Utils.history m <> [] ->
      String.prefix "Previous conversation:" (Utils.get_formatted_history m) = true)
  /\ (Utils.history m <> [] ->
      Utils.get_formatted_history m
      = String.append "Previous conversation:" (turn_blocks 1 (Utils.history m)))
  /\ (Utils.history m <> [] ->
      line_feeds (Utils.get_formatted_history m)
      = (4 * List.length (Utils.history m) + inner_line_feeds (Utils.history m))%nat).
Proof.
  assert (Heq : Utils.history m <> [] ->
                Utils.get_formatted_history m
                = String.append "Previous conversation:"
                    (turn_blocks 1 (Utils.history m))).
  { unfold Utils.get_formatted_history.
    destruct (Utils.history m) as [|x h] eqn:E; [congruence|]. intros _.
    apply concat_turns. }
  split; [|split; [|split]].
  - split.
    + intro H. destruct (Utils.history m) as [|x h] eqn:E; [reflexivity|].
      rewrite Heq in H by discriminate. discriminate H.
    + intro H. unfold Utils.get_formatted_history. rewrite H. reflexivity.
  - intro Hne. rewrite (Heq Hne).
    apply QueryProps.prefix_append. reflexivity.
  - exact Heq.
  - intro Hne. rewrite (Heq Hne), line_feeds_append, line_feeds_turn_blocks.
    reflexivity.
Qed.

(** The text for a memory that holds one interaction. *)
Lemma formatted_history_empty_iff_witness :
  Utils.get_formatted_history
    (Utils.mkMemory 10 [Utils.mkInteraction "Hello" "Welcome"])
  = String.append "Previous conversation:"
      (turn_blocks 1 [Utils.mkInteraction "Hello" "Welcome"])
  /\ line_feeds
       (Utils.get_formatted_history
          (Utils.mkMemory 10 [Utils.mkInteraction "Hello" "Welcome"]))
     = 4%nat.
Proof.
  destruct (formatted_history_empty_iff
              (Utils.mkMemory 10 [Utils.mkInteraction "Hello" "Welcome"]))
    as (_ & _ & Heq & Hlines).
  split; [apply Heq; discriminate|].
  rewrite Hlines by discriminate. reflexivity.
Defined.

(** ** The fields of a response *)

(** X30. In a response the category is the caller's category when it is
    a non-empty string and the detected category otherwise (also when the
    results came from the unfiltered retry); the answer is the reply of
    the model to the system text and the prompt built from the retrieved
    context and the stripped question; and the same answer and sources go
    to the log. *)
Theorem response_fields (Embedding : Type) (env : Env Embedding)
  (w w' : World) (request : QueryRequest) (r : QueryResponse)
  (trace : list Event) :
  let q := Py.strip (question request) in
  ask_question Embedding env w request = (Response r, w', trace) ->
  resp_category r = Py.or_else (category request) (detect_category q)
  /\ (Py.truthy_opt (category request) = true ->
      resp_category r = category request)
  /\ (Py.truthy_opt (category request) = false ->
      resp_category r = detect_category q)
  /\ (exists docs metas ctx events history,
        retrieve Embedding env q (resp_category r)
        = (Some (docs, metas, ctx), events)
        /\ Ollama.generate (chat Embedding env) system (make_prompt ctx q) history
           = Ok (answer r)
        /\ sources r = sources_of metas
        /\ save_result (results_file w) q (answer r) (sources r)
             (now Embedding env 0%nat)
           = Ok (results_file w'))
  /\ timestamp r = now Embedding env 1%nat.
Proof.
  cbn zeta. intro H. unfold Api.ask_question in H.
  destruct (negb _ || negb _); [discriminate H|].
  set (c := Py.or_else (category request)
              (detect_category (Py.strip (question request)))) in *.
  assert (Hc : (Py.truthy_opt (category request) = true -> c = category request)
               /\ (Py.truthy_opt (category request) = false ->
                   c = detect_category (Py.strip (question request)))).
  { unfold c, Py.or_else. destruct (Py.truthy_opt (category request));
      split; congruence. }
  destruct (get (use_memory request) false).
  - destruct (get_session_memory _ _) as [s m].
    destruct (retrieve Embedding env _ c) as [[[[docs metas] ctx]|] events] eqn:Hr;
      [|discriminate H].
    destruct (Ollama.generate _ _ _ _) as [ans|msg] eqn:Hg; [|discriminate H].
    destruct (memory_truthy (Some m)); cbv beta iota zeta in H;
      (destruct (save_result (results_file w) (Py.strip (question request)) ans
                   (sources_of metas) (now Embedding env 0%nat))
         as [file|msg] eqn:Es; [|discriminate H]);
      inversion H; subst; cbn [resp_category];
      (split; [reflexivity|]); (split; [exact (proj1 Hc)|]);
      (split; [exact (proj2 Hc)|]); (split; [|reflexivity]);
      eexists; eexists; eexists; eexists; eexists;
      (split; [exact Hr|]); (split; [exact Hg|]); (split; [reflexivity|exact Es]).
  - destruct (retrieve Embedding env _ c) as [[[[docs metas] ctx]|] events] eqn:Hr;
      [|discriminate H].
    destruct (Ollama.generate _ _ _ _) as [ans|msg] eqn:Hg; [|discriminate H].
    cbn [memory_truthy] in *. cbv beta iota zeta in H.
    destruct (save_result (results_file w) (Py.strip (question request)) ans
                (sources_of metas) (now Embedding env 0%nat))
      as [file|msg] eqn:Es; [|discriminate H].
    inversion H; subst; cbn [resp_category].
    split; [reflexivity|]. split; [exact (proj1 Hc)|].
    split; [exact (proj2 Hc)|]. split; [|reflexivity].
    eexists; eexists; eexists; eexists; eexists.
    split; [exact Hr|]. split; [exact Hg|]. split; [reflexivity|exact Es].
Qed.

Lemma response_fields_witness :
  exists r w' trace,
    ask_question unit env_store_fees fresh_world admissions_request
    = (Response r, w', trace)
    /\ resp_category r = Some "Admissions"
    /\ sources r = ["QA#1 (Fees)"].
Proof.
  eexists. eexists. eexists. split; [reflexivity|].
  destruct (response_fields unit env_store_fees fresh_world _ admissions_request
              _ _ eq_refl) as (_ & Hc & _).
  split; [apply Hc; reflexivity|reflexivity].
Defined.

End MoreProps.
